(** * kglab tutorial notebooks: a shallow embedding and its properties

    The notebooks [ex01_2], [ex01_5] and [ex01_7] sequence calls into
    rdflib/kglab (RDF graphs, SPARQL), pslpython (PSL predicates and
    inference), pandas and the csv module.  The embedding below keeps the
    Python the notebooks themselves contain (helper functions, loops,
    branches, tuple unpacking, dictionary updates) and threads the state of
    the kernel, the file system and the printed output explicitly.  What the
    external engines compute (SPARQL answers, the order in which a graph is
    iterated, its N3 text, inferred probabilities, [int] of a string) is
    taken through the [Library] interface. *)

From Stdlib Require Import ZArith Floats.
From stdpp Require Import gmap strings list sorting pretty.

Open Scope string_scope.

(* ================================================================== *)
(** ** Python built-ins used by the notebooks *)
(* ================================================================== *)

Module Py.

(** [s.startswith(p)] *)
Definition startswith (p s : string) : bool := String.prefix p s.

(** [x in s] for two strings: [x] occurs in [s] at some offset. *)
Fixpoint contains (x s : string) : bool :=
  startswith x s ||
  match s with
  | EmptyString => false
  | String _ s' => contains x s'
  end.

(** [s.replace(old, new)] for a non-empty [old]: scan from the left; at
    the leftmost match emit [new] and resume after the match ([skip]
    counts the characters of the match still to be dropped). *)
Fixpoint replace_from (old new : string) (skip : nat) (s : string) : string :=
  match s with
  | EmptyString => EmptyString
  | String c s' =>
      match skip with
      | S k => replace_from old new k s'
      | O =>
          if startswith old s
          then new +:+ replace_from old new (String.length old - 1) s'
          else String c (replace_from old new 0 s')
      end
  end.

(** [s.replace("", new)]: [new] goes before every character and at the end. *)
Fixpoint intersperse (new s : string) : string :=
  match s with
  | EmptyString => new
  | String c s' => new +:+ String c (intersperse new s')
  end.

Definition replace (old new s : string) : string :=
  match old with
  | EmptyString => intersperse new s
  | String _ _ => replace_from old new 0 s
  end.

(** [any([f(x) for x in l])] *)
Definition any {A} (f : A -> bool) (l : list A) : bool := existsb f l.

(** [a, b = row]: unpacking needs exactly two values, otherwise ValueError. *)
Definition unpack2 {A} (row : list A) : option (A * A) :=
  match row with
  | [a; b] => Some (a, b)
  | _ => None
  end.

(** [str(z)] for an integer. *)
Definition str_of_int (z : Z) : string := pretty z.

(** [print(a, b, c)]: the arguments separated by one blank. *)
Definition print_line (args : list string) : string := String.concat " " args.

(** An integer turned into a float64, as numpy does when a frame with
    int64 and float64 columns hands a row over: the nearest binary64
    value, ties to even. *)
Definition float_of_int (z : Z) : float :=
  SF2Prim (binary_normalize prec emax z 0 false).

(** [int(x)] for a float: the integer part; [None] for an infinity
    (OverflowError) or a NaN. *)
Definition int_of_float (x : float) : option Z :=
  match Prim2SF x with
  | S754_zero _ => Some 0%Z
  | S754_finite s m e =>
      let v := if (0 <=? e)%Z then (Z.pos m * 2 ^ e)%Z else (Z.pos m / 2 ^ (- e))%Z in
      Some (if s then (- v)%Z else v)
  | _ => None
  end.

End Py.

(* ================================================================== *)
(** ** The csv module: [csv.reader] with the default dialect *)
(* ================================================================== *)

Module Csv.

(** The reader of CPython's [_csv] for the dialect the notebook uses: the
    given delimiter, the double quote as quote character, doubled quotes
    inside quoted fields, no escape character, not strict.  The lines are
    those the file object yields, taken without their terminator; every
    line is terminated in the file, and fields stay below
    [csv.field_size_limit]. *)

Definition quotechar : Ascii.ascii := Ascii.ascii_of_nat 34.
Definition newline : Ascii.ascii := Ascii.ascii_of_nat 10.

Inductive state :=
  | START_RECORD | START_FIELD | IN_FIELD | IN_QUOTED_FIELD | QUOTE_IN_QUOTED_FIELD.

(** The parser: its state, the field being read, the fields read. *)
Record parser := mkParser {
  st : state;
  field : string;
  fields : list string;
}.

Definition start : parser := mkParser START_RECORD "" [].

Definition add_char (c : Ascii.ascii) (s : state) (p : parser) : parser :=
  mkParser s (field p +:+ String c "") (fields p).

Definition save_field (s : state) (p : parser) : parser :=
  mkParser s "" (fields p ++ [field p])%list.

Definition goto (s : state) (p : parser) : parser :=
  mkParser s (field p) (fields p).

(** One character that is not a line terminator. *)
Definition process_char (d : Ascii.ascii) (p : parser) (c : Ascii.ascii) : parser :=
  match st p with
  | START_RECORD | START_FIELD =>
      if Ascii.eqb c quotechar then goto IN_QUOTED_FIELD p
      else if Ascii.eqb c d then save_field START_FIELD p
      else add_char c IN_FIELD p
  | IN_FIELD =>
      if Ascii.eqb c d then save_field START_FIELD p
      else add_char c IN_FIELD p
  | IN_QUOTED_FIELD =>
      if Ascii.eqb c quotechar then goto QUOTE_IN_QUOTED_FIELD p
      else add_char c IN_QUOTED_FIELD p
  | QUOTE_IN_QUOTED_FIELD =>
      if Ascii.eqb c quotechar then add_char c IN_QUOTED_FIELD p
      else if Ascii.eqb c d then save_field START_FIELD p
      else add_char c IN_FIELD p
  end.

Fixpoint process_line (d : Ascii.ascii) (line : string) (p : parser) : parser :=
  match line with
  | EmptyString => p
  | String c line' => process_line d line' (process_char d p c)
  end.

(** The end of a line: the record is complete, unless a quoted field is
    open, which then takes the line break and goes on with the next line. *)
Definition end_of_line (p : parser) : parser + list string :=
  match st p with
  | START_RECORD => inr (fields p)
  | START_FIELD | IN_FIELD | QUOTE_IN_QUOTED_FIELD => inr (fields p ++ [field p])%list
  | IN_QUOTED_FIELD => inl (add_char newline IN_QUOTED_FIELD p)
  end.

(** The records of the lines; a quoted field still open when the lines
    run out ends the last record. *)
Fixpoint read (d : Ascii.ascii) (lines : list string) (p : parser)
    : list (list string) :=
  match lines with
  | [] =>
      match st p with
      | IN_QUOTED_FIELD => [(fields p ++ [field p])%list]
      | _ => []
      end
  | line :: lines' =>
      match end_of_line (process_line d line p) with
      | inr record => record :: read d lines' start
      | inl p' => read d lines' p'
      end
  end.

(** [csv.reader(f, delimiter=d)] over the lines of [f] *)
Definition reader (d : Ascii.ascii) (lines : list string) : list (list string) :=
  read d lines start.

End Csv.

(* ================================================================== *)
(** ** rdflib: terms, triples and graphs *)
(* ================================================================== *)

Module Rdf.

(** The node types the notebooks meet.  All three are [str] subclasses in
    rdflib; two terms are equal when they have the same type and text. *)
Inductive term :=
  | URIRef (iri : string)
  | BNode (label : string)
  | Literal (lexical : string) (datatype : option string).

#[global] Instance term_eq_dec : EqDecision term.
Proof. solve_decision. Defined.

Definition term_encode (t : term) : string + string + string * option string :=
  match t with
  | URIRef s => inl (inl s)
  | BNode s => inl (inr s)
  | Literal s d => inr (s, d)
  end.

Definition term_decode (x : string + string + string * option string) : term :=
  match x with
  | inl (inl s) => URIRef s
  | inl (inr s) => BNode s
  | inr (s, d) => Literal s d
  end.

#[global] Instance term_countable : Countable term.
Proof.
  refine (inj_countable' term_encode term_decode _).
  intros []; reflexivity.
Defined.

(** [str(t)]: the text of the term, on which [str] methods operate. *)
Definition str (t : term) : string :=
  match t with
  | URIRef s => s
  | BNode s => s
  | Literal s _ => s
  end.

Abbreviation triple := (term * term * term)%type.
Abbreviation Graph := (gset (term * term * term)).

(** [Namespace(ns).name], as in [kg.get_ns("foaf").knows]. *)
Definition attr (ns name : string) : term := URIRef (ns +:+ name).

Definition RDF_type : term :=
  URIRef "http://www.w3.org/1999/02/22-rdf-syntax-ns#type".
Definition XSD_integer : string := "http://www.w3.org/2001/XMLSchema#integer".

(** [(s, p, o) in g] *)
Definition mem (t : triple) (g : Graph) : bool := bool_decide (t ∈ g).

(** [g.add((s, p, o))] *)
Definition add (t : triple) (g : Graph) : Graph := {[ t ]} ∪ g.

End Rdf.

(* ================================================================== *)
(** ** pslpython: partitions, predicates, models *)
(* ================================================================== *)

Module Psl.

Inductive Partition := OBSERVATIONS | TARGETS | TRUTH.

#[global] Instance Partition_eq_dec : EqDecision Partition.
Proof. solve_decision. Defined.

(** One row of a partition's table: the arguments, then the truth value. *)
Record data_row := DataRow { row_args : list string; row_truth : float }.

Record Predicate := mkPredicate {
  pred_name : string;
  pred_closed : bool;
  pred_size : nat;
  observations : list data_row;
  targets : list data_row;
  truth : list data_row;
}.

Definition data (p : Predicate) (part : Partition) : list data_row :=
  match part with
  | OBSERVATIONS => observations p
  | TARGETS => targets p
  | TRUTH => truth p
  end.

(** Predicate names are stored in upper case ([Likes] is kept as [LIKES]). *)
Definition upper_ascii (c : Ascii.ascii) : Ascii.ascii :=
  let n := Ascii.nat_of_ascii c in
  if (97 <=? n)%nat && (n <=? 122)%nat then Ascii.ascii_of_nat (n - 32) else c.

Fixpoint normalize_name (s : string) : string :=
  match s with
  | EmptyString => EmptyString
  | String c s' => String (upper_ascii c) (normalize_name s')
  end.

(** [Predicate(name, closed=..., size=...)] *)
Definition new_predicate (name : string) (closed : bool) (size : nat) : Predicate :=
  mkPredicate (normalize_name name) closed size [] [] [].

(** [predicate.clear_data()] *)
Definition clear_data (p : Predicate) : Predicate :=
  mkPredicate (pred_name p) (pred_closed p) (pred_size p) [] [] [].

Definition append_row (p : Predicate) (part : Partition) (r : data_row) : Predicate :=
  match part with
  | OBSERVATIONS =>
      mkPredicate (pred_name p) (pred_closed p) (pred_size p)
        (observations p ++ [r]) (targets p) (truth p)
  | TARGETS =>
      mkPredicate (pred_name p) (pred_closed p) (pred_size p)
        (observations p) (targets p ++ [r]) (truth p)
  | TRUTH =>
      mkPredicate (pred_name p) (pred_closed p) (pred_size p)
        (observations p) (targets p) (truth p ++ [r])
  end.

(** [predicate.add_data_row(partition, args, truth_value)]: the row is
    appended to the partition's table, whatever the truth value; the table
    has one column per argument and one for the truth value, and a row of
    another length is refused by pandas with ValueError ([None]). *)
Definition add_data_row (p : Predicate) (part : Partition)
    (args : list string) (truth_value : float) : option Predicate :=
  if (length args =? pred_size p)%nat
  then Some (append_row p part (DataRow args truth_value))
  else None.

Record Model := mkModel {
  model_name : string;
  predicates : gmap string Predicate;
  rules : list string;
}.

Definition new_model (name : string) : Model := mkModel name ∅ [].

(** [model.add_predicate(p)] *)
Definition add_predicate (m : Model) (p : Predicate) : Model :=
  mkModel (model_name m) (<[pred_name p := p]> (predicates m)) (rules m).

(** [model.add_rule(Rule(text))] *)
Definition add_rule (m : Model) (text : string) : Model :=
  mkModel (model_name m) (predicates m) (rules m ++ [text]).

(** [model.get_predicate(name)] *)
Definition get_predicate (m : Model) (name : string) : option Predicate :=
  predicates m !! normalize_name name.

(** A predicate object is shared between the model and the variable that
    holds it: a change made through the variable is stored back under the
    key the object has in the model. *)
Definition update_predicate (m : Model) (key : string) (p : Predicate) : Model :=
  mkModel (model_name m) (<[key := p]> (predicates m)) (rules m).

(** [for predicate in model.get_predicates().values(): predicate.clear_data()] *)
Definition clear_all (m : Model) : Model :=
  mkModel (model_name m) (clear_data <$> predicates m) (rules m).

End Psl.

(* ================================================================== *)
(** ** The notebook kernel: files, calls into the libraries, exceptions *)
(* ================================================================== *)

Module Nb.

Import Rdf Psl.

Inductive exn :=
  | ValueError | KeyError | IndexError | OverflowError
  | FileNotFoundError | ParserError | ModelError.

Inductive result (A : Type) :=
  | Ok (a : A)
  | Raise (e : exn).
Arguments Ok {A} a.
Arguments Raise {A} e.

(** A file is kept as what it serialises: the formats themselves belong
    to rdflib and pyarrow. *)
Inductive file :=
  | Turtle (g : Graph)
  | JsonLd (g : Graph)
  | Parquet (g : Graph)
  | Text (lines : list string)
  | Html.

(** What a notebook does that is visible outside its own variables. *)
Inductive event :=
  | EvLoadTtl (path : string)
  | EvSaveTtl (path : string)
  | EvSaveJsonld (path : string)
  | EvSaveParquet (path : string)
  | EvGetSize (path : string)
  | EvShow (path : string)
  | EvOpen (path : string)
  | EvQuery (q : string)
  | EvAddDataRow (pred : string) (part : Partition) (args : list string) (tv : float)
  | EvInfer
  | EvLookup (key : Z * Z)
  | EvSetDiff (index : nat) (v : float)
  | EvPrint (line : string).

Record world := mkWorld {
  fs : gmap string file;
  trace : list event;
}.

(** The engines behind the calls. *)
Class Library := {
  (** [kg.query(q)]: the rows of the answer, each a tuple of terms *)
  sparql : Graph -> string -> list (list term);
  (** [for s, p, o in g]: the triples in the order rdflib yields them,
      each once *)
  graph_iter : Graph -> list triple;
  graph_iter_perm : ∀ g, graph_iter g ≡ₚ elements g;
  (** [g.serialize(format="n3").decode("utf8")]: the N3 text of a graph *)
  serialize_n3 : Graph -> string;
  (** [model.infer(...)[KNOWS]]: the rows [(id1, id2, probability)] of the
      frame read back for the open predicate, its identifiers as the
      64-bit integers pandas reads them as; [None] for a failure *)
  psl_infer : Model -> option (list (Z * Z * float));
  (** [int(s)] for a string: [None] stands for ValueError *)
  py_int : string -> option Z;
}.

(** [csv.reader(f, delimiter=d)] over the lines of [f]: the records *)
Definition csv_reader (d : Ascii.ascii) (lines : list string) : list (list string) :=
  Csv.reader d lines.

(** A cell is a computation over the world and the notebook's variables
    [G]; an exception stops it and leaves both as they were at that point. *)
Definition M (G A : Type) : Type := world * G -> result A * (world * G).

#[global] Instance M_ret {G} : MRet (M G) := λ A a s, (Ok a, s).

#[global] Instance M_bind {G} : MBind (M G) := λ A B k m s,
  match m s with
  | (Ok a, s') => k a s'
  | (Raise e, s') => (Raise e, s')
  end.

Definition raise {G A} (e : exn) : M G A := λ s, (Raise e, s).

Definition get {G} : M G G := λ s, (Ok (snd s), s).
Definition put {G} (g : G) : M G unit := λ s, (Ok tt, (fst s, g)).
Definition modify {G} (f : G -> G) : M G unit := λ s, (Ok tt, (fst s, f (snd s))).

Definition emit {G} (e : event) : M G unit := λ s,
  (Ok tt, (mkWorld (fs (fst s)) (trace (fst s) ++ [e]), snd s)).

Definition read_file {G} (path : string) : M G file := λ s,
  match fs (fst s) !! path with
  | Some f => (Ok f, s)
  | None => (Raise FileNotFoundError, s)
  end.

Definition write_file {G} (path : string) (f : file) : M G unit := λ s,
  (Ok tt, (mkWorld (<[path := f]> (fs (fst s))) (trace (fst s)), snd s)).

Definition from_option {G A} (e : exn) (o : option A) : M G A :=
  match o with
  | Some a => mret a
  | None => raise e
  end.

(** [for x in l: body] *)
Fixpoint for_each {G A} (l : list A) (body : A -> M G unit) : M G unit :=
  match l with
  | [] => mret tt
  | x :: l' => body x ;; for_each l' body
  end.

(** [print(...)] *)
Definition print {G} (line : string) : M G unit := emit (EvPrint line).

(** Running cells in order ("Run All"): the first exception ends the run. *)
Fixpoint run_cells {G} (cells : list (M G unit)) : M G unit :=
  match cells with
  | [] => mret tt
  | c :: cs => c ;; run_cells cs
  end.

Section Kglab.
Context {L : Library} {G : Type}.

(** [kg.load_ttl(path)]: the triples of the file are added to the graph. *)
Definition load_ttl (path : string) (g : Graph) : M G Graph :=
  emit (EvLoadTtl path) ;;
  f ← read_file path ;
  match f with
  | Turtle g' => mret (g' ∪ g)
  | _ => raise ParserError
  end.

(** [kg.save_ttl(path)], [kg.save_jsonld(path)], [kg.save_parquet(path)] *)
Definition save_ttl (path : string) (g : Graph) : M G unit :=
  emit (EvSaveTtl path) ;; write_file path (Turtle g).
Definition save_jsonld (path : string) (g : Graph) : M G unit :=
  emit (EvSaveJsonld path) ;; write_file path (JsonLd g).
Definition save_parquet (path : string) (g : Graph) : M G unit :=
  emit (EvSaveParquet path) ;; write_file path (Parquet g).

(** [kg.query(q)] *)
Definition query (q : string) (g : Graph) : M G (list (list term)) :=
  emit (EvQuery q) ;; mret (sparql g q).

(** [os.path.getsize(path)]: only that the file must exist matters here. *)
Definition getsize (path : string) : M G unit :=
  emit (EvGetSize path) ;; _ ← read_file path ; mret tt.

(** [row[i]] on a result tuple *)
Definition index {A} (row : list A) (i : nat) : M G A :=
  from_option IndexError (row !! i).
End Kglab.

(** The paths an event reads and writes. *)
Definition reads (e : event) : option string :=
  match e with
  | EvLoadTtl p | EvGetSize p | EvOpen p => Some p
  | _ => None
  end.

Definition writes (e : event) : option string :=
  match e with
  | EvSaveTtl p | EvSaveJsonld p | EvSaveParquet p | EvShow p => Some p
  | _ => None
  end.

End Nb.

(* ================================================================== *)
(** ** ex01_7: statistical relational learning with pslpython *)
(* ================================================================== *)

Module Ex01_7.

Import Rdf Psl Nb.

(** The entries of [namespaces] the code looks up with [kg.get_ns]. *)
Definition acq : string := "http://example.org/stuff/".
Definition foaf : string := "http://xmlns.com/foaf/0.1/".

(** A row [{0: p1, 1: p2, "truth": truth}] of [rows_list] and [df_dat]:
    the identifiers are the strings read from the targets file. *)
Record dat_row := mkRow { col0 : string; col1 : string; col_truth : float }.

(** A row of the frame the model returns: its columns [0] and [1] hold
    64-bit integers, its column [truth] the probability. *)
Record res_row := mkRes { res0 : Z; res1 : Z; res_truth : float }.

(** A frame the model returned: its rows, and the column [diff] once it
    exists. *)
Record DataFrame := mkDf {
  df_rows : list res_row;
  df_diff : option (list float);
}.

(** What the variable [df] refers to: the frame [results] holds for the
    predicate (after [df = results[predicate]]), or a frame of its own
    (the one an earlier [results] held). *)
Inductive frame_ref :=
  | ResultsFrame
  | OwnFrame (d : DataFrame).

(** The variables the cells share.  [predicate] refers to a predicate
    object of the model, by the key it has there; [results] is kept as
    the frame it holds for [KNOWS]. *)
Record globals := mkGlobals {
  kg : Graph;
  model : Model;
  predicate : string;
  targets : list (string * string);
  rows_list : list dat_row;
  df_dat : list dat_row;
  results : DataFrame;
  df_ref : frame_ref;
  dat_val : gmap (Z * Z) float;
}.

Definition init : globals :=
  mkGlobals ∅ (new_model "") "" [] [] [] (mkDf [] None) (OwnFrame (mkDf [] None)) ∅.

(** The frame [df] refers to. *)
Definition df (g : globals) : DataFrame :=
  match df_ref g with
  | ResultsFrame => results g
  | OwnFrame d => d
  end.

Definition with_kg (x : Graph) (g : globals) : globals :=
  mkGlobals x (model g) (predicate g) (targets g) (rows_list g) (df_dat g)
    (results g) (df_ref g) (dat_val g).
Definition with_model (x : Model) (g : globals) : globals :=
  mkGlobals (kg g) x (predicate g) (targets g) (rows_list g) (df_dat g)
    (results g) (df_ref g) (dat_val g).
Definition with_predicate (x : string) (g : globals) : globals :=
  mkGlobals (kg g) (model g) x (targets g) (rows_list g) (df_dat g)
    (results g) (df_ref g) (dat_val g).
Definition with_targets (x : list (string * string)) (g : globals) : globals :=
  mkGlobals (kg g) (model g) (predicate g) x (rows_list g) (df_dat g)
    (results g) (df_ref g) (dat_val g).
Definition with_rows_list (x : list dat_row) (g : globals) : globals :=
  mkGlobals (kg g) (model g) (predicate g) (targets g) x (df_dat g)
    (results g) (df_ref g) (dat_val g).
Definition with_df_dat (x : list dat_row) (g : globals) : globals :=
  mkGlobals (kg g) (model g) (predicate g) (targets g) (rows_list g) x
    (results g) (df_ref g) (dat_val g).
Definition with_dat_val (x : gmap (Z * Z) float) (g : globals) : globals :=
  mkGlobals (kg g) (model g) (predicate g) (targets g) (rows_list g) (df_dat g)
    (results g) (df_ref g) x.

(** [results = ...]: the variable is bound to a new frame; the frame it
    held stays what [df] referred to. *)
Definition with_results (x : DataFrame) (g : globals) : globals :=
  mkGlobals (kg g) (model g) (predicate g) (targets g) (rows_list g) (df_dat g)
    x (OwnFrame (df g)) (dat_val g).

(** [df = results[predicate]] *)
Definition with_df_ref (x : frame_ref) (g : globals) : globals :=
  mkGlobals (kg g) (model g) (predicate g) (targets g) (rows_list g) (df_dat g)
    (results g) x (dat_val g).

(** A change made in place to the frame [df] refers to. *)
Definition with_df (x : DataFrame) (g : globals) : globals :=
  match df_ref g with
  | ResultsFrame =>
      mkGlobals (kg g) (model g) (predicate g) (targets g) (rows_list g) (df_dat g)
        x ResultsFrame (dat_val g)
  | OwnFrame _ => with_df_ref (OwnFrame x) g
  end.

(** The threshold [-0.2] of the last cell, as the binary64 value Python
    reads the literal as. *)
Definition threshold : float := (-0x1.999999999999ap-3)%float.

Definition person_prefix : string := "http://example.org/stuff/person_".

(** Cell 8:
    [def get_person_id (url): return url.replace("http://example.org/stuff/person_", "")] *)
Definition get_person_id (url : string) : string :=
  Py.replace "http://example.org/stuff/person_" "" url.

Definition query_neighbors : string := "
SELECT DISTINCT ?p1 ?p2
  WHERE {
      ?p1 foaf:based_near ?l .
      ?p2 foaf:based_near ?l .
  }
        ".

Definition query_likes : string := "
SELECT DISTINCT ?p1 ?p2
  WHERE {
      ?p1 foaf:topic_interest ?t .
      ?p2 foaf:topic_interest ?t .
  }
        ".

Definition query_knows : string := "
SELECT ?p1 ?p2
  WHERE {
      ?p1 foaf:knows ?p2 .
  }
  ORDER BY ?p1 ?p2
        ".

Definition query_wants_intro : string := "
SELECT ?p1 ?p2
  WHERE {
      ?p1 acq:wantsIntro ?p2 .
  }
  ORDER BY ?p1 ?p2
        ".

Definition targets_path : string := "dat/psl/knows_targets.txt".

Definition tab : Ascii.ascii := Ascii.ascii_of_nat 9.

Section Cells.
Context {L : Library}.

(** [predicate = model.get_predicate(name)] *)
Definition bind_predicate (name : string) : M globals unit :=
  g ← get ;
  p ← from_option KeyError (get_predicate (model g) name) ;
  put (with_predicate (normalize_name name) g).

(** [predicate.add_data_row(part, args, truth_value=tv)] *)
Definition predicate_add_data_row (part : Partition) (args : list string)
    (tv : float) : M globals unit :=
  g ← get ;
  emit (EvAddDataRow (predicate g) part args tv) ;;
  p ← from_option KeyError (predicates (model g) !! predicate g) ;
  p' ← from_option ValueError (add_data_row p part args tv) ;
  put (with_model (update_predicate (model g) (predicate g) p') g).

(** Cell 1 *)
Definition cell01 : M globals unit :=
  modify (with_kg ∅) ;;
  g ← load_ttl "acq.ttl" ∅ ;
  modify (with_kg g).

(** Cell 2: [g.show("tmp.html")] writes the rendering. *)
Definition cell02 : M globals unit :=
  emit (EvShow "tmp.html") ;; write_file "tmp.html" Html.

(** Cell 3 *)
Definition cell03 : M globals unit :=
  g ← get ; save_ttl "foo.ttl" (kg g).

(** Cell 4 *)
Definition cell04 : M globals unit :=
  let model := new_model "simple acquaintances" in
  let model := add_predicate model (new_predicate "Neighbors" true 2) in
  let model := add_predicate model (new_predicate "Likes" true 2) in
  let model := add_predicate model (new_predicate "Knows" false 2) in
  modify (with_model model).

(** Cells 5 and 6 *)
Definition cell05 : M globals unit :=
  modify (λ g, with_model (foldl add_rule (model g)
    [ "20: Neighbors(P1, L) & Neighbors(P2, L) & (P1 != P2) -> Knows(P1, P2) ^2";
      "5: Neighbors(P1, L1) & Neighbors(P2, L2) & (P1 != P2) & (L1 != L2) -> !Knows(P1, P2) ^2";
      "10: Likes(P1, L) & Likes(P2, L) & (P1 != P2) -> Knows(P1, P2) ^2";
      "5: Knows(P1, P2) & Knows(P2, P3) & (P1 != P3) -> Knows(P1, P3) ^2";
      "5: !Knows(P1, P2) ^2" ]) g).

Definition cell06 : M globals unit :=
  modify (λ g, with_model (add_rule (model g) "Knows(P1, P2) = Knows(P2, P1) .") g).

(** Cell 7 *)
Definition cell07 : M globals unit :=
  modify (λ g, with_model (clear_all (model g)) g).

(** The body shared by cells 9 and 10. *)
Definition observe_distinct (row : list term) : M globals unit :=
  t1 ← index row 0 ;
  t2 ← index row 1 ;
  let p1 := get_person_id (str t1) in
  let p2 := get_person_id (str t2) in
  if bool_decide (p1 ≠ p2)
  then predicate_add_data_row OBSERVATIONS [p1; p2] 1%float
  else mret tt.

(** Cell 9 *)
Definition cell09 : M globals unit :=
  bind_predicate "Neighbors" ;;
  g ← get ;
  rows ← query query_neighbors (kg g) ;
  for_each rows observe_distinct.

(** Cell 10 *)
Definition cell10 : M globals unit :=
  bind_predicate "Likes" ;;
  g ← get ;
  rows ← query query_likes (kg g) ;
  for_each rows observe_distinct.

(** Cell 11 only displays [predicate.__dict__]. *)
Definition cell11 : M globals unit := bind_predicate "Likes".

(** The branch taken when the relation is in the graph. *)
Definition record_target (p1 p2 : string) (truth : float) : M globals unit :=
  predicate_add_data_row TRUTH [p1; p2] truth ;;
  predicate_add_data_row TARGETS [p1; p2] 1%float ;;
  modify (λ g, with_rows_list (rows_list g ++ [mkRow p1 p2 truth]) g).

(** The body of the loop over the targets file. *)
Definition load_target (row : list string) : M globals unit :=
  '(p1, p2) ← from_option ValueError (Py.unpack2 row) ;
  modify (λ g, with_targets (targets g ++ [(p1, p2)]) g) ;;
  let p1_url := URIRef ("http://example.org/stuff/person_" +:+ p1) in
  let p2_url := URIRef ("http://example.org/stuff/person_" +:+ p2) in
  g ← get ;
  if mem (p1_url, attr foaf "knows", p2_url) (kg g) then
    record_target p1 p2 1%float
  else if mem (p1_url, attr acq "wantsIntro", p2_url) (kg g) then
    record_target p1 p2 0%float
  else
    print (Py.print_line ["UNKNOWN"; p1; p2]).

(** [open(path, "r")]: the lines of a text file. *)
Definition open_text (path : string) : M globals (list string) :=
  emit (EvOpen path) ;;
  f ← read_file path ;
  match f with
  | Text lines => mret lines
  | _ => raise ValueError
  end.

(** Cell 12 *)
Definition cell12 : M globals unit :=
  modify (with_targets []) ;;
  modify (with_rows_list []) ;;
  bind_predicate "Knows" ;;
  f ← open_text targets_path ;
  for_each (csv_reader tab f) load_target ;;
  modify (λ g, with_df_dat (rows_list g) g).

(** The body shared by the two loops of cell 13. *)
Definition observe_non_target (tv : float) (row : list term) : M globals unit :=
  t1 ← index row 0 ;
  t2 ← index row 1 ;
  let p1 := get_person_id (str t1) in
  let p2 := get_person_id (str t2) in
  g ← get ;
  if bool_decide ((p1, p2) ∉ targets g)
  then predicate_add_data_row OBSERVATIONS [p1; p2] tv
  else mret tt.

(** Cell 13 *)
Definition cell13 : M globals unit :=
  bind_predicate "Knows" ;;
  g ← get ;
  rows ← query query_knows (kg g) ;
  for_each rows (observe_non_target 1%float) ;;
  g ← get ;
  rows ← query query_wants_intro (kg g) ;
  for_each rows (observe_non_target 0%float).

(** Cell 14 *)
Definition cell14 : M globals unit :=
  emit EvInfer ;;
  g ← get ;
  rows ← from_option ModelError (psl_infer (model g)) ;
  modify (with_results (mkDf ((λ r, mkRes r.1.1 r.1.2 r.2) <$> rows) None)).

(** Cell 15 *)
Definition cell15 : M globals unit :=
  g ← get ;
  _ ← from_option KeyError (predicates (model g) !! "KNOWS") ;
  modify (with_predicate "KNOWS") ;;
  modify (with_df_ref ResultsFrame).

(** [key = (int(p1), int(p2))] for a row of [df_dat], whose [p1] and [p2]
    are strings. *)
Definition key_of (row : dat_row) : M globals (Z * Z) :=
  k1 ← from_option ValueError (py_int (col0 row)) ;
  k2 ← from_option ValueError (py_int (col1 row)) ;
  mret (k1, k2).

(** [dat_val[key] = row["truth"]] *)
Definition record_truth (row : dat_row) : M globals unit :=
  key ← key_of row ;
  modify (λ g, with_dat_val (<[key := col_truth row]> (dat_val g)) g).

(** [key = (int(p1), int(p2))] for a row that [df.iterrows()] yields: the
    frame has integer and float columns, so the row is a float64 series
    and [p1], [p2] are the identifiers as floats. *)
Definition frame_key_of (row : res_row) : M globals (Z * Z) :=
  k1 ← from_option OverflowError (Py.int_of_float (Py.float_of_int (res0 row))) ;
  k2 ← from_option OverflowError (Py.int_of_float (Py.float_of_int (res1 row))) ;
  mret (k1, k2).

(** [df.at[index, "diff"] = v]: the first assignment creates the column,
    holding NaN in the other rows. *)
Definition set_diff (index : nat) (v : float) (d : DataFrame) : DataFrame :=
  let col :=
    match df_diff d with
    | Some c => c
    | None => replicate (length (df_rows d)) nan
    end in
  mkDf (df_rows d) (Some (<[index := v]> col)).

(** [df.at[index, "diff"] = row["truth"] - dat_val[key]] *)
Definition compute_diff (ir : nat * res_row) : M globals unit :=
  key ← frame_key_of ir.2 ;
  emit (EvLookup key) ;;
  g ← get ;
  v ← from_option KeyError (dat_val g !! key) ;
  let d := PrimFloat.sub (res_truth ir.2) v in
  emit (EvSetDiff ir.1 d) ;;
  modify (λ g, with_df (set_diff ir.1 d (df g)) g).

(** [df.iterrows()]: the rows with their index labels [0, 1, ...], as
    they are when the loop starts. *)
Definition iterrows (d : DataFrame) : list (nat * res_row) :=
  zip (seq 0 (length (df_rows d))) (df_rows d).

(** Cell 16 *)
Definition cell16 : M globals unit :=
  modify (with_dat_val ∅) ;;
  g ← get ;
  for_each (df_dat g) record_truth ;;
  g ← get ;
  for_each (iterrows (df g)) compute_diff.

(** Cell 17: [df["diff"].hist()] needs the column; the histogram itself
    is display. *)
Definition cell17 : M globals unit :=
  g ← get ;
  _ ← from_option KeyError (df_diff (df g)) ;
  mret tt.

(** The line cell 18 prints for a suspect relation. *)
Definition suspect_line (k1 k2 : Z) : string :=
  "?? acq:person_" +:+ Py.str_of_int k1 +:+ " foaf:knows acq:person_" +:+ Py.str_of_int k2.

(** The body of the loop of cell 18. *)
Definition report_suspect (diff_col : option (list float)) (ir : nat * res_row)
    : M globals unit :=
  col ← from_option KeyError diff_col ;
  diff ← from_option IndexError (col !! ir.1) ;
  if PrimFloat.ltb diff threshold then
    key ← frame_key_of ir.2 ;
    print (suspect_line key.1 key.2)
  else mret tt.

(** Cell 18 *)
Definition cell18 : M globals unit :=
  g ← get ;
  for_each (iterrows (df g)) (report_suspect (df_diff (df g))).

(** The notebook, top to bottom (cell 8 defines [get_person_id]). *)
Definition notebook : list (M globals unit) :=
  [ cell01; cell02; cell03; cell04; cell05; cell06; cell07;
    cell09; cell10; cell11; cell12; cell13; cell14; cell15; cell16; cell17;
    cell18 ].

Definition run (w : world) : result unit * (world * globals) :=
  run_cells notebook (w, init).

End Cells.

End Ex01_7.

(* ================================================================== *)
(** ** ex01_2: building a small recipe graph and serialising it *)
(* ================================================================== *)

Module Ex01_2.

Import Rdf Nb.

Definition wtm : string := "http://purl.org/heals/food/".
Definition ind : string := "http://purl.org/heals/ingredient/".

(** The notebook's only variable that matters here is [kg]. *)
Record globals := mkGlobals { kg : Graph }.

Definition init : globals := mkGlobals ∅.

Definition node : term := URIRef "https://www.food.com/recipe/327593".

(** [kg.add(s, p, o)] *)
Definition kg_add (s p o : term) : M globals unit :=
  modify (λ g, mkGlobals (add (s, p, o) (kg g))).

Section Cells.
Context {L : Library}.

(** Cell 1 *)
Definition cell01 : M globals unit := put (mkGlobals ∅).

(** Cell 2 *)
Definition cell02 : M globals unit :=
  kg_add node RDF_type (attr wtm "Recipe") ;;
  kg_add node (attr wtm "hasCookTime") (Literal "8" (Some XSD_integer)) ;;
  kg_add node (attr wtm "hasIngredient") (attr ind "ChickenEgg") ;;
  kg_add node (attr wtm "hasIngredient") (attr ind "CowMilk") ;;
  kg_add node (attr wtm "hasIngredient") (attr ind "WholeWheatFlour").

(** Cell 3: [for s, p, o in kg._g: print(s, p, o)] *)
Definition cell03 : M globals unit :=
  g ← get ;
  for_each (graph_iter (kg g))
    (λ t, print (Py.print_line [str t.1.1; str t.1.2; str t.2])).

(** Cell 4: [s = kg._g.serialize(format="n3")], [print(s.decode("utf8"))] *)
Definition cell04 : M globals unit :=
  g ← get ;
  print (serialize_n3 (kg g)).

(** Cells 5 to 7 *)
Definition cell05 : M globals unit := g ← get ; save_ttl "tmp.ttl" (kg g).
Definition cell06 : M globals unit := g ← get ; save_jsonld "tmp.jsonld" (kg g).
Definition cell07 : M globals unit := g ← get ; save_parquet "tmp.parquet" (kg g).

(** Cell 8 *)
Definition cell08 : M globals unit :=
  for_each ["tmp.jsonld"; "tmp.ttl"; "tmp.parquet"] getsize.

Definition notebook : list (M globals unit) :=
  [ cell01; cell02; cell03; cell04; cell05; cell06; cell07; cell08 ].

Definition run (w : world) : result unit * (world * globals) :=
  run_cells notebook (w, init).

End Cells.

End Ex01_2.

(* ================================================================== *)
(** ** ex01_5: SPARQL queries and annotations on the recipe graph *)
(* ================================================================== *)

Module Ex01_5.

Import Rdf Nb.

Definition wtm : string := "http://purl.org/heals/food/".
Definition ind : string := "http://purl.org/heals/ingredient/".
Definition nom : string := "https://github.com/DerwenAI/kglab/wiki/Vocab#".

Record globals := mkGlobals {
  kg : Graph;
  query : string;
  tally : list string;
}.

Definition init : globals := mkGlobals ∅ "" [].

Definition with_kg (x : Graph) (g : globals) : globals :=
  mkGlobals x (query g) (tally g).
Definition with_query (x : string) (g : globals) : globals :=
  mkGlobals (kg g) x (tally g).
Definition with_tally (x : list string) (g : globals) : globals :=
  mkGlobals (kg g) (query g) x.

Definition query_eggs : string := "
SELECT ?rec ?def ?time
  WHERE {
      ?rec rdf:type wtm:Recipe .
      ?rec skos:definition ?def .
      ?rec wtm:hasIngredient ind:ChickenEgg .
      ?rec wtm:hasCookTime ?time .
      FILTER (?time >= 90)
  }
  ORDER BY DESC(?time)
        ".

Definition query_flour_eggs_salt : string := "
SELECT ?rec ?def
  WHERE {
    ?rec rdf:type wtm:Recipe .
    ?rec skos:definition ?def .
    ?rec wtm:hasIngredient ind:ChickenEgg .
    ?rec wtm:hasIngredient ind:AllPurposeFlour .
    ?rec wtm:hasIngredient ind:Salt
  }
        ".

(** [(url, kg.get_ns("wtm").hasIngredient, kg.get_ns("ind").Butter) in kg._g] *)
Definition has_butter (url : term) (g : Graph) : bool :=
  mem (url, attr wtm "hasIngredient", attr ind "Butter") g.

(** [any([x in recipe_name for x in ["noodle", "spaetzle", "dumpling", "pasta"]])] *)
Definition sez_noodle (recipe_name : term) : bool :=
  Py.any (λ x, Py.contains x (str recipe_name))
    ["noodle"; "spaetzle"; "dumpling"; "pasta"].

(** [str(b)] for a boolean and [str([a, b])] for a list of two. *)
Definition str_of_bool (b : bool) : string := if b then "True" else "False".
Definition str_of_flags (a b : bool) : string :=
  "[" +:+ str_of_bool a +:+ ", " +:+ str_of_bool b +:+ "]".

Definition newline : string := String (Ascii.ascii_of_nat 10) EmptyString.

(** [a, b, c = row] *)
Definition unpack3 {A} (row : list A) : option (A * A * A) :=
  match row with
  | [a; b; c] => Some (a, b, c)
  | _ => None
  end.

(** Cell 13 *)
Definition noodle_ids : gset string :=
  {[ "400"; "86710"; "331765"; "508734"; "320154"; "220361"; "148900";
     "317697"; "252783"; "137357"; "1975"; "31041"; "441475"; "261361";
     "124106"; "78459"; "358908"; "103964"; "91311"; "497918"; "328388" ]}.

(** Cell 14 *)
Definition pancake_ids : gset string :=
  {[ "277824"; "489"; "4643"; "272746"; "12055"; "124131"; "40772"; "459";
     "48178"; "124176"; "61108"; "111008"; "262038"; "458"; "440398";
     "157638" ]}.

(** [rdf.URIRef(f"https://www.food.com/recipe/{id}")] *)
Definition recipe_node (id : string) : term :=
  URIRef ("https://www.food.com/recipe/" +:+ id).

(** [kg.add(node, RDF.type, kg.get_ns("nom").<cls>)] for one id *)
Definition annotate (cls : string) (id : string) : M globals unit :=
  modify (λ g, with_kg (add (recipe_node id, RDF_type, attr nom cls) (kg g)) g).

Section Cells.
Context {L : Library}.

(** Cells 1 to 5 parse a three-person graph from a string into a graph of
    their own and print query answers; they touch neither [kg] nor a file. *)

(** Cell 6 *)
Definition cell06 : M globals unit :=
  modify (with_kg ∅) ;;
  g ← load_ttl "tmp.ttl" ∅ ;
  modify (with_kg g).

(** Cell 7 *)
Definition cell07 : M globals unit := modify (with_query query_eggs).

(** Cell 8 *)
Definition print_recipe (row : list term) : M globals unit :=
  '(rec, recipe_name, cook_time) ← from_option ValueError (unpack3 row) ;
  print (str rec +:+ newline +:+ " " +:+ str recipe_name +:+ newline +:+ " "
         +:+ str cook_time +:+ " minutes" +:+ newline).

Definition cell08 : M globals unit :=
  g ← get ;
  rows ← Nb.query (query g) (kg g) ;
  for_each rows print_recipe.

(** Cell 9 *)
Definition cell09 : M globals unit :=
  g ← get ;
  g' ← load_ttl "nom.ttl" (kg g) ;
  modify (with_kg g').

(** Cell 10 *)
Definition cell10 : M globals unit := modify (with_query query_flour_eggs_salt).

(** Cell 11: the body of the loop, and the cell *)
Definition collect_flags (row : list term) : M globals unit :=
  '(url, recipe_name) ← from_option ValueError (Py.unpack2 row) ;
  g ← get ;
  let has_butter := has_butter url (kg g) in
  let sez_noodle := sez_noodle recipe_name in
  modify (λ g, with_tally (tally g ++ [str_of_flags has_butter sez_noodle]) g) ;;
  print (str url +:+ newline +:+ " " +:+ str recipe_name +:+ newline +:+ " "
         +:+ str_of_bool has_butter +:+ " " +:+ str_of_bool sez_noodle
         +:+ newline).

Definition cell11 : M globals unit :=
  modify (with_tally []) ;;
  g ← get ;
  rows ← Nb.query (query g) (kg g) ;
  for_each rows collect_flags.

(** Cell 15 (cell 12 displays [Counter(tally)]): the two annotation loops,
    each over the elements of its set, then the graph is saved. *)
Definition cell15 : M globals unit :=
  for_each (elements noodle_ids) (annotate "Noodle") ;;
  for_each (elements pancake_ids) (annotate "Pancake") ;;
  g ← get ;
  save_ttl "tmp.ttl" (kg g).

Definition notebook : list (M globals unit) :=
  [ cell06; cell07; cell08; cell09; cell10; cell11; cell15 ].

Definition run (w : world) : result unit * (world * globals) :=
  run_cells notebook (w, init).

End Cells.

End Ex01_5.

(* ================================================================== *)
(** ** A small instance of the library interface, for running examples *)
(* ================================================================== *)

Module Demo.

Import Rdf Psl Nb.

(** Plain decimal numerals with an optional sign. *)
Definition digit_value (c : Ascii.ascii) : option Z :=
  let n := Ascii.nat_of_ascii c in
  if (48 <=? n)%nat && (n <=? 57)%nat then Some (Z.of_nat (n - 48)) else None.

Fixpoint digits (acc : Z) (s : string) : option Z :=
  match s with
  | EmptyString => Some acc
  | String c s' =>
      match digit_value c with
      | Some d => digits (10 * acc + d) s'
      | None => None
      end
  end.

Definition int_of_decimal (s : string) : option Z :=
  match s with
  | EmptyString => None
  | String c s' =>
      if Ascii.eqb c (Ascii.ascii_of_nat 45) then
        match s' with EmptyString => None | _ => Z.opp <$> digits 0 s' end
      else if Ascii.eqb c (Ascii.ascii_of_nat 43) then
        match s' with EmptyString => None | _ => digits 0 s' end
      else digits 0 s
  end.

(** Answers to the four queries of ex01_7, read off the triples. *)
Definition pairs_of (p : term) (g : Graph) : list (term * term) :=
  omap (λ t : triple, if bool_decide (t.1.2 = p) then Some (t.1.1, t.2) else None)
    (elements g).

Definition sharing (p : term) (g : Graph) : list (list term) :=
  remove_dups
    (a ← pairs_of p g ;
     b ← pairs_of p g ;
     if bool_decide (a.2 = b.2) then [[a.1; b.1]] else []).

Definition related (p : term) (g : Graph) : list (list term) :=
  (λ a : term * term, [a.1; a.2]) <$> pairs_of p g.

Definition answers (g : Graph) (q : string) : list (list term) :=
  if bool_decide (q = Ex01_7.query_neighbors) then
    sharing (attr Ex01_7.foaf "based_near") g
  else if bool_decide (q = Ex01_7.query_likes) then
    sharing (attr Ex01_7.foaf "topic_interest") g
  else if bool_decide (q = Ex01_7.query_knows) then
    related (attr Ex01_7.foaf "knows") g
  else if bool_decide (q = Ex01_7.query_wants_intro) then
    related (attr Ex01_7.acq "wantsIntro") g
  else [].

(** An inference stand-in: every target of [KNOWS] gets probability 0.5;
    the identifiers are read back as integers. *)
Definition half_everywhere (m : Model) : option (list (Z * Z * float)) :=
  p ← predicates m !! "KNOWS" ;
  mapM (λ r, '(p1, p2) ← Py.unpack2 (row_args r) ;
             k1 ← int_of_decimal p1 ;
             k2 ← int_of_decimal p2 ;
             Some (k1, k2, 0.5%float))
    (targets p).

(** A serialisation stand-in: one statement per triple. *)
Definition statements (g : Graph) : string :=
  String.concat " . "
    ((λ t : triple, Py.print_line [str t.1.1; str t.1.2; str t.2]) <$> elements g).

#[global] Instance library : Library := {|
  sparql := answers;
  graph_iter := λ g, reverse (elements g);
  graph_iter_perm := λ g, reverse_Permutation (elements g);
  serialize_n3 := statements;
  psl_infer := half_everywhere;
  py_int := int_of_decimal;
|}.

Definition person (id : string) : term := URIRef (Ex01_7.person_prefix +:+ id).

(** Three people: 1 knows 2, 1 would like to meet 3, 1 and 2 live in the
    same place. *)
Definition acq_graph : Graph :=
  {[ (person "1", attr Ex01_7.foaf "knows", person "2");
     (person "1", attr Ex01_7.acq "wantsIntro", person "3");
     (person "1", attr Ex01_7.foaf "based_near", URIRef "http://example.org/stuff/place_0");
     (person "2", attr Ex01_7.foaf "based_near", URIRef "http://example.org/stuff/place_0") ]}.

Definition tab_line (a b : string) : string :=
  a +:+ String Ex01_7.tab EmptyString +:+ b.

Definition acq_files : gmap string file :=
  {[ "acq.ttl" := Turtle acq_graph;
     Ex01_7.targets_path := Text [tab_line "1" "2"; tab_line "1" "3"; tab_line "2" "3"] ]}.

Definition acq_world : world := mkWorld acq_files [].

(** The state of the example run before the targets are read (cell 12)
    and before the comparison (cell 16). *)
Definition before_targets : world * Ex01_7.globals :=
  (run_cells
     [ Ex01_7.cell01; Ex01_7.cell02; Ex01_7.cell03; Ex01_7.cell04;
       Ex01_7.cell05; Ex01_7.cell06; Ex01_7.cell07; Ex01_7.cell09;
       Ex01_7.cell10; Ex01_7.cell11 ]
     (acq_world, Ex01_7.init)).2.

Definition before_compare : world * Ex01_7.globals :=
  (run_cells
     [ Ex01_7.cell12; Ex01_7.cell13; Ex01_7.cell14; Ex01_7.cell15 ]
     before_targets).2.

(** The state of the example run once the model is declared (before
    cell 9) and once the targets are read (before cell 13). *)
Definition declared : world * Ex01_7.globals :=
  (run_cells
     [ Ex01_7.cell01; Ex01_7.cell02; Ex01_7.cell03; Ex01_7.cell04;
       Ex01_7.cell05; Ex01_7.cell06; Ex01_7.cell07 ]
     (acq_world, Ex01_7.init)).2.

Definition after_targets : world * Ex01_7.globals :=
  (Ex01_7.cell12 before_targets).2.

(** Two recipes with their names, one of them made with butter, and an
    engine that answers the second query of ex01_5 with the recipes and
    their names. *)
Definition pasta_graph : Graph :=
  {[ (Ex01_5.recipe_node "1", URIRef "http://www.w3.org/2004/02/skos/core#definition",
      Literal "egg noodles" None);
     (Ex01_5.recipe_node "1", attr Ex01_5.wtm "hasIngredient", attr Ex01_5.ind "Butter");
     (Ex01_5.recipe_node "2", URIRef "http://www.w3.org/2004/02/skos/core#definition",
      Literal "plain pancakes" None) ]}.

Definition recipe_answers (g : Graph) (q : string) : list (list term) :=
  if bool_decide (q = Ex01_5.query_flour_eggs_salt) then
    related (URIRef "http://www.w3.org/2004/02/skos/core#definition") g
  else [].

Definition recipes : Library := {|
  sparql := recipe_answers;
  graph_iter := λ g, reverse (elements g);
  graph_iter_perm := λ g, reverse_Permutation (elements g);
  serialize_n3 := statements;
  psl_infer := half_everywhere;
  py_int := int_of_decimal;
|}.



End Demo.

(* ================================================================== *)
(** ** Vocabulary for stating properties of runs *)
(* ================================================================== *)

Module Hoare.

Import Nb.

Section Triples.
Context {G : Type}.

(** [hoare P m Q E]: from a state in [P], the computation [m] either
    ends normally with a value and state in [Q], or raises in a state in [E]. *)
Definition hoare {A} (P : world * G → Prop) (m : M G A)
    (Q : A → world * G → Prop) (E : world * G → Prop) : Prop :=
  ∀ s, P s →
    match m s with
    | (Ok a, s') => Q a s'
    | (Raise _, s') => E s'
    end.

(** [preserves I m]: [I] holds after [m] whatever the outcome. *)
Definition preserves {A} (I : world * G → Prop) (m : M G A) : Prop :=
  hoare I m (λ _, I) I.

End Triples.

End Hoare.

Module Spec.

Import Rdf Psl Nb.


(** The rows of one partition of the predicate stored under [key]. *)
Definition rows_of (m : Model) (key : string) (part : Partition) : list data_row :=
  match predicates m !! key with
  | Some p => data p part
  | None => []
  end.

(** A call of [add_data_row] with exactly two identifiers. *)
Definition binary_call (e : event) : Prop :=
  match e with
  | EvAddDataRow _ _ args _ => length args = 2
  | _ => True
  end.

(** A predicate of size 2 all of whose rows hold two identifiers. *)
Definition binary_predicate (p : Predicate) : Prop :=
  pred_size p = 2 ∧
  ∀ part, Forall (λ r, length (row_args r) = 2) (data p part).

Definition binary_model (m : Model) : Prop :=
  map_Forall (λ _ p, binary_predicate p) (predicates m).

(** The steps of the inference workflow, numbered in the order the spec
    lists them: loading the graph (0), looking at it (1), querying it and
    filling the predicate tables (2), inference (3), comparison (4).  The
    only lines printed while the tables are filled start with UNKNOWN. *)
Definition phase (e : event) : nat :=
  match e with
  | EvLoadTtl _ => 0
  | EvShow _ | EvSaveTtl _ | EvSaveJsonld _ | EvSaveParquet _ | EvGetSize _ => 1
  | EvQuery _ | EvAddDataRow _ _ _ _ | EvOpen _ => 2
  | EvInfer => 3
  | EvLookup _ | EvSetDiff _ _ => 4
  | EvPrint line => if Py.startswith "UNKNOWN" line then 2 else 4
  end.

(** A trace whose steps never go back, and have not passed step [k]. *)
Definition in_order (k : nat) (tr : list event) : Prop :=
  StronglySorted le (phase <$> tr) ∧ Forall (λ e, (phase e ≤ k)%nat) tr.

(** States whose trace has only binary calls and whose model is binary. *)
Definition binary_state (s : world * Ex01_7.globals) : Prop :=
  Forall binary_call (trace s.1) ∧ binary_model (Ex01_7.model s.2).

(** States whose trace is in order up to step [k]. *)
Definition ordered_state (k : nat) (s : world * Ex01_7.globals) : Prop :=
  in_order k (trace s.1).

(** Events are only ever appended: the trace after [t0], all in [P]. *)
Definition grown_by (P : event → Prop) (t0 : list event)
    (s : world * Ex01_7.globals) : Prop :=
  ∃ evs, trace s.1 = (t0 ++ evs)%list ∧ Forall P evs.

(** An event that reads only paths of [rs] and writes only paths of [ws]. *)
Definition touches_only (rs ws : list string) (e : event) : Prop :=
  (∀ p, reads e = Some p → p ∈ rs) ∧ (∀ p, writes e = Some p → p ∈ ws).

Definition confined {G} (rs ws : list string) (s : world * G) : Prop :=
  Forall (touches_only rs ws) (trace s.1).


(** The column [diff] as it stands, NaN where nothing was assigned yet. *)
Definition current_diff (d : Ex01_7.DataFrame) : list float :=
  match Ex01_7.df_diff d with
  | Some c => c
  | None => replicate (length (Ex01_7.df_rows d)) nan
  end.

Section WithLibrary.
Context {L : Library}.

(** One more row in the fold that [recorded] runs. *)
Definition record_step (acc : option (gmap (Z * Z) float)) (row : Ex01_7.dat_row)
    : option (gmap (Z * Z) float) :=
  m ← acc ;
  k1 ← py_int (Ex01_7.col0 row) ;
  k2 ← py_int (Ex01_7.col1 row) ;
  Some (<[(k1, k2) := Ex01_7.col_truth row]> m).

(** The table [dat_val] the first loop of cell 16 builds from [df_dat]:
    later rows overwrite earlier ones with the same key. *)
Definition recorded (rows : list Ex01_7.dat_row) : option (gmap (Z * Z) float) :=
  foldl (λ acc row,
           m ← acc ;
           k1 ← py_int (Ex01_7.col0 row) ;
           k2 ← py_int (Ex01_7.col1 row) ;
           Some (<[(k1, k2) := Ex01_7.col_truth row]> m))
        (Some ∅) rows.

End WithLibrary.


(** The key of a row of the frame: its identifiers rounded to float64 and
    read back as integers. *)
Definition frame_key (row : Ex01_7.res_row) : option (Z * Z) :=
  k1 ← Py.int_of_float (Py.float_of_int (Ex01_7.res0 row)) ;
  k2 ← Py.int_of_float (Py.float_of_int (Ex01_7.res1 row)) ;
  Some (k1, k2).

(** [diff] for one row of the frame, given the recorded truths. *)
Definition diff_of (dat_val : gmap (Z * Z) float) (row : Ex01_7.res_row)
    : option float :=
  k ← frame_key row ;
  v ← dat_val !! k ;
  Some (PrimFloat.sub (Ex01_7.res_truth row) v).


(** The same for any identifiers: the line shows them as the floats give
    them back. *)
Definition suspects_rounded (rows : list Ex01_7.res_row) (diffs : list float)
    : list string :=
  omap (λ rd : Ex01_7.res_row * float,
          if PrimFloat.ltb rd.2 (- (2 / 10))%float then
            k ← frame_key rd.1 ;
            Some ("?? acq:person_" +:+ pretty k.1
                  +:+ " foaf:knows acq:person_" +:+ pretty k.2)
          else None)
       (zip rows diffs).




(** The two identifiers of a query row, when it has at least two columns. *)
Definition person_pair (row : list term) : option (string * string) :=
  match row with
  | t1 :: t2 :: _ =>
      Some (Ex01_7.get_person_id (str t1), Ex01_7.get_person_id (str t2))
  | _ => None
  end.

(** The pairs cells 9 and 10 keep: those of two different identifiers. *)
Definition distinct_pairs (rows : list (list term)) : list (string * string) :=
  filter (λ p, p.1 ≠ p.2) (omap person_pair rows).

(** The pairs cell 13 keeps: those that are not among the targets. *)
Definition non_target_pairs (targets : list (string * string))
    (rows : list (list term)) : list (string * string) :=
  filter (λ p, p ∉ targets) (omap person_pair rows).

(** The rows a list of pairs makes in a partition. *)
Definition rows_for (tv : float) (pairs : list (string * string)) : list data_row :=
  (λ p, DataRow [p.1; p.2] tv) <$> pairs.

(** The model after rows were appended to one partition of the predicate
    stored under [key]. *)
Definition extended (m : Model) (key : string) (part : Partition)
    (rs : list data_row) : Model :=
  match predicates m !! key with
  | Some p => update_predicate m key (foldl (λ q r, append_row q part r) p rs)
  | None => m
  end.

(** What the graph says about a target pair: known (1.0), wanting an
    introduction (0.0), or nothing; [foaf:knows] is looked up first. *)
Definition classify (g : Graph) (p : string * string) : option float :=
  let p1_url := URIRef ("http://example.org/stuff/person_" +:+ p.1) in
  let p2_url := URIRef ("http://example.org/stuff/person_" +:+ p.2) in
  if mem (p1_url, URIRef "http://xmlns.com/foaf/0.1/knows", p2_url) g then Some 1%float
  else if mem (p1_url, URIRef "http://example.org/stuff/wantsIntro", p2_url) g
  then Some 0%float
  else None.

(** The recognised target pairs with their truth values, in file order. *)
Definition recognised (g : Graph) (pairs : list (string * string))
    : list Ex01_7.dat_row :=
  omap (λ p, Ex01_7.mkRow p.1 p.2 <$> classify g p) pairs.

(** The pairs the graph says nothing about. *)
Definition unrecognised (g : Graph) (pairs : list (string * string))
    : list (string * string) :=
  filter (λ p, classify g p = None) pairs.

(** The calls that add pairs to a partition of a predicate, in order. *)
Definition additions (key : string) (part : Partition) (tv : float)
    (pairs : list (string * string)) : list event :=
  (λ q, EvAddDataRow key part [q.1; q.2] tv) <$> pairs.

(** What the loop over the targets file does for the pairs, in order: a
    recognised pair is added to [TRUTH] and to [TARGETS] of the predicate,
    any other pair is printed. *)
Definition target_events (key : string) (g : Graph) (pairs : list (string * string))
    : list event :=
  pairs ≫= λ q,
    match classify g q with
    | Some tv =>
        [EvAddDataRow key TRUTH [q.1; q.2] tv;
         EvAddDataRow key TARGETS [q.1; q.2] 1%float]
    | None => [EvPrint ("UNKNOWN " +:+ q.1 +:+ " " +:+ q.2)]
    end.

(** The look-ups and differences of the comparison, row by row. *)
Definition comparison_events (rows : list Ex01_7.res_row) (diffs : list float)
    : list event :=
  zip (zip (seq 0 (length rows)) rows) diffs ≫= λ x,
    match frame_key x.1.2 with
    | Some k => [EvLookup k; EvSetDiff x.1.1 x.2]
    | None => []
    end.

(** The lines a trace printed, in order. *)
Definition printed (tr : list event) : list string :=
  omap (λ e, match e with EvPrint line => Some line | _ => None end) tr.

(** The flags cell 11 of ex01_5 records for a row. *)
Definition flags_of (g : Graph) (row : list term) : option string :=
  match row with
  | [url; recipe_name] =>
      Some (Ex01_5.str_of_flags (Ex01_5.has_butter url g)
              (Ex01_5.sez_noodle recipe_name))
  | _ => None
  end.

(** The graph cell 2 of ex01_2 builds. *)
Definition recipe_graph : Graph :=
  {[ (Ex01_2.node, RDF_type, URIRef "http://purl.org/heals/food/Recipe");
     (Ex01_2.node, URIRef "http://purl.org/heals/food/hasCookTime",
      Literal "8" (Some XSD_integer));
     (Ex01_2.node, URIRef "http://purl.org/heals/food/hasIngredient",
      URIRef "http://purl.org/heals/ingredient/ChickenEgg");
     (Ex01_2.node, URIRef "http://purl.org/heals/food/hasIngredient",
      URIRef "http://purl.org/heals/ingredient/CowMilk");
     (Ex01_2.node, URIRef "http://purl.org/heals/food/hasIngredient",
      URIRef "http://purl.org/heals/ingredient/WholeWheatFlour") ]}.

End Spec.

(* ================================================================== *)
(** * Properties *)
(* ================================================================== *)

Import Rdf Psl Nb Hoare Spec.

(** ** Strings *)

Section PyFacts.
Import Py.

Lemma append_nil (t : string) : "" +:+ t = t.
Proof. reflexivity. Qed.

Lemma append_cons c (s t : string) : String c s +:+ t = String c (s +:+ t).
Proof. reflexivity. Qed.

Lemma startswith_spec p s : startswith p s = true ↔ ∃ t, s = p +:+ t.
Proof.
  unfold startswith. revert s. induction p as [|c p IH]; intros s; simpl.
  - split; [intros _; by exists s | intros _; by destruct s].
  - destruct s as [|d s]; simpl.
    + split; [done | intros [t Ht]; discriminate].
    + destruct (Ascii.ascii_dec c d) as [->|Hne].
      * rewrite IH. split; intros [t Ht]; exists t; [by rewrite Ht | by injection Ht].
      * split; [done | intros [t Ht]; injection Ht; congruence].
Qed.

(** [x in s] holds exactly when [s] splits around an occurrence of [x]. *)
Lemma contains_spec x s : contains x s = true ↔ ∃ a b, s = a +:+ x +:+ b.
Proof.
  induction s as [|c s IH]; cbn [contains].
  - rewrite orb_false_r, startswith_spec. split.
    + intros [t Ht]. by exists "", t.
    + intros (a & b & H). destruct a; [by exists b | discriminate].
  - rewrite orb_true_iff, startswith_spec, IH. split.
    + intros [[t Ht] | (a & b & H)].
      * by exists "", t.
      * exists (String c a), b. by rewrite append_cons, H.
    + intros (a & b & H). destruct a as [|d a].
      * left. by exists b.
      * right. exists a, b. rewrite append_cons in H. by injection H.
Qed.

Lemma replace_from_skip old new (s t : string) :
  replace_from old new (String.length s) (s +:+ t) = replace_from old new 0 t.
Proof.
  induction s as [|c s IH]; [by rewrite append_nil|].
  by rewrite append_cons.
Qed.

Lemma replace_from_absent old new s :
  contains old s = false → replace_from old new 0 s = s.
Proof.
  induction s as [|c s IH]; cbn [contains replace_from]; [done|].
  intros [H1 H2]%orb_false_iff.
  rewrite H1. by rewrite IH.
Qed.

(** Removing a leading [old] from [old + rest] gives [rest] back when
    [old] does not occur in [rest]. *)
Lemma replace_leading old rest :
  old ≠ "" → contains old rest = false → replace old "" (old +:+ rest) = rest.
Proof.
  intros Hne Habs. destruct old as [|c old]; [done|].
  unfold replace. rewrite append_cons. cbn [replace_from].
  assert (startswith (String c old) (String c (old +:+ rest)) = true) as ->.
  { apply startswith_spec. by exists rest. }
  cbn [String.length]. rewrite Nat.sub_1_r. cbn [Nat.pred].
  rewrite append_nil, replace_from_skip. by apply replace_from_absent.
Qed.

Lemma append_inj_l (p a b : string) : p +:+ a = p +:+ b → a = b.
Proof.
  induction p as [|c p IH]; [done|].
  rewrite !append_cons. intros [=]. auto.
Qed.

Lemma unpack2_Some {A} (row : list A) a b :
  unpack2 row = Some (a, b) ↔ row = [a; b].
Proof.
  destruct row as [|x [|y [|z row]]]; simpl; split; intros H; try done;
    by simplify_eq.
Qed.

Lemma unpack2_length {A} (row : list A) :
  length row = 2 → ∃ a b, row = [a; b] ∧ unpack2 row = Some (a, b).
Proof.
  destruct row as [|x [|y [|z row]]]; try done. intros _. by exists x, y.
Qed.

End PyFacts.

(** ** Reasoning about cells *)

Section Logic.
Context {G : Type}.
Implicit Types (s : world * G) (P I E : world * G → Prop).

Lemma bind_run {A B} (m : M G A) (k : A → M G B) s :
  (m ≫= k) s =
    match m s with
    | (Ok a, s') => k a s'
    | (Raise e, s') => (Raise e, s')
    end.
Proof. reflexivity. Qed.

Lemma hoare_ret {A} P (a : A) (Q : A → world * G → Prop) E :
  (∀ s, P s → Q a s) → hoare P (mret a) Q E.
Proof. intros H s Hs. by apply H. Qed.

Lemma hoare_raise {A} P e (Q : A → world * G → Prop) E :
  (∀ s, P s → E s) → hoare P (raise e) Q E.
Proof. intros H s Hs. by apply H. Qed.

Lemma hoare_bind {A B} P (m : M G A) (k : A → M G B) Q' Q E :
  hoare P m Q' E → (∀ a, hoare (Q' a) (k a) Q E) → hoare P (m ≫= k) Q E.
Proof.
  intros Hm Hk s Hs. rewrite bind_run. specialize (Hm s Hs).
  destruct (m s) as [[a|e] s']; [by apply Hk | done].
Qed.

Lemma hoare_conseq {A} P P' (m : M G A) (Q Q' : A → world * G → Prop) E E' :
  hoare P' m Q' E' →
  (∀ s, P s → P' s) → (∀ a s, Q' a s → Q a s) → (∀ s, E' s → E s) →
  hoare P m Q E.
Proof.
  intros Hm HP HQ HE s Hs. specialize (Hm s (HP s Hs)).
  destruct (m s) as [[a|e] s']; auto.
Qed.

Lemma hoare_get P (Q : G → world * G → Prop) E :
  (∀ s, P s → Q s.2 s) → hoare P get Q E.
Proof. intros H s Hs. by apply H. Qed.

Lemma hoare_put P g (Q : unit → world * G → Prop) E :
  (∀ s, P s → Q tt (s.1, g)) → hoare P (put g) Q E.
Proof. intros H s Hs. by apply H. Qed.

Lemma hoare_modify P f (Q : unit → world * G → Prop) E :
  (∀ s, P s → Q tt (s.1, f s.2)) → hoare P (modify f) Q E.
Proof. intros H s Hs. by apply H. Qed.

Lemma hoare_emit P e (Q : unit → world * G → Prop) E :
  (∀ s, P s → Q tt (mkWorld (fs s.1) (trace s.1 ++ [e]), s.2)) →
  hoare P (emit e) Q E.
Proof. intros H s Hs. by apply H. Qed.

Lemma hoare_read_file P path (Q : file → world * G → Prop) E :
  (∀ s f, P s → fs s.1 !! path = Some f → Q f s) →
  (∀ s, P s → fs s.1 !! path = None → E s) →
  hoare P (read_file path) Q E.
Proof.
  intros H1 H2 s Hs. unfold read_file.
  destruct (fs s.1 !! path) eqn:Hf; [by apply H1 | by apply H2].
Qed.

Lemma hoare_write_file P path f (Q : unit → world * G → Prop) E :
  (∀ s, P s → Q tt (mkWorld (<[path := f]> (fs s.1)) (trace s.1), s.2)) →
  hoare P (write_file path f) Q E.
Proof. intros H s Hs. by apply H. Qed.

Lemma hoare_from_option {A} P e (o : option A) (Q : A → world * G → Prop) E :
  (∀ a s, o = Some a → P s → Q a s) → (∀ s, o = None → P s → E s) →
  hoare P (from_option e o) Q E.
Proof.
  intros H1 H2 s Hs. unfold from_option.
  destruct o as [a|]; [exact (H1 a s eq_refl Hs) | exact (H2 s eq_refl Hs)].
Qed.

Lemma hoare_for_each {A} I (l : list A) (body : A → M G unit) E :
  (∀ x, x ∈ l → hoare I (body x) (λ _, I) E) →
  hoare I (for_each l body) (λ _, I) E.
Proof.
  intros Hb. induction l as [|x l IH]; cbn [for_each].
  - by apply hoare_ret.
  - eapply hoare_bind; [apply Hb; left|].
    intros ?. apply IH. intros y Hy. apply Hb. by right.
Qed.

Lemma hoare_run_cells I (cells : list (M G unit)) E :
  Forall (λ c, hoare I c (λ _, I) E) cells →
  hoare I (run_cells cells) (λ _, I) E.
Proof.
  induction 1 as [|c cs Hc _ IH]; cbn [run_cells].
  - by apply hoare_ret.
  - eapply hoare_bind; [apply Hc | intros ?; apply IH].
Qed.

End Logic.

(** ** ex01_7: the helper [get_person_id] *)

(** C9: for every identifier [id] in which the prefix
    [http://example.org/stuff/person_] does not occur, [get_person_id]
    applied to the URL built from the prefix and [id] (as the loading of
    the targets builds it) gives [id] back. *)
Theorem get_person_id_roundtrip (id : string) :
  Py.contains "http://example.org/stuff/person_" id = false →
  Ex01_7.get_person_id
    (str (URIRef ("http://example.org/stuff/person_" +:+ id))) = id.
Proof.
  intros Habs. unfold Ex01_7.get_person_id. cbn [str].
  by apply replace_leading.
Qed.

Lemma get_person_id_roundtrip_witness :
  Py.contains "http://example.org/stuff/person_" "20" = false ∧
  Ex01_7.get_person_id
    (str (URIRef ("http://example.org/stuff/person_" +:+ "20"))) = "20".
Proof.
  split; [reflexivity | apply (get_person_id_roundtrip "20"); reflexivity].
Defined.

(** ** ex01_5: the flags of the annotation loop and the curated sets *)

Lemma any_spec {A} (f : A → bool) (l : list A) :
  Py.any f l = true ↔ ∃ x, x ∈ l ∧ f x = true.
Proof.
  unfold Py.any. rewrite existsb_exists.
  split; intros (x & Hx & Hf); exists x; split; try done;
    by apply list_elem_of_In.
Qed.

(** C5: for a result row [(url, recipe_name)], [has_butter] is true
    exactly when the hoare [(url, wtm:hasIngredient, ind:Butter)] is in
    the graph, [sez_noodle] is true exactly when the recipe name contains
    one of the four substrings, and these are the flags the loop body
    records and prints. *)
Theorem flags_of_recipe_row (w : world) (gl : Ex01_5.globals)
    (url recipe_name : term) :
  let has_butter := Ex01_5.has_butter url (Ex01_5.kg gl) in
  let sez_noodle := Ex01_5.sez_noodle recipe_name in
  (has_butter = true ↔
     (url, URIRef "http://purl.org/heals/food/hasIngredient",
           URIRef "http://purl.org/heals/ingredient/Butter") ∈ Ex01_5.kg gl) ∧
  (sez_noodle = true ↔
     ∃ x, x ∈ ["noodle"; "spaetzle"; "dumpling"; "pasta"] ∧
          ∃ a b, str recipe_name = a +:+ x +:+ b) ∧
  Ex01_5.collect_flags [url; recipe_name] (w, gl) =
    (Ok tt,
     (mkWorld (fs w)
        (trace w ++
           [EvPrint (str url +:+ Ex01_5.newline +:+ " " +:+ str recipe_name
                     +:+ Ex01_5.newline +:+ " " +:+ Ex01_5.str_of_bool has_butter
                     +:+ " " +:+ Ex01_5.str_of_bool sez_noodle
                     +:+ Ex01_5.newline)]),
      Ex01_5.with_tally
        (Ex01_5.tally gl ++ [Ex01_5.str_of_flags has_butter sez_noodle]) gl)).
Proof.
  intros has_butter sez_noodle. split_and!.
  - unfold has_butter, Ex01_5.has_butter, mem. by rewrite bool_decide_eq_true.
  - unfold sez_noodle, Ex01_5.sez_noodle. rewrite any_spec.
    by setoid_rewrite contains_spec.
  - reflexivity.
Qed.

Lemma for_each_annotate cls (ids : list string) (w : world) (g : Ex01_5.globals) :
  for_each ids (Ex01_5.annotate cls) (w, g) =
    (Ok tt,
     (w, Ex01_5.with_kg
           (list_to_set ((λ id, (Ex01_5.recipe_node id, RDF_type,
                                 attr Ex01_5.nom cls)) <$> ids)
            ∪ Ex01_5.kg g) g)).
Proof.
  revert g. induction ids as [|id ids IH]; intros g; cbn [for_each].
  - cbn. destruct g as [k q t]. unfold Ex01_5.with_kg. cbn.
    by rewrite (left_id_L ∅ (∪)).
  - rewrite bind_run. cbn [Ex01_5.annotate modify fst snd]. rewrite IH.
    destruct g as [k q t]. unfold Ex01_5.with_kg, add. cbn.
    do 3 f_equal.
    by rewrite (assoc_L (∪)), (comm_L (∪) (list_to_set _)).
Qed.

Lemma recipe_node_inj id1 id2 :
  Ex01_5.recipe_node id1 = Ex01_5.recipe_node id2 → id1 = id2.
Proof. unfold Ex01_5.recipe_node. intros [=H]. by apply append_inj_l in H. Qed.


(** Unfolding the monad to run a cell on a given state. *)
Ltac run_M :=
  unfold mbind, mret, M_bind, M_ret, get, put, modify, emit, raise, print,
    read_file, write_file; cbn.

(** Running the primitives on a state. *)
Section Run.
Context {G : Type}.
Implicit Types (s : world * G).

Lemma ret_run {A} (a : A) s : mret (M := M G) a s = (Ok a, s).
Proof. reflexivity. Qed.
Lemma raise_run {A} e s : raise (G := G) (A := A) e s = (Raise e, s).
Proof. reflexivity. Qed.
Lemma get_run s : get s = (Ok s.2, s).
Proof. reflexivity. Qed.
Lemma put_run g s : put g s = (Ok tt, (s.1, g)).
Proof. reflexivity. Qed.
Lemma modify_run (f : G → G) s : modify f s = (Ok tt, (s.1, f s.2)).
Proof. reflexivity. Qed.
Lemma emit_run e s :
  emit e s = (Ok tt, (mkWorld (fs s.1) (trace s.1 ++ [e]), s.2)).
Proof. reflexivity. Qed.
Lemma print_run line s :
  print line s = (Ok tt, (mkWorld (fs s.1) (trace s.1 ++ [EvPrint line]), s.2)).
Proof. reflexivity. Qed.
Lemma write_file_run path f s :
  write_file path f s = (Ok tt, (mkWorld (<[path := f]> (fs s.1)) (trace s.1), s.2)).
Proof. reflexivity. Qed.
Lemma read_file_run path s :
  read_file path s =
    match fs s.1 !! path with
    | Some f => (Ok f, s)
    | None => (Raise FileNotFoundError, s)
    end.
Proof. reflexivity. Qed.
Lemma from_option_run {A} e (o : option A) s :
  from_option e o s =
    match o with
    | Some a => (Ok a, s)
    | None => (Raise e, s)
    end.
Proof. by destruct o. Qed.

End Run.

(** One step at a time, without unfolding the cells' own definitions. *)
Ltac steps :=
  repeat (progress (rewrite ?bind_run, ?get_run, ?put_run, ?modify_run, ?emit_run,
                      ?print_run, ?ret_run, ?raise_run, ?write_file_run,
                      ?read_file_run, ?from_option_run;
                    cbv beta iota; cbn [fst snd fs trace])).

Open Scope list_scope.

Lemma noodle_pancake_disjoint : Ex01_5.noodle_ids ## Ex01_5.pancake_ids.
Proof.
  apply (bool_decide_unpack (Ex01_5.noodle_ids ## Ex01_5.pancake_ids)).
  vm_compute. reflexivity.
Qed.

Lemma list_to_set_fmap_elements (f : string → term * term * term) (X : gset string) :
  list_to_set (C := Graph) (f <$> elements X) = set_map f X.
Proof. reflexivity. Qed.

Lemma cell15_graph `{Library} (w : world) (g : Ex01_5.globals) :
  Ex01_5.kg (Ex01_5.cell15 (w, g)).2.2 =
    (set_map (λ id, (Ex01_5.recipe_node id, RDF_type, attr Ex01_5.nom "Pancake"))
       Ex01_5.pancake_ids
     ∪ set_map (λ id, (Ex01_5.recipe_node id, RDF_type, attr Ex01_5.nom "Noodle"))
         Ex01_5.noodle_ids)
    ∪ Ex01_5.kg g.
Proof.
  unfold Ex01_5.cell15. rewrite bind_run, for_each_annotate.
  rewrite bind_run, for_each_annotate.
  rewrite !list_to_set_fmap_elements.
  generalize Ex01_5.noodle_ids Ex01_5.pancake_ids. intros N P.
  cbn. by rewrite (assoc_L (∪)).
Qed.

(** C10: the two curated sets share no identifier, so whatever the graph
    held before, the triples the annotation loops add never type one
    recipe node both as [nom:Noodle] and as [nom:Pancake]. *)
Theorem noodle_and_pancake_exclusive `{Library} :
  Ex01_5.noodle_ids ## Ex01_5.pancake_ids ∧
  ∀ (w : world) (g : Ex01_5.globals) (node : term),
    let before := Ex01_5.kg g in
    let after := Ex01_5.kg (Ex01_5.cell15 (w, g)).2.2 in
    before ⊆ after ∧
    mem (node, RDF_type, attr Ex01_5.nom "Noodle") (after ∖ before)
    && mem (node, RDF_type, attr Ex01_5.nom "Pancake") (after ∖ before) = false.
Proof.
  split; [apply noodle_pancake_disjoint|].
  intros w g node before after. unfold after, before.
  rewrite cell15_graph.
  generalize noodle_pancake_disjoint.
  generalize Ex01_5.noodle_ids Ex01_5.pancake_ids. intros N P Hdisj.
  split; [apply union_subseteq_r|].
  apply not_true_iff_false. rewrite andb_true_iff. unfold mem.
  rewrite !bool_decide_eq_true. intros [H1 H2].
  apply elem_of_difference in H1 as [H1 Hn1].
  apply elem_of_difference in H2 as [H2 Hn2].
  apply elem_of_union in H1 as [H1|?]; [|done].
  apply elem_of_union in H2 as [H2|?]; [|done].
  apply elem_of_union in H1 as [H1|H1]; apply elem_of_map in H1 as (i1 & E1 & Hi1).
  { injection E1 as _ E1. done. }
  apply elem_of_union in H2 as [H2|H2]; apply elem_of_map in H2 as (i2 & E2 & Hi2).
  2:{ injection E2 as _ E2. done. }
  assert (i1 = i2) as ->.
  { apply recipe_node_inj. congruence. }
  by apply (Hdisj i2).
Qed.

(** ** The frame [df] refers to *)

Lemma df_with_df x g : Ex01_7.df (Ex01_7.with_df x g) = x.
Proof. unfold Ex01_7.df, Ex01_7.with_df. by destruct (Ex01_7.df_ref g). Qed.

Lemma model_with_df x g : Ex01_7.model (Ex01_7.with_df x g) = Ex01_7.model g.
Proof. unfold Ex01_7.with_df. by destruct (Ex01_7.df_ref g). Qed.

Lemma dat_val_with_df x g : Ex01_7.dat_val (Ex01_7.with_df x g) = Ex01_7.dat_val g.
Proof. unfold Ex01_7.with_df. by destruct (Ex01_7.df_ref g). Qed.

Lemma df_dat_with_df x g : Ex01_7.df_dat (Ex01_7.with_df x g) = Ex01_7.df_dat g.
Proof. unfold Ex01_7.with_df. by destruct (Ex01_7.df_ref g). Qed.

Lemma with_df_with_df x y g :
  Ex01_7.with_df x (Ex01_7.with_df y g) = Ex01_7.with_df x g.
Proof. unfold Ex01_7.with_df. by destruct (Ex01_7.df_ref g). Qed.

Lemma with_df_id g : Ex01_7.with_df (Ex01_7.df g) g = g.
Proof. unfold Ex01_7.with_df, Ex01_7.df. by destruct g as [? ? ? ? ? ? ? [|d] ?]. Qed.

Lemma with_df_with_dat_val x m g :
  Ex01_7.with_df x (Ex01_7.with_dat_val m g)
    = Ex01_7.with_dat_val m (Ex01_7.with_df x g).
Proof. unfold Ex01_7.with_df. by destruct g as [? ? ? ? ? ? ? [|d] ?]. Qed.

Lemma with_dat_val_with_dat_val m m' g :
  Ex01_7.with_dat_val m (Ex01_7.with_dat_val m' g) = Ex01_7.with_dat_val m g.
Proof. done. Qed.

(** ** ex01_7: filling the [Knows] predicate *)

Section Ex01_7_Knows.
Context {L : Library}.

Lemma predicate_add_data_row_run part args tv (w : world) (g : Ex01_7.globals) :
  Ex01_7.predicate_add_data_row part args tv (w, g) =
    let w' := mkWorld (fs w)
                (trace w ++ [EvAddDataRow (Ex01_7.predicate g) part args tv]) in
    match predicates (Ex01_7.model g) !! Ex01_7.predicate g with
    | None => (Raise KeyError, (w', g))
    | Some p =>
        match add_data_row p part args tv with
        | None => (Raise ValueError, (w', g))
        | Some p' =>
            (Ok tt,
             (w', Ex01_7.with_model
                    (update_predicate (Ex01_7.model g) (Ex01_7.predicate g) p') g))
        end
    end.
Proof.
  unfold Ex01_7.predicate_add_data_row. run_M.
  destruct (predicates (Ex01_7.model g) !! Ex01_7.predicate g) as [p|]; cbn; [|done].
  by destruct (add_data_row p part args tv).
Qed.

Lemma bind_predicate_run name (w : world) (g : Ex01_7.globals) :
  Ex01_7.bind_predicate name (w, g) =
    match get_predicate (Ex01_7.model g) name with
    | Some _ => (Ok tt, (w, Ex01_7.with_predicate (normalize_name name) g))
    | None => (Raise KeyError, (w, g))
    end.
Proof.
  unfold Ex01_7.bind_predicate. run_M.
  by destruct (get_predicate (Ex01_7.model g) name).
Qed.

Lemma add_data_row_certain (p : Predicate) part args (tv : float) :
  tv = 1%float ∨ tv = 0%float →
  add_data_row p part args tv =
    if (length args =? pred_size p)%nat
    then Some (append_row p part (DataRow args tv)) else None.
Proof.
  intros _. reflexivity.
Qed.

Lemma rows_of_update (m : Model) key p part :
  rows_of (update_predicate m key p) key part = data p part.
Proof. unfold rows_of, update_predicate. cbn. by rewrite lookup_insert_eq. Qed.

Lemma record_target_run p1 p2 (tv : float) (w : world) (g : Ex01_7.globals) :
  tv = 1%float ∨ tv = 0%float →
  let key := Ex01_7.predicate g in
  let w1 := mkWorld (fs w) (trace w ++ [EvAddDataRow key TRUTH [p1; p2] tv]) in
  let w2 := mkWorld (fs w)
              ((trace w ++ [EvAddDataRow key TRUTH [p1; p2] tv])
               ++ [EvAddDataRow key TARGETS [p1; p2] 1%float]) in
  Ex01_7.record_target p1 p2 tv (w, g) =
    match predicates (Ex01_7.model g) !! key with
    | None => (Raise KeyError, (w1, g))
    | Some p =>
        if (2 =? pred_size p)%nat then
          let p' := append_row (append_row p TRUTH (DataRow [p1; p2] tv))
                      TARGETS (DataRow [p1; p2] 1%float) in
          (Ok tt,
           (w2, Ex01_7.with_rows_list
                  (Ex01_7.rows_list g ++ [Ex01_7.mkRow p1 p2 tv])
                  (Ex01_7.with_model
                     (update_predicate (Ex01_7.model g) key p') g)))
        else (Raise ValueError, (w1, g))
    end.
Proof.
  intros Htv key w1 w2. unfold Ex01_7.record_target.
  rewrite bind_run, predicate_add_data_row_run. cbn zeta. fold key.
  destruct (predicates (Ex01_7.model g) !! key) as [p|] eqn:Hp; [|done].
  rewrite (add_data_row_certain _ _ _ _ Htv). cbn [length].
  destruct (2 =? pred_size p)%nat eqn:Hsz; [|done].
  rewrite bind_run, predicate_add_data_row_run. cbn zeta.
  cbn [Ex01_7.predicate Ex01_7.model Ex01_7.with_model update_predicate predicates].
  fold key. rewrite lookup_insert_eq.
  rewrite (add_data_row_certain _ _ _ 1%float) by (by left).
  cbn [length]. replace (pred_size (append_row p TRUTH _)) with (pred_size p) by done.
  rewrite Hsz. cbn. unfold Ex01_7.with_rows_list, Ex01_7.with_model, update_predicate.
  cbn. by rewrite insert_insert_eq.
Qed.

Lemma load_target_run (row : list string) (w : world) (g : Ex01_7.globals) :
  Ex01_7.load_target row (w, g) =
    match Py.unpack2 row with
    | None => (Raise ValueError, (w, g))
    | Some (p1, p2) =>
        let g0 := Ex01_7.with_targets (Ex01_7.targets g ++ [(p1, p2)]) g in
        let p1_url := URIRef ("http://example.org/stuff/person_" +:+ p1) in
        let p2_url := URIRef ("http://example.org/stuff/person_" +:+ p2) in
        if mem (p1_url, URIRef "http://xmlns.com/foaf/0.1/knows", p2_url) (Ex01_7.kg g)
        then Ex01_7.record_target p1 p2 1%float (w, g0)
        else if mem (p1_url, URIRef "http://example.org/stuff/wantsIntro", p2_url)
                  (Ex01_7.kg g)
        then Ex01_7.record_target p1 p2 0%float (w, g0)
        else (Ok tt,
              (mkWorld (fs w) (trace w ++ [EvPrint ("UNKNOWN " +:+ p1 +:+ " " +:+ p2)]),
               g0))
    end.
Proof.
  unfold Ex01_7.load_target.
  destruct (Py.unpack2 row) as [[p1 p2]|]; [|reflexivity].
  cbn zeta.
  change (attr Ex01_7.foaf "knows") with (URIRef "http://xmlns.com/foaf/0.1/knows").
  change (attr Ex01_7.acq "wantsIntro") with (URIRef "http://example.org/stuff/wantsIntro").
  repeat (rewrite bind_run;
          cbn [from_option mret M_ret modify get fst snd Ex01_7.kg
               Ex01_7.with_targets]).
  destruct (mem _ (Ex01_7.kg g)); [reflexivity|].
  destruct (mem _ (Ex01_7.kg g)); reflexivity.
Qed.

Lemma observe_non_target_run tv (row : list term) (w : world) (g : Ex01_7.globals) :
  Ex01_7.observe_non_target tv row (w, g) =
    match row !! 0, row !! 1 with
    | Some t1, Some t2 =>
        let p1 := Ex01_7.get_person_id (str t1) in
        let p2 := Ex01_7.get_person_id (str t2) in
        if bool_decide ((p1, p2) ∉ Ex01_7.targets g)
        then Ex01_7.predicate_add_data_row OBSERVATIONS [p1; p2] tv (w, g)
        else (Ok tt, (w, g))
    | _, _ => (Raise IndexError, (w, g))
    end.
Proof.
  unfold Ex01_7.observe_non_target, index.
  destruct (row !! 0) as [t1|]; [|reflexivity].
  destruct (row !! 1) as [t2|]; [|reflexivity].
  repeat (rewrite bind_run; cbn [from_option mret M_ret get fst snd]).
  by case_bool_decide.
Qed.

Lemma unknown_line p1 p2 :
  Py.print_line ["UNKNOWN"; p1; p2] = "UNKNOWN " +:+ p1 +:+ " " +:+ p2.
Proof. reflexivity. Qed.

(** C2: when neither [(person_p1, foaf:knows, person_p2)] nor
    [(person_p1, acq:wantsIntro, person_p2)] is in the graph, the loop body
    ends normally for the row [(p1, p2)]: it appends the pair to [targets],
    prints [UNKNOWN p1 p2], and changes nothing else, so the model with its
    [TRUTH] and [TARGETS] partitions and [rows_list] stay as they were. *)
Theorem unknown_relation_is_only_printed (w : world) (g : Ex01_7.globals)
    (p1 p2 : string) :
  (URIRef ("http://example.org/stuff/person_" +:+ p1),
   URIRef "http://xmlns.com/foaf/0.1/knows",
   URIRef ("http://example.org/stuff/person_" +:+ p2)) ∉ Ex01_7.kg g →
  (URIRef ("http://example.org/stuff/person_" +:+ p1),
   URIRef "http://example.org/stuff/wantsIntro",
   URIRef ("http://example.org/stuff/person_" +:+ p2)) ∉ Ex01_7.kg g →
  let out := Ex01_7.load_target [p1; p2] (w, g) in
  out = (Ok tt,
         (mkWorld (fs w) (trace w ++ [EvPrint ("UNKNOWN " +:+ p1 +:+ " " +:+ p2)]),
          Ex01_7.with_targets (Ex01_7.targets g ++ [(p1, p2)]) g)) ∧
  Ex01_7.model out.2.2 = Ex01_7.model g ∧
  Ex01_7.rows_list out.2.2 = Ex01_7.rows_list g.
Proof.
  intros Hk Hw out.
  assert (out = (Ok tt,
         (mkWorld (fs w) (trace w ++ [EvPrint ("UNKNOWN " +:+ p1 +:+ " " +:+ p2)]),
          Ex01_7.with_targets (Ex01_7.targets g ++ [(p1, p2)]) g))) as ->; [|done].
  unfold out, Ex01_7.load_target. run_M.
  apply (bool_decide_eq_false_2 _) in Hk, Hw.
  unfold mem, attr. cbn.
  change (Ex01_7.foaf +:+ "knows") with "http://xmlns.com/foaf/0.1/knows".
  change (Ex01_7.acq +:+ "wantsIntro") with "http://example.org/stuff/wantsIntro".
  by rewrite Hk, Hw.
Qed.

Lemma unknown_relation_is_only_printed_witness :
  let g := Ex01_7.with_kg Demo.acq_graph Ex01_7.init in
  let out := Ex01_7.load_target ["2"; "3"] (Demo.acq_world, g) in
  ((URIRef ("http://example.org/stuff/person_" +:+ "2"),
    URIRef "http://xmlns.com/foaf/0.1/knows",
    URIRef ("http://example.org/stuff/person_" +:+ "3")) ∉ Ex01_7.kg g) ∧
  out.1 = Ok tt ∧
  Ex01_7.model out.2.2 = Ex01_7.model g ∧
  Ex01_7.rows_list out.2.2 = Ex01_7.rows_list g.
Proof.
  intros g out.
  assert ((URIRef ("http://example.org/stuff/person_" +:+ "2"),
           URIRef "http://xmlns.com/foaf/0.1/knows",
           URIRef ("http://example.org/stuff/person_" +:+ "3")) ∉ Ex01_7.kg g) as Hk.
  { apply (bool_decide_unpack _). vm_compute. reflexivity. }
  assert ((URIRef ("http://example.org/stuff/person_" +:+ "2"),
           URIRef "http://example.org/stuff/wantsIntro",
           URIRef ("http://example.org/stuff/person_" +:+ "3")) ∉ Ex01_7.kg g) as Hw.
  { apply (bool_decide_unpack _). vm_compute. reflexivity. }
  destruct (unknown_relation_is_only_printed Demo.acq_world g "2" "3" Hk Hw)
    as (Hout & Hm & Hr).
  fold out in Hout, Hm, Hr. split_and!; [exact Hk | by rewrite Hout | exact Hm | exact Hr].
Defined.

(** C8: (a) one pass of the loop over the targets file adds a row to the
    [TRUTH] partition exactly when it adds the same pair to [TARGETS], and
    the truth value recorded is 1.0 or 0.0; (b) the observation queries of
    the next cell add to [OBSERVATIONS] of [KNOWS] only pairs that are not
    in [targets]. *)
Theorem targets_and_observations_apart :
  (∀ (w : world) (g : Ex01_7.globals) (row : list string),
     let g' := (Ex01_7.load_target row (w, g)).2.2 in
     let key := Ex01_7.predicate g in
     Ex01_7.predicate g' = key ∧
     ∃ added,
       rows_of (Ex01_7.model g') key TRUTH =
         rows_of (Ex01_7.model g) key TRUTH ++ added ∧
       rows_of (Ex01_7.model g') key TARGETS =
         rows_of (Ex01_7.model g) key TARGETS
           ++ ((λ r, DataRow (row_args r) 1%float) <$> added) ∧
       rows_of (Ex01_7.model g') key OBSERVATIONS =
         rows_of (Ex01_7.model g) key OBSERVATIONS ∧
       (added = [] ∨ added = [DataRow row 1%float] ∨ added = [DataRow row 0%float])) ∧
  (∀ (w : world) (g : Ex01_7.globals),
     let g' := (Ex01_7.cell13 (w, g)).2.2 in
     Ex01_7.targets g' = Ex01_7.targets g ∧
     ∃ added,
       rows_of (Ex01_7.model g') "KNOWS" OBSERVATIONS =
         rows_of (Ex01_7.model g) "KNOWS" OBSERVATIONS ++ added ∧
       Forall (λ r, ∃ p1 p2, row_args r = [p1; p2] ∧ (p1, p2) ∉ Ex01_7.targets g)
         added).
Proof.
  split.
  - intros w g row g' key. subst g'.
    assert (∀ tv p1 p2 w (g0 : Ex01_7.globals), tv = 1%float ∨ tv = 0%float →
      let g1 := (Ex01_7.record_target p1 p2 tv (w, g0)).2.2 in
      let key := Ex01_7.predicate g0 in
      Ex01_7.predicate g1 = key ∧
      ∃ added,
        rows_of (Ex01_7.model g1) key TRUTH =
          rows_of (Ex01_7.model g0) key TRUTH ++ added ∧
        rows_of (Ex01_7.model g1) key TARGETS =
          rows_of (Ex01_7.model g0) key TARGETS
            ++ ((λ r, DataRow (row_args r) 1%float) <$> added) ∧
        rows_of (Ex01_7.model g1) key OBSERVATIONS =
          rows_of (Ex01_7.model g0) key OBSERVATIONS ∧
        (added = [] ∨ added = [DataRow [p1; p2] tv])) as Hrec.
    { intros tv p1 p2 w0 g0 Htv g1 key0. subst g1.
      rewrite (record_target_run p1 p2 tv w0 g0 Htv). cbn zeta. fold key0.
      destruct (predicates (Ex01_7.model g0) !! key0) as [p|] eqn:Hp.
      2:{ cbn. split; [done|]. exists []. rewrite !app_nil_r. auto. }
      destruct (2 =? pred_size p)%nat.
      2:{ cbn. split; [done|]. exists []. rewrite !app_nil_r. auto. }
      cbn [snd fst Ex01_7.predicate Ex01_7.with_rows_list Ex01_7.with_model
           Ex01_7.model]. split; [done|].
      exists [DataRow [p1; p2] tv]. rewrite !rows_of_update.
      unfold rows_of. rewrite Hp. cbn. auto. }
    rewrite load_target_run.
    destruct (Py.unpack2 row) as [[p1 p2]|] eqn:Hrow.
    2:{ cbn. split; [done|]. exists []. rewrite !app_nil_r. auto. }
    apply unpack2_Some in Hrow as ->. cbn zeta.
    set (g0 := Ex01_7.with_targets _ g).
    destruct (mem _ (Ex01_7.kg g)).
    { destruct (Hrec 1%float p1 p2 w g0 (or_introl eq_refl))
        as (Hp & added & H1 & H2 & H3 & H4).
      split; [exact Hp|]. exists added. split_and!; try done.
      destruct H4 as [->| ->]; auto. }
    destruct (mem _ (Ex01_7.kg g)).
    { destruct (Hrec 0%float p1 p2 w g0 (or_intror eq_refl))
        as (Hp & added & H1 & H2 & H3 & H4).
      split; [exact Hp|]. exists added. split_and!; try done.
      destruct H4 as [->| ->]; auto. }
    cbn. split; [done|]. exists []. rewrite !app_nil_r. auto.
  - intros w g g'. subst g'.
    set (T := Ex01_7.targets g).
    set (R0 := rows_of (Ex01_7.model g) "KNOWS" OBSERVATIONS).
    set (I := λ s : world * Ex01_7.globals,
           Ex01_7.targets s.2 = T ∧
           ∃ added,
             rows_of (Ex01_7.model s.2) "KNOWS" OBSERVATIONS = R0 ++ added ∧
             Forall (λ r, ∃ p1 p2, row_args r = [p1; p2] ∧ (p1, p2) ∉ T) added).
    set (J := λ s : world * Ex01_7.globals, I s ∧ Ex01_7.predicate s.2 = "KNOWS").
    assert (I (w, g)) as HI.
    { split; [done|]. exists []. by rewrite app_nil_r. }
    assert (∀ tv row, hoare J (Ex01_7.observe_non_target tv row) (λ _, J) I) as Hbody.
    { intros tv row [w0 g0] [[HT (added & Hrows & Hok)] Hkey].
      rewrite observe_non_target_run.
      destruct (row !! 0) as [t1|]; [|by split; [|exists added]].
      destruct (row !! 1) as [t2|]; [|by split; [|exists added]].
      cbn zeta.
      case_bool_decide as Hnot; [|by split; [split; [|exists added]|]].
      rewrite predicate_add_data_row_run. cbn zeta. cbn in Hkey. rewrite Hkey.
      cbn [snd] in Hrows, HT.
      destruct (predicates (Ex01_7.model g0) !! "KNOWS") as [p|] eqn:Hp;
        [|by split; [|exists added]].
      destruct (add_data_row p OBSERVATIONS _ tv) as [p'|] eqn:Hadd;
        [|by split; [|exists added]].
      split; [|done]. split; [done|].
      cbn [snd Ex01_7.model Ex01_7.with_model]. rewrite rows_of_update.
      unfold rows_of in Hrows. rewrite Hp in Hrows. cbn in Hrows.
      unfold add_data_row in Hadd.
      repeat case_match; try done. injection Hadd as <-. cbn.
      exists (added ++ [DataRow [Ex01_7.get_person_id (str t1);
                                 Ex01_7.get_person_id (str t2)] tv]).
      rewrite Hrows, (assoc_L (++)). split; [done|].
      apply Forall_app. split; [done|]. constructor; [|done].
      eexists _, _. split; [done|]. by rewrite <- HT. }
    assert (∀ tv rows, hoare J (for_each rows (Ex01_7.observe_non_target tv)) (λ _, J) I)
      as Hloop.
    { intros tv rows. eapply hoare_conseq with (E' := λ s, I s ∨ J s).
      - apply (hoare_for_each J rows _ (λ s, I s ∨ J s)). intros x _.
        eapply hoare_conseq; [apply (Hbody tv x) | done | done | by left].
      - done.
      - done.
      - intros s [?|[? _]]; done. }
    assert (hoare (λ s, s = (w, g)) Ex01_7.cell13 (λ _, I) I) as Hcell.
    { intros s ->. unfold Ex01_7.cell13. rewrite bind_run.
      unfold Ex01_7.bind_predicate at 1. rewrite bind_run. cbn [get fst snd].
      rewrite bind_run.
      destruct (get_predicate (Ex01_7.model g) "Knows") as [p|]; cbn [from_option];
        [|exact HI].
      unfold mret at 1, M_ret at 1. cbn beta iota. cbn [put fst snd].
      rewrite bind_run. cbn [get fst snd]. rewrite bind_run.
      unfold query at 1. rewrite bind_run. cbn [emit fst snd].
      unfold mret at 1, M_ret at 1. cbn beta iota.
      set (s1 := (_, Ex01_7.with_predicate _ g)).
      assert (J s1) as HJ1 by (by split).
      rewrite bind_run.
      pose proof (Hloop 1%float (sparql (Ex01_7.kg (Ex01_7.with_predicate
        (normalize_name "Knows") g)) Ex01_7.query_knows) s1 HJ1) as H1.
      destruct (for_each _ _ s1) as [[[]|e] s2]; [|exact H1].
      rewrite bind_run. cbn [get fst snd]. rewrite bind_run.
      unfold query at 1. rewrite bind_run. cbn [emit fst snd].
      unfold mret at 1, M_ret at 1. cbn beta iota.
      set (s3 := (_, s2.2)).
      assert (J s3) as HJ3 by (destruct H1 as [H1 ?]; by split).
      pose proof (Hloop 0%float (sparql (Ex01_7.kg s2.2) Ex01_7.query_wants_intro)
        s3 HJ3) as H3.
      destruct (for_each _ _ s3) as [[[]|e] s4]; [exact (proj1 H3) | exact H3]. }
    specialize (Hcell (w, g) eq_refl).
    destruct (Ex01_7.cell13 (w, g)) as [[[]|e] s']; exact Hcell.
Qed.

End Ex01_7_Knows.

(** ** Invariants of whole cells *)

Section Preserves.
Context {G : Type}.
Implicit Types (I : world * G → Prop).

Lemma preserves_bind {A B} I (m : M G A) (k : A → M G B) :
  preserves I m → (∀ a, preserves I (k a)) → preserves I (m ≫= k).
Proof. intros Hm Hk. eapply hoare_bind; [apply Hm | apply Hk]. Qed.

Lemma preserves_ret {A} I (a : A) : preserves I (mret a).
Proof. by apply hoare_ret. Qed.

Lemma preserves_raise {A} I e : preserves I (raise (A := A) e).
Proof. by apply hoare_raise. Qed.

Lemma preserves_get I : preserves I get.
Proof. by apply hoare_get. Qed.

Lemma preserves_from_option {A} I e (o : option A) : preserves I (from_option e o).
Proof. by apply hoare_from_option. Qed.

Lemma preserves_read_file I path : preserves I (read_file path).
Proof. by apply hoare_read_file. Qed.

Lemma preserves_for_each {A} I (l : list A) (body : A → M G unit) :
  (∀ x, x ∈ l → preserves I (body x)) → preserves I (for_each l body).
Proof. apply hoare_for_each. Qed.

Lemma preserves_run_cells I (cells : list (M G unit)) :
  Forall (preserves I) cells → preserves I (run_cells cells).
Proof. apply hoare_run_cells. Qed.

Lemma preserves_emit I e :
  (∀ w g, I (w, g) → I (mkWorld (fs w) (trace w ++ [e]), g)) →
  preserves I (emit e).
Proof. intros H. apply hoare_emit. intros [w g]. apply H. Qed.

Lemma preserves_modify I f :
  (∀ w g, I (w, g) → I (w, f g)) → preserves I (modify f).
Proof. intros H. apply hoare_modify. intros [w g]. apply H. Qed.

Lemma preserves_put I g' :
  (∀ w g, I (w, g) → I (w, g')) → preserves I (put g').
Proof. intros H. apply hoare_put. intros [w g]. apply H. Qed.

Lemma preserves_write_file I path f :
  (∀ w g, I (w, g) → I (mkWorld (<[path := f]> (fs w)) (trace w), g)) →
  preserves I (write_file path f).
Proof. intros H. apply hoare_write_file. intros [w g]. apply H. Qed.

Lemma preserves_weaken {A} I J (m : M G A) :
  hoare I m (λ _, J) J → (∀ s, J s → I s) → ∀ s, I s → I (m s).2 .
Proof.
  intros Hm HJ s Hs. specialize (Hm s Hs).
  destruct (m s) as [[a|e] s']; by apply HJ.
Qed.

Lemma preserves_post {A} I (m : M G A) s : preserves I m → I s → I (m s).2.
Proof. intros Hm Hs. specialize (Hm s Hs). by destruct (m s) as [[a|e] s']. Qed.

End Preserves.

Create HintDb pres discriminated.

Ltac head_of t := lazymatch t with ?f _ => head_of f | _ => t end.

(** Walks through a cell, leaving what each state change must respect. *)
Ltac pres :=
  lazymatch goal with
  | |- preserves _ (_ ≫= _) => apply preserves_bind; [pres | intros ?; pres]
  | |- preserves _ (mret _) => apply preserves_ret
  | |- preserves _ (raise _) => apply preserves_raise
  | |- preserves _ get => apply preserves_get
  | |- preserves _ (from_option _ _) => apply preserves_from_option
  | |- preserves _ (read_file _) => apply preserves_read_file
  | |- preserves _ (for_each _ _) => apply preserves_for_each; intros ? ?; pres
  | |- preserves _ (emit _) => apply preserves_emit
  | |- preserves _ (print _) => apply preserves_emit
  | |- preserves _ (modify _) => apply preserves_modify
  | |- preserves _ (put _) => apply preserves_put
  | |- preserves _ (write_file _ _) => apply preserves_write_file
  | |- preserves _ (match ?x with _ => _ end) => destruct x; pres
  | |- preserves _ ?m =>
      first [ solve [auto with pres]
            | let h := head_of m in unfold h; pres ]
  end.

(** ** ex01_7: every row has two identifiers *)

Section Ex01_7_Binary.
Context {L : Library}.

Lemma binary_predicate_append p part args tv :
  binary_predicate p → length args = 2 →
  binary_predicate (append_row p part (DataRow args tv)).
Proof.
  intros [Hsz Hrows] Hargs. split; [by destruct part|].
  intros part'. specialize (Hrows part').
  destruct part, part'; cbn in *; try done;
    (apply Forall_app; split; [done | by constructor]).
Qed.

Lemma binary_add_data_row part args tv :
  length args = 2 →
  preserves binary_state (Ex01_7.predicate_add_data_row part args tv).
Proof.
  intros Hargs [w g] [Htr Hm]. rewrite predicate_add_data_row_run. cbn zeta.
  assert (Forall binary_call
            (trace w ++ [EvAddDataRow (Ex01_7.predicate g) part args tv])) as Htr'.
  { apply Forall_app. split; [done|]. by constructor. }
  destruct (predicates (Ex01_7.model g) !! Ex01_7.predicate g) as [p|] eqn:Hp;
    [|by split].
  destruct (add_data_row p part args tv) as [p'|] eqn:Hadd; [|by split].
  split; [done|]. cbn. apply map_Forall_insert_2; [|done].
  unfold add_data_row in Hadd. repeat case_match; try done.
  injection Hadd as <-. apply binary_predicate_append; [|done].
  by apply (Hm _ _ Hp).
Qed.

Lemma preserves_bind_predicate (I : world * Ex01_7.globals → Prop) name :
  (∀ w g x, I (w, g) → I (w, Ex01_7.with_predicate x g)) →
  preserves I (Ex01_7.bind_predicate name).
Proof.
  intros H [w g] Hs. rewrite bind_predicate_run.
  destruct (get_predicate (Ex01_7.model g) name); [by apply H | done].
Qed.

Lemma binary_bind_predicate name :
  preserves binary_state (Ex01_7.bind_predicate name).
Proof. apply preserves_bind_predicate. by intros w g x [? ?]. Qed.

Lemma binary_new_predicate name closed :
  binary_predicate (new_predicate name closed 2).
Proof. split; [done|]. intros []; constructor. Qed.

Lemma binary_clear_data p : binary_predicate p → binary_predicate (clear_data p).
Proof. intros [Hsz _]. split; [done|]. intros []; constructor. Qed.

Lemma binary_add_rule m text : binary_model m → binary_model (add_rule m text).
Proof. done. Qed.

Hint Resolve binary_add_data_row binary_bind_predicate : pres.

Ltac binary_side :=
  intros ? ? [? ?]; split; cbn; rewrite ?model_with_df; try done;
  try (apply Forall_app; split; [done | by constructor]).

Lemma binary_cells : Forall (preserves binary_state) Ex01_7.notebook.
Proof.
  unfold Ex01_7.notebook. repeat apply Forall_cons_2; [..|apply Forall_nil_2].
  all: pres; try binary_side.
  - cbn. apply map_Forall_insert_2; [apply binary_new_predicate|].
    apply map_Forall_insert_2; [apply binary_new_predicate|].
    apply map_Forall_insert_2; [apply binary_new_predicate|].
    apply map_Forall_empty.
  - unfold binary_model, clear_all. cbn. apply map_Forall_fmap. eapply map_Forall_impl; [eassumption|].
    intros ? ? ?. by apply binary_clear_data.
Qed.

(** C4: in a run of the notebook, whatever the files hold and wherever the
    run stops, every call of [add_data_row] passes exactly two identifiers,
    every predicate of the model has size 2 and every row of its partitions
    holds two identifiers; the model cell 4 builds has the three predicates
    [NEIGHBORS], [LIKES] and [KNOWS], each of size 2. *)
Theorem every_data_row_is_binary (files : gmap string file) :
  let out := Ex01_7.run (mkWorld files []) in
  Forall binary_call (trace out.2.1) ∧
  binary_model (Ex01_7.model out.2.2) ∧
  ∀ s, let m := Ex01_7.model (Ex01_7.cell04 s).2.2 in
       dom (predicates m) = {[ "NEIGHBORS"; "LIKES"; "KNOWS" ]} ∧
       map_Forall (λ _ p, pred_size p = 2) (predicates m).
Proof.
  intros out.
  assert (binary_state out.2) as [H1 H2].
  { unfold out, Ex01_7.run. apply preserves_post.
    - apply preserves_run_cells, binary_cells.
    - split; [constructor | apply map_Forall_empty]. }
  split_and!; [done.. |].
  intros s m. subst m. cbn. split.
  - rewrite !dom_insert_L, dom_empty_L. set_solver.
  - repeat apply map_Forall_insert_2; first [done | apply map_Forall_empty].
Qed.

End Ex01_7_Binary.

(** ** ex01_7: the order of the workflow *)

Section Ex01_7_Order.
Context {L : Library}.

Lemma in_order_snoc k tr e : in_order k tr → phase e = k → in_order k (tr ++ [e]).
Proof.
  intros [Hs Hb] He. split.
  - rewrite fmap_app. cbn. induction tr as [|x tr IH]; cbn.
    + repeat constructor.
    + apply StronglySorted_inv in Hs as [Hs Hx].
      apply Forall_cons in Hb as [Hxk Hb]. constructor; [by apply IH|].
      apply Forall_app. split; [done|]. constructor; [lia | constructor].
  - apply Forall_app. split; [done|]. constructor; [lia | constructor].
Qed.

Lemma in_order_mono k k' tr : (k ≤ k')%nat → in_order k tr → in_order k' tr.
Proof.
  intros Hk [Hs Hb]. split; [done|].
  eapply Forall_impl; [exact Hb|]. cbn. intros. lia.
Qed.

Ltac order_side :=
  intros ? ? ?; first [ assumption | apply in_order_snoc; [assumption | reflexivity] ].

Lemma ordered_bind_predicate k name :
  preserves (ordered_state k) (Ex01_7.bind_predicate name).
Proof. apply preserves_bind_predicate. by intros. Qed.

Hint Resolve ordered_bind_predicate : pres.

Lemma ordered_cell01 : preserves (ordered_state 0) Ex01_7.cell01.
Proof. pres; order_side. Qed.
Lemma ordered_cell02 : preserves (ordered_state 1) Ex01_7.cell02.
Proof. pres; order_side. Qed.
Lemma ordered_cell03 : preserves (ordered_state 1) Ex01_7.cell03.
Proof. pres; order_side. Qed.
Lemma ordered_cell04 : preserves (ordered_state 1) Ex01_7.cell04.
Proof. pres; order_side. Qed.
Lemma ordered_cell05 : preserves (ordered_state 1) Ex01_7.cell05.
Proof. pres; order_side. Qed.
Lemma ordered_cell06 : preserves (ordered_state 1) Ex01_7.cell06.
Proof. pres; order_side. Qed.
Lemma ordered_cell07 : preserves (ordered_state 1) Ex01_7.cell07.
Proof. pres; order_side. Qed.
Lemma ordered_cell09 : preserves (ordered_state 2) Ex01_7.cell09.
Proof. pres; order_side. Qed.
Lemma ordered_cell10 : preserves (ordered_state 2) Ex01_7.cell10.
Proof. pres; order_side. Qed.
Lemma ordered_cell11 : preserves (ordered_state 2) Ex01_7.cell11.
Proof. pres; order_side. Qed.
Lemma ordered_cell12 : preserves (ordered_state 2) Ex01_7.cell12.
Proof. pres; order_side. Qed.
Lemma ordered_cell13 : preserves (ordered_state 2) Ex01_7.cell13.
Proof. pres; order_side. Qed.
Lemma ordered_cell14 : preserves (ordered_state 3) Ex01_7.cell14.
Proof. pres; order_side. Qed.
Lemma ordered_cell15 : preserves (ordered_state 3) Ex01_7.cell15.
Proof. pres; order_side. Qed.
Lemma ordered_cell16 : preserves (ordered_state 4) Ex01_7.cell16.
Proof. pres; order_side. Qed.
Lemma ordered_cell17 : preserves (ordered_state 4) Ex01_7.cell17.
Proof. pres; order_side. Qed.
Lemma ordered_cell18 : preserves (ordered_state 4) Ex01_7.cell18.
Proof. pres; order_side. Qed.

(** A cell that keeps the trace in order up to step [k], followed by cells
    that keep it in order from a later step on. *)
Lemma ordered_then k k' (c : M Ex01_7.globals unit) cs :
  preserves (ordered_state k) c → (k ≤ k')%nat → (k' ≤ 4)%nat →
  hoare (ordered_state k') (run_cells cs) (λ _, ordered_state 4) (ordered_state 4) →
  hoare (ordered_state k) (run_cells (c :: cs)) (λ _, ordered_state 4) (ordered_state 4).
Proof.
  intros Hc Hk Hk' Hcs. cbn [run_cells]. eapply hoare_bind.
  - eapply hoare_conseq; [apply Hc | done | | ].
    + intros ? s Hs. exact (in_order_mono _ _ _ Hk Hs).
    + intros s Hs. apply (in_order_mono k); [lia | done].
  - intros ?. exact Hcs.
Qed.

Lemma ordered_notebook :
  hoare (ordered_state 0) (run_cells Ex01_7.notebook)
    (λ _, ordered_state 4) (ordered_state 4).
Proof.
  unfold Ex01_7.notebook.
  eapply (ordered_then 0 1); [apply ordered_cell01 | lia.. |].
  eapply (ordered_then 1 1); [apply ordered_cell02 | lia.. |].
  eapply (ordered_then 1 1); [apply ordered_cell03 | lia.. |].
  eapply (ordered_then 1 1); [apply ordered_cell04 | lia.. |].
  eapply (ordered_then 1 1); [apply ordered_cell05 | lia.. |].
  eapply (ordered_then 1 1); [apply ordered_cell06 | lia.. |].
  eapply (ordered_then 1 2); [apply ordered_cell07 | lia.. |].
  eapply (ordered_then 2 2); [apply ordered_cell09 | lia.. |].
  eapply (ordered_then 2 2); [apply ordered_cell10 | lia.. |].
  eapply (ordered_then 2 2); [apply ordered_cell11 | lia.. |].
  eapply (ordered_then 2 2); [apply ordered_cell12 | lia.. |].
  eapply (ordered_then 2 3); [apply ordered_cell13 | lia.. |].
  eapply (ordered_then 3 3); [apply ordered_cell14 | lia.. |].
  eapply (ordered_then 3 4); [apply ordered_cell15 | lia.. |].
  eapply (ordered_then 4 4); [apply ordered_cell16 | lia.. |].
  eapply (ordered_then 4 4); [apply ordered_cell17 | lia.. |].
  eapply (ordered_then 4 4); [apply ordered_cell18 | lia.. |].
  by apply hoare_ret.
Qed.

Lemma run_cells_app {G} (cs1 cs2 : list (M G unit)) s :
  run_cells (cs1 ++ cs2) s =
    match run_cells cs1 s with
    | (Ok _, s') => run_cells cs2 s'
    | (Raise e, s') => (Raise e, s')
    end.
Proof.
  revert s. induction cs1 as [|c cs1 IH]; intros s; [done|].
  cbn [app run_cells]. rewrite !bind_run.
  destruct (c s) as [[[]|e] s']; [apply IH | done].
Qed.

End Ex01_7_Order.

(** ** ex01_7: reading the targets file *)

Section Ex01_7_Targets.
Context {L : Library}.



End Ex01_7_Targets.

(** ** [csv.reader] on lines without quotes *)

Section CsvFacts.
Variable d : Ascii.ascii.







End CsvFacts.

Section Ex01_7_TargetsFile.
Context {L : Library}.



End Ex01_7_TargetsFile.

(** ** ex01_7: the comparison *)

Section Ex01_7_Compare.
Context {L : Library}.

Lemma key_of_run (row : Ex01_7.dat_row) (s : world * Ex01_7.globals) :
  Ex01_7.key_of row s =
    match py_int (Ex01_7.col0 row), py_int (Ex01_7.col1 row) with
    | Some k1, Some k2 => (Ok (k1, k2), s)
    | _, _ => (Raise ValueError, s)
    end.
Proof.
  unfold Ex01_7.key_of. steps.
  destruct (py_int (Ex01_7.col0 row)); [|done]. steps.
  by destruct (py_int (Ex01_7.col1 row)).
Qed.

Lemma record_truth_run (row : Ex01_7.dat_row) (s : world * Ex01_7.globals) :
  Ex01_7.record_truth row s =
    match py_int (Ex01_7.col0 row), py_int (Ex01_7.col1 row) with
    | Some k1, Some k2 =>
        (Ok tt, (s.1, Ex01_7.with_dat_val
                        (<[(k1, k2) := Ex01_7.col_truth row]> (Ex01_7.dat_val s.2)) s.2))
    | _, _ => (Raise ValueError, s)
    end.
Proof.
  unfold Ex01_7.record_truth. steps. rewrite key_of_run.
  destruct (py_int (Ex01_7.col0 row)); [|done].
  destruct (py_int (Ex01_7.col1 row)); [|done]. by steps.
Qed.

Lemma frame_key_of_run (row : Ex01_7.res_row) (s : world * Ex01_7.globals) :
  Ex01_7.frame_key_of row s =
    match frame_key row with
    | Some k => (Ok k, s)
    | None => (Raise OverflowError, s)
    end.
Proof.
  unfold Ex01_7.frame_key_of, frame_key. steps.
  destruct (Py.int_of_float (Py.float_of_int (Ex01_7.res0 row))); [|done]. steps.
  by destruct (Py.int_of_float (Py.float_of_int (Ex01_7.res1 row))).
Qed.

Lemma compute_diff_run (ir : nat * Ex01_7.res_row) (s : world * Ex01_7.globals) :
  Ex01_7.compute_diff ir s =
    match frame_key ir.2 with
    | Some k =>
        let w1 := mkWorld (fs s.1) (trace s.1 ++ [EvLookup k]) in
        match Ex01_7.dat_val s.2 !! k with
        | Some v =>
            let d := PrimFloat.sub (Ex01_7.res_truth ir.2) v in
            (Ok tt,
             (mkWorld (fs s.1) ((trace s.1 ++ [EvLookup k]) ++ [EvSetDiff ir.1 d]),
              Ex01_7.with_df (Ex01_7.set_diff ir.1 d (Ex01_7.df s.2)) s.2))
        | None => (Raise KeyError, (w1, s.2))
        end
    | None => (Raise OverflowError, s)
    end.
Proof.
  unfold Ex01_7.compute_diff. steps. rewrite frame_key_of_run.
  destruct (frame_key ir.2) as [k|]; [|done]. steps.
  destruct (Ex01_7.dat_val s.2 !! k); by steps.
Qed.

Lemma record_truth_loop rows w (g : Ex01_7.globals) :
  (for_each rows Ex01_7.record_truth (w, g)).1 = Ok tt →
  ∃ m, foldl record_step (Some (Ex01_7.dat_val g)) rows = Some m ∧
       (for_each rows Ex01_7.record_truth (w, g)).2 = (w, Ex01_7.with_dat_val m g).
Proof.
  revert g. induction rows as [|row rows IH]; intros g; cbn [for_each foldl].
  { intros _. exists (Ex01_7.dat_val g). split; [done|]. by destruct g. }
  rewrite !bind_run, record_truth_run.
  unfold record_step at 2. cbn [mbind option_bind fst snd].
  destruct (py_int (Ex01_7.col0 row)) as [k1|]; [|done].
  destruct (py_int (Ex01_7.col1 row)) as [k2|]; [|done]. cbv beta iota.
  intros Hok. destruct (IH _ Hok) as (m & Hm & Hs). exists m. split; [exact Hm|].
  by rewrite Hs.
Qed.

(** The events of the second loop of cell 16 for rows and their differences. *)
Lemma compute_diff_loop (irs : list (nat * Ex01_7.res_row)) w (g : Ex01_7.globals) :
  (for_each irs Ex01_7.compute_diff (w, g)).1 = Ok tt →
  ∃ ds,
    Forall2 (λ ir d, diff_of (Ex01_7.dat_val g) ir.2 = Some d) irs ds ∧
    (for_each irs Ex01_7.compute_diff (w, g)).2.2 =
      Ex01_7.with_df
        (foldl (λ d id, Ex01_7.set_diff id.1 id.2 d) (Ex01_7.df g)
           (zip (fst <$> irs) ds)) g ∧
    fs (for_each irs Ex01_7.compute_diff (w, g)).2.1 = fs w ∧
    trace (for_each irs Ex01_7.compute_diff (w, g)).2.1 =
      trace w ++
        ((zip irs ds) ≫= λ x,
           match frame_key x.1.2 with
           | Some k => [EvLookup k; EvSetDiff x.1.1 x.2]
           | None => []
           end).
Proof.
  revert w g. induction irs as [|[i row] irs IH]; intros w g; cbn [for_each].
  { intros _. exists []. split; [constructor|]. cbn. rewrite with_df_id, app_nil_r.
    done. }
  rewrite !bind_run, compute_diff_run. cbn [snd fst].
  destruct (frame_key row) as [k|] eqn:Hk; [|done]. cbv beta iota zeta.
  destruct (Ex01_7.dat_val g !! k) as [v|] eqn:Hv; [|done]. cbv beta iota.
  intros Hok. destruct (IH _ _ Hok) as (ds & Hds & Hs & Hfs & Htr).
  exists (PrimFloat.sub (Ex01_7.res_truth row) v :: ds). split_and!.
  - constructor.
    + unfold diff_of. cbn [fst snd]. rewrite Hk. cbn. by rewrite Hv.
    + by rewrite dat_val_with_df in Hds.
  - rewrite Hs. cbn. by rewrite df_with_df, with_df_with_df.
  - by rewrite Hfs.
  - rewrite Htr. cbn [fmap list_fmap zip zip_with mbind list_bind fst snd trace].
    rewrite Hk. cbn. by rewrite <- !(assoc_L (++)).
Qed.

Lemma set_diff_rows i v d : Ex01_7.df_rows (Ex01_7.set_diff i v d) = Ex01_7.df_rows d.
Proof. done. Qed.

Lemma set_diff_current i v d :
  current_diff (Ex01_7.set_diff i v d) = <[i := v]> (current_diff d).
Proof. done. Qed.

Lemma fill_column (pre col ds : list float) :
  length col = length ds →
  foldl (λ c (id : nat * float), <[id.1 := id.2]> c) (pre ++ col)
    (zip (seq (length pre) (length ds)) ds) = pre ++ ds.
Proof.
  revert pre col. induction ds as [|d ds IH]; intros pre col Hlen.
  { destruct col; [done | discriminate]. }
  destruct col as [|c col]; [discriminate|]. cbn [length seq zip zip_with foldl fst snd].
  rewrite insert_app_r_alt, Nat.sub_diag by lia. cbn [insert list_insert].
  rewrite (cons_middle d pre col), (cons_middle d pre ds), !(assoc_L (++)).
  replace (S (length pre)) with (length (pre ++ [d])) by (rewrite length_app; cbn; lia).
  apply IH. cbn in Hlen. lia.
Qed.

Lemma set_diff_fold (d : Ex01_7.DataFrame) (ids : list (nat * float)) :
  ids ≠ [] →
  foldl (λ d id, Ex01_7.set_diff id.1 id.2 d) d ids =
    Ex01_7.mkDf (Ex01_7.df_rows d)
      (Some (foldl (λ c (id : nat * float), <[id.1 := id.2]> c) (current_diff d) ids)).
Proof.
  revert d. induction ids as [|id ids IH]; intros d Hne; [done|].
  cbn [foldl]. destruct ids as [|id' ids]; [done|].
  rewrite IH by done. by rewrite set_diff_rows, set_diff_current.
Qed.

Lemma iterrows_fst d :
  (fst <$> Ex01_7.iterrows d) = seq 0 (length (Ex01_7.df_rows d)).
Proof. unfold Ex01_7.iterrows. apply fst_zip. by rewrite length_seq. Qed.

Lemma iterrows_snd d : (snd <$> Ex01_7.iterrows d) = Ex01_7.df_rows d.
Proof. unfold Ex01_7.iterrows. apply snd_zip. by rewrite length_seq. Qed.

(** The threshold of the code is the float -(2/10). *)
Lemma threshold_value : Ex01_7.threshold = (- (2 / 10))%float.
Proof. reflexivity. Qed.

Lemma report_suspect_run col (ir : nat * Ex01_7.res_row) (s : world * Ex01_7.globals) :
  Ex01_7.report_suspect (Some col) ir s =
    match col !! ir.1 with
    | None => (Raise IndexError, s)
    | Some diff =>
        if PrimFloat.ltb diff (- (2 / 10))%float then
          match frame_key ir.2 with
          | Some k =>
              (Ok tt,
               (mkWorld (fs s.1)
                  (trace s.1 ++
                     [EvPrint ("?? acq:person_" +:+ pretty k.1
                               +:+ " foaf:knows acq:person_" +:+ pretty k.2)]),
                s.2))
          | None => (Raise OverflowError, s)
          end
        else (Ok tt, s)
    end.
Proof.
  unfold Ex01_7.report_suspect. steps.
  destruct (col !! ir.1) as [diff|]; [|done]. steps.
  rewrite threshold_value.
  destruct (PrimFloat.ltb diff (- (2 / 10))%float); [|done].
  rewrite bind_run, frame_key_of_run.
  destruct (frame_key ir.2) as [k|]; [|done]. by steps.
Qed.

Lemma suspects_rounded_cons row rows d ds :
  suspects_rounded (row :: rows) (d :: ds) =
    match (if PrimFloat.ltb d (- (2 / 10))%float then
             k ← frame_key row ;
             Some ("?? acq:person_" +:+ pretty k.1
                   +:+ " foaf:knows acq:person_" +:+ pretty k.2)
           else None) with
    | Some line => line :: suspects_rounded rows ds
    | None => suspects_rounded rows ds
    end.
Proof. reflexivity. Qed.

Lemma report_loop (pre ds : list float) rows w (g : Ex01_7.globals) :
  Forall2 (λ row d, is_Some (frame_key row)) rows ds →
  for_each (zip (seq (length pre) (length rows)) rows)
    (Ex01_7.report_suspect (Some (pre ++ ds))) (w, g) =
  (Ok tt, (mkWorld (fs w) (trace w ++ (EvPrint <$> suspects_rounded rows ds)), g)).
Proof.
  intros Hrows. revert pre w.
  induction Hrows as [|row d rows ds [k Hk] _ IH]; intros pre w.
  { cbn. rewrite app_nil_r. by destruct w. }
  cbn [length seq zip zip_with for_each].
  rewrite bind_run, report_suspect_run. cbn [fst snd].
  rewrite lookup_app_r, Nat.sub_diag by done. cbn [lookup list_lookup].
  rewrite (cons_middle d pre ds), (assoc_L (++)).
  replace (S (length pre)) with (length (pre ++ [d])) by (rewrite length_app; cbn; lia).
  rewrite suspects_rounded_cons.
  destruct (PrimFloat.ltb d (- (2 / 10))%float).
  - rewrite Hk. cbv beta iota. rewrite IH. cbn. by rewrite <- (assoc_L (++)).
  - by rewrite IH.
Qed.



(** What a completed cell 16 leaves, from a frame whose column [diff], if
    there is one, has one entry per row. *)
Lemma cell16_completed (w : world) (g : Ex01_7.globals) :
  (Ex01_7.cell16 (w, g)).1 = Ok tt →
  length (current_diff (Ex01_7.df g)) = length (Ex01_7.df_rows (Ex01_7.df g)) →
  ∃ m ds,
    recorded (Ex01_7.df_dat g) = Some m ∧
    Forall2 (λ row d, diff_of m row = Some d) (Ex01_7.df_rows (Ex01_7.df g)) ds ∧
    (Ex01_7.cell16 (w, g)).2.2 =
      Ex01_7.with_df
        (match Ex01_7.df_rows (Ex01_7.df g) with
         | [] => Ex01_7.df g
         | _ :: _ => Ex01_7.mkDf (Ex01_7.df_rows (Ex01_7.df g)) (Some ds)
         end)
        (Ex01_7.with_dat_val m g) ∧
    fs (Ex01_7.cell16 (w, g)).2.1 = fs w ∧
    trace (Ex01_7.cell16 (w, g)).2.1 =
      trace w ++
        ((zip (Ex01_7.iterrows (Ex01_7.df g)) ds) ≫= λ x,
           match frame_key x.1.2 with
           | Some k => [EvLookup k; EvSetDiff x.1.1 x.2]
           | None => []
           end).
Proof.
  unfold Ex01_7.cell16. steps.
  set (g0 := Ex01_7.with_dat_val ∅ g).
  pose proof (record_truth_loop (Ex01_7.df_dat g0) w g0) as Hrec.
  destruct (for_each (Ex01_7.df_dat g0) Ex01_7.record_truth (w, g0))
    as [[[]|e] s1]; [|done].
  cbn [fst snd] in Hrec. destruct (Hrec eq_refl) as (m & Hm & ->). clear Hrec. steps.
  set (g2 := Ex01_7.with_dat_val m g0).
  intros Hok Hcol.
  destruct (compute_diff_loop (Ex01_7.iterrows (Ex01_7.df g2)) w g2 Hok)
    as (ds & Hds & Hs3 & Hfs & Htr).
  rewrite Hs3, Hfs, Htr. clear Hs3 Hfs Htr Hok.
  rewrite iterrows_fst in *.
  replace (Ex01_7.df g2) with (Ex01_7.df g) in * by done.
  replace (Ex01_7.dat_val g2) with m in * by done.
  apply (Forall2_fmap_l snd (λ row d, diff_of m row = Some d)) in Hds.
  rewrite iterrows_snd in Hds.
  pose proof (Forall2_length _ _ _ Hds) as Hlen.
  exists m, ds.
  assert (foldl (λ d id, Ex01_7.set_diff id.1 id.2 d) (Ex01_7.df g)
            (zip (seq 0 (length (Ex01_7.df_rows (Ex01_7.df g)))) ds) =
          match Ex01_7.df_rows (Ex01_7.df g) with
          | [] => Ex01_7.df g
          | _ :: _ => Ex01_7.mkDf (Ex01_7.df_rows (Ex01_7.df g)) (Some ds)
          end) as ->.
  { destruct (Ex01_7.df_rows (Ex01_7.df g)) as [|r rs] eqn:Hrows; [done|].
    destruct ds as [|d ds]; [done|].
    rewrite set_diff_fold by done. rewrite Hrows. f_equal. f_equal.
    rewrite Hlen.
    apply (fill_column [] (current_diff (Ex01_7.df g)) (d :: ds)).
    by rewrite Hcol, Hlen. }
  split_and!; [exact Hm | exact Hds | | done | done].
  unfold g2, g0. by rewrite with_dat_val_with_dat_val.
Qed.


End Ex01_7_Compare.


(** ** Files shared between the notebooks *)

Section Files.
Context {L : Library}.



Lemma confined_bind_predicate rs ws name :
  preserves (confined rs ws) (Ex01_7.bind_predicate name).
Proof. apply preserves_bind_predicate. by intros. Qed.

Hint Resolve confined_bind_predicate : pres.






End Files.




(** * Further properties of the notebooks' code *)

(** ** [get_person_id] beyond the round trip *)

Lemma replace_leading_match old new s :
  old ≠ "" → Py.replace old new (old +:+ s) = new +:+ Py.replace old new s.
Proof.
  intros Hne. destruct old as [|c old]; [done|].
  unfold Py.replace. rewrite append_cons. cbn [Py.replace_from].
  assert (Py.startswith (String c old) (String c (old +:+ s)) = true) as ->.
  { apply startswith_spec. by exists s. }
  cbn [String.length]. rewrite Nat.sub_1_r. cbn [Nat.pred].
  by rewrite replace_from_skip.
Qed.

(** X1: [get_person_id] drops a leading person prefix and treats the rest
    of the URL as it would on its own (so a doubled prefix goes twice), and
    it returns unchanged any text in which the prefix does not occur, such
    as the URL of a place. *)
Theorem get_person_id_strips_leading_prefix (s : string) :
  Ex01_7.get_person_id ("http://example.org/stuff/person_" +:+ s)
    = Ex01_7.get_person_id s ∧
  (Py.contains "http://example.org/stuff/person_" s = false →
   Ex01_7.get_person_id s = s).
Proof.
  unfold Ex01_7.get_person_id. split.
  - by rewrite replace_leading_match.
  - apply replace_from_absent.
Qed.

(** ** ex01_7: what the observation loops add *)

Section Ex01_7_Observations.
Context {L : Library}.

Lemma observe_distinct_run (row : list term) (w : world) (g : Ex01_7.globals) :
  Ex01_7.observe_distinct row (w, g) =
    match person_pair row with
    | Some (p1, p2) =>
        if bool_decide (p1 ≠ p2)
        then Ex01_7.predicate_add_data_row OBSERVATIONS [p1; p2] 1%float (w, g)
        else (Ok tt, (w, g))
    | None => (Raise IndexError, (w, g))
    end.
Proof.
  unfold Ex01_7.observe_distinct, index.
  destruct row as [|t1 [|t2 row]]; [done..|].
  cbn [lookup list_lookup person_pair]. steps. by case_bool_decide.
Qed.

Lemma person_pair_is_Some (row : list term) :
  (2 ≤ length row)%nat → is_Some (person_pair row).
Proof. destruct row as [|t1 [|t2 row]]; cbn; [lia..|]. by eexists. Qed.

Lemma extended_nil (m : Model) key part : extended m key part [] = m.
Proof.
  unfold extended. destruct (predicates m !! key) as [p|] eqn:Hp; [|done].
  destruct m as [n ps rs]. unfold update_predicate. cbn in *.
  by rewrite insert_id.
Qed.

Lemma extended_cons (m : Model) key part p r rs :
  predicates m !! key = Some p →
  extended (update_predicate m key (append_row p part r)) key part rs =
    extended m key part (r :: rs).
Proof.
  intros Hp. unfold extended. rewrite Hp. cbn. rewrite lookup_insert_eq.
  unfold update_predicate. cbn. by rewrite insert_insert_eq.
Qed.

Lemma rows_of_extended (m : Model) key part p rs part' :
  predicates m !! key = Some p →
  rows_of (extended m key part rs) key part' =
    data p part' ++ (if decide (part = part') then rs else []).
Proof.
  intros Hp. unfold extended. rewrite Hp, rows_of_update. clear Hp.
  revert p. induction rs as [|r rs IH]; intros p; cbn [foldl].
  { case_decide; by rewrite app_nil_r. }
  rewrite IH. destruct part, part'; cbn; try done; by rewrite <- (assoc_L (++)).
Qed.

Lemma rows_of_extended_other (m : Model) key part rs key' part' :
  key ≠ key' → rows_of (extended m key part rs) key' part' = rows_of m key' part'.
Proof.
  intros Hne. unfold extended, rows_of.
  destruct (predicates m !! key); [|done]. cbn. by rewrite lookup_insert_ne.
Qed.

Lemma with_model_id (g : Ex01_7.globals) : Ex01_7.with_model (Ex01_7.model g) g = g.
Proof. by destruct g. Qed.

Lemma observe_distinct_loop rows w (g : Ex01_7.globals) p :
  Forall (λ row : list term, (2 ≤ length row)%nat) rows →
  predicates (Ex01_7.model g) !! Ex01_7.predicate g = Some p → pred_size p = 2 →
  for_each rows Ex01_7.observe_distinct (w, g) =
    (Ok tt,
     (mkWorld (fs w)
        (trace w ++
           ((λ q, EvAddDataRow (Ex01_7.predicate g) OBSERVATIONS [q.1; q.2] 1%float)
              <$> distinct_pairs rows)),
      Ex01_7.with_model
        (extended (Ex01_7.model g) (Ex01_7.predicate g) OBSERVATIONS
           (rows_for 1%float (distinct_pairs rows))) g)).
Proof.
  intros Hrows. revert w g p.
  induction Hrows as [|row rows Hrow _ IH]; intros w g p Hp Hsz; cbn [for_each].
  { unfold distinct_pairs, rows_for. cbn.
    rewrite extended_nil, with_model_id, app_nil_r. by destruct w. }
  rewrite bind_run, observe_distinct_run.
  destruct (person_pair_is_Some row Hrow) as [[p1 p2] Hpair]. rewrite Hpair.
  unfold distinct_pairs. cbn [omap list_omap]. rewrite Hpair.
  rewrite filter_cons. cbn [fst snd].
  case_bool_decide as Hne.
  - rewrite decide_True by done.
    rewrite predicate_add_data_row_run. cbn zeta. rewrite Hp.
    rewrite add_data_row_certain by (by left). cbn [length]. rewrite Hsz.
    cbn [Nat.eqb].
    rewrite (IH _ _ (append_row p OBSERVATIONS (DataRow [p1; p2] 1%float)));
      [|cbn; by rewrite lookup_insert_eq | done].
    cbn [Ex01_7.predicate Ex01_7.model Ex01_7.with_model fs trace].
    fold (distinct_pairs rows). rewrite (extended_cons _ _ _ _ _ _ Hp).
    cbn. by rewrite <- (assoc_L (++)).
  - rewrite decide_False by (cbn; auto). by rewrite (IH _ _ p).
Qed.

(** X2: the loop cells 9 and 10 share turns the rows of the SPARQL answer
    into observations of the current predicate: for rows of at least two
    columns and a predicate of size 2, it completes and appends to
    [OBSERVATIONS], in order and with truth 1.0, exactly the pairs of
    identifiers that are made of two different identifiers; a pair of a
    person with itself is never added, and [TARGETS], [TRUTH] and the other
    predicates are left alone. *)
Theorem distinct_pairs_become_observations (rows : list (list term))
    (w : world) (g : Ex01_7.globals) (p : Predicate) :
  Forall (λ row : list term, (2 ≤ length row)%nat) rows →
  predicates (Ex01_7.model g) !! Ex01_7.predicate g = Some p →
  pred_size p = 2 →
  let out := for_each rows Ex01_7.observe_distinct (w, g) in
  let key := Ex01_7.predicate g in
  let added := distinct_pairs rows in
  out.1 = Ok tt ∧
  rows_of (Ex01_7.model out.2.2) key OBSERVATIONS
    = observations p ++ rows_for 1%float added ∧
  rows_of (Ex01_7.model out.2.2) key TARGETS = targets p ∧
  rows_of (Ex01_7.model out.2.2) key TRUTH = truth p ∧
  (∀ key' part, key' ≠ key →
     rows_of (Ex01_7.model out.2.2) key' part = rows_of (Ex01_7.model g) key' part) ∧
  Forall (λ q, q.1 ≠ q.2 ∧ ∃ row, row ∈ rows ∧ person_pair row = Some q) added.
Proof.
  intros Hrows Hp Hsz out key added. subst out.
  rewrite (observe_distinct_loop rows w g p Hrows Hp Hsz).
  cbn [fst snd Ex01_7.model Ex01_7.with_model]. fold key added.
  split_and!.
  - done.
  - by rewrite (rows_of_extended _ _ _ p), decide_True.
  - rewrite (rows_of_extended _ _ _ p) by done. rewrite decide_False by done.
    by rewrite app_nil_r.
  - rewrite (rows_of_extended _ _ _ p) by done. rewrite decide_False by done.
    by rewrite app_nil_r.
  - intros key' part Hne. by apply rows_of_extended_other.
  - apply Forall_forall. intros q Hq. unfold added, distinct_pairs in Hq.
    apply list_elem_of_filter in Hq as [Hq1 Hq2]. split; [done|].
    by apply list_elem_of_omap in Hq2.
Qed.

End Ex01_7_Observations.

Section Ex01_7_NonTargets.
Context {L : Library}.

Lemma query_run {S : Type} (q : string) (gr : gset triple) (w : world) (g : S) :
  query q gr (w, g)
    = (Ok (sparql gr q), (mkWorld (fs w) (trace w ++ [EvQuery q]), g)).
Proof. unfold query. by steps. Qed.

Lemma observe_non_target_run' tv (row : list term) (w : world) (g : Ex01_7.globals) :
  Ex01_7.observe_non_target tv row (w, g) =
    match person_pair row with
    | Some (p1, p2) =>
        if bool_decide ((p1, p2) ∉ Ex01_7.targets g)
        then Ex01_7.predicate_add_data_row OBSERVATIONS [p1; p2] tv (w, g)
        else (Ok tt, (w, g))
    | None => (Raise IndexError, (w, g))
    end.
Proof.
  rewrite observe_non_target_run.
  by destruct row as [|t1 [|t2 row]].
Qed.

Lemma observe_non_target_loop tv rows w (g : Ex01_7.globals) p :
  tv = 1%float ∨ tv = 0%float →
  Forall (λ row : list term, (2 ≤ length row)%nat) rows →
  predicates (Ex01_7.model g) !! Ex01_7.predicate g = Some p → pred_size p = 2 →
  for_each rows (Ex01_7.observe_non_target tv) (w, g) =
    (Ok tt,
     (mkWorld (fs w)
        (trace w ++
           ((λ q, EvAddDataRow (Ex01_7.predicate g) OBSERVATIONS [q.1; q.2] tv)
              <$> non_target_pairs (Ex01_7.targets g) rows)),
      Ex01_7.with_model
        (extended (Ex01_7.model g) (Ex01_7.predicate g) OBSERVATIONS
           (rows_for tv (non_target_pairs (Ex01_7.targets g) rows))) g)).
Proof.
  intros Htv Hrows. revert w g p.
  induction Hrows as [|row rows Hrow _ IH]; intros w g p Hp Hsz; cbn [for_each].
  { unfold non_target_pairs, rows_for. cbn.
    rewrite extended_nil, with_model_id, app_nil_r. by destruct w. }
  rewrite bind_run, observe_non_target_run'.
  destruct (person_pair_is_Some row Hrow) as [[p1 p2] Hpair]. rewrite Hpair.
  unfold non_target_pairs. cbn [omap list_omap]. rewrite Hpair.
  rewrite filter_cons.
  case_bool_decide as Hne.
  - rewrite decide_True by done.
    rewrite predicate_add_data_row_run. cbn zeta. rewrite Hp.
    rewrite add_data_row_certain by done. cbn [length]. rewrite Hsz.
    cbn [Nat.eqb].
    rewrite (IH _ _ (append_row p OBSERVATIONS (DataRow [p1; p2] tv)));
      [|cbn; by rewrite lookup_insert_eq | done].
    cbn [Ex01_7.predicate Ex01_7.model Ex01_7.with_model Ex01_7.targets fs trace].
    fold (non_target_pairs (Ex01_7.targets g) rows).
    rewrite (extended_cons _ _ _ _ _ _ Hp).
    cbn. by rewrite <- (assoc_L (++)).
  - rewrite decide_False by (intros Hn; exact (Hn Hne)). by rewrite (IH _ _ p).
Qed.

Lemma extended_extended (m : Model) key part rs1 rs2 :
  extended (extended m key part rs1) key part rs2 = extended m key part (rs1 ++ rs2).
Proof.
  unfold extended. destruct (predicates m !! key) as [p|] eqn:Hp.
  - cbn. rewrite lookup_insert_eq. unfold update_predicate. cbn.
    by rewrite insert_insert_eq, foldl_app.
  - by rewrite Hp.
Qed.

Lemma extended_lookup (m : Model) key part rs p :
  predicates m !! key = Some p →
  ∃ p', predicates (extended m key part rs) !! key = Some p' ∧
        pred_size p' = pred_size p.
Proof.
  intros Hp. unfold extended. rewrite Hp. cbn. rewrite lookup_insert_eq.
  eexists. split; [done|]. clear Hp. revert p.
  induction rs as [|r rs IH]; intros p; cbn; [done|].
  rewrite IH. by destruct part.
Qed.

(** X3: cell 13 completes whenever [Knows] is declared with size 2 and the
    two answers have at least two columns per row, and it appends to
    [OBSERVATIONS] of [KNOWS] exactly the [foaf:knows] pairs that are not
    targets, with truth 1.0, followed by the [acq:wantsIntro] pairs that
    are not targets, with truth 0.0, in the order of the answers; unlike
    cells 9 and 10 it keeps a pair of a person with itself.  [targets],
    [TARGETS] and [TRUTH] are unchanged. *)
Theorem non_targets_become_observations (w : world) (g : Ex01_7.globals)
    (p : Predicate) :
  get_predicate (Ex01_7.model g) "Knows" = Some p →
  pred_size p = 2 →
  Forall (λ row : list term, (2 ≤ length row)%nat)
    (sparql (Ex01_7.kg g) Ex01_7.query_knows) →
  Forall (λ row : list term, (2 ≤ length row)%nat)
    (sparql (Ex01_7.kg g) Ex01_7.query_wants_intro) →
  let out := Ex01_7.cell13 (w, g) in
  let known := non_target_pairs (Ex01_7.targets g)
                 (sparql (Ex01_7.kg g) Ex01_7.query_knows) in
  let wanted := non_target_pairs (Ex01_7.targets g)
                  (sparql (Ex01_7.kg g) Ex01_7.query_wants_intro) in
  out.1 = Ok tt ∧
  rows_of (Ex01_7.model out.2.2) "KNOWS" OBSERVATIONS
    = observations p ++ rows_for 1%float known ++ rows_for 0%float wanted ∧
  rows_of (Ex01_7.model out.2.2) "KNOWS" TARGETS = targets p ∧
  rows_of (Ex01_7.model out.2.2) "KNOWS" TRUTH = truth p ∧
  Ex01_7.targets out.2.2 = Ex01_7.targets g.
Proof.
  intros Hp Hsz Hk Hw out known wanted. subst out.
  unfold Ex01_7.cell13. rewrite bind_run, bind_predicate_run, Hp. steps.
  rewrite query_run. steps.
  set (g1 := Ex01_7.with_predicate (normalize_name "Knows") g).
  assert (predicates (Ex01_7.model g1) !! Ex01_7.predicate g1 = Some p) as Hp1
    by exact Hp.
  cbn [Ex01_7.kg Ex01_7.with_predicate].
  rewrite (observe_non_target_loop 1%float _ _ g1 p); [|by left|exact Hk|done..].
  steps. rewrite query_run. steps.
  cbn [Ex01_7.kg Ex01_7.with_model Ex01_7.with_predicate].
  set (m1 := extended _ _ _ _).
  set (g2 := Ex01_7.with_model m1 g1).
  destruct (extended_lookup (Ex01_7.model g1) (Ex01_7.predicate g1) OBSERVATIONS
              (rows_for 1%float (non_target_pairs (Ex01_7.targets g1)
                 (sparql (Ex01_7.kg g) Ex01_7.query_knows))) p Hp1)
    as (p' & Hp' & Hsz').
  rewrite (observe_non_target_loop 0%float _ _ g2 p');
    [|by right|exact Hw|exact Hp'|congruence].
  cbn [fst snd Ex01_7.model Ex01_7.with_model Ex01_7.targets Ex01_7.predicate
       Ex01_7.with_predicate].
  subst g2 m1 g1. cbn [Ex01_7.model Ex01_7.with_model Ex01_7.with_predicate
    Ex01_7.predicate Ex01_7.targets Ex01_7.kg].
  rewrite extended_extended. fold known wanted.
  change (normalize_name "Knows") with "KNOWS".
  split_and!; try done.
  - by rewrite (rows_of_extended _ _ _ p), decide_True.
  - rewrite (rows_of_extended _ _ _ p) by done. rewrite decide_False by done.
    by rewrite app_nil_r.
  - rewrite (rows_of_extended _ _ _ p) by done. rewrite decide_False by done.
    by rewrite app_nil_r.
Qed.

End Ex01_7_NonTargets.

Section Ex01_7_Targets.
Context {L : Library}.

Lemma printed_app (t1 t2 : list event) : printed (t1 ++ t2) = printed t1 ++ printed t2.
Proof. apply omap_app. Qed.

Lemma classify_knows (gr : gset triple) p1 p2 :
  mem (URIRef ("http://example.org/stuff/person_" +:+ p1),
       URIRef "http://xmlns.com/foaf/0.1/knows",
       URIRef ("http://example.org/stuff/person_" +:+ p2)) gr = true →
  classify gr (p1, p2) = Some 1%float.
Proof. intros H. unfold classify. cbn [fst snd]. by rewrite H. Qed.

Lemma classify_wants (gr : gset triple) p1 p2 :
  mem (URIRef ("http://example.org/stuff/person_" +:+ p1),
       URIRef "http://xmlns.com/foaf/0.1/knows",
       URIRef ("http://example.org/stuff/person_" +:+ p2)) gr = false →
  mem (URIRef ("http://example.org/stuff/person_" +:+ p1),
       URIRef "http://example.org/stuff/wantsIntro",
       URIRef ("http://example.org/stuff/person_" +:+ p2)) gr = true →
  classify gr (p1, p2) = Some 0%float.
Proof. intros H1 H2. unfold classify. cbn [fst snd]. by rewrite H1, H2. Qed.

Lemma classify_none (gr : gset triple) p1 p2 :
  mem (URIRef ("http://example.org/stuff/person_" +:+ p1),
       URIRef "http://xmlns.com/foaf/0.1/knows",
       URIRef ("http://example.org/stuff/person_" +:+ p2)) gr = false →
  mem (URIRef ("http://example.org/stuff/person_" +:+ p1),
       URIRef "http://example.org/stuff/wantsIntro",
       URIRef ("http://example.org/stuff/person_" +:+ p2)) gr = false →
  classify gr (p1, p2) = None.
Proof. intros H1 H2. unfold classify. cbn [fst snd]. by rewrite H1, H2. Qed.

Lemma recognised_cons_Some gr q tv qs :
  classify gr q = Some tv →
  recognised gr (q :: qs) = Ex01_7.mkRow q.1 q.2 tv :: recognised gr qs.
Proof. intros H. unfold recognised. cbn [omap list_omap]. by rewrite H. Qed.

Lemma recognised_cons_None gr q qs :
  classify gr q = None → recognised gr (q :: qs) = recognised gr qs.
Proof. intros H. unfold recognised. cbn [omap list_omap]. by rewrite H. Qed.

Lemma unrecognised_cons_Some gr q tv qs :
  classify gr q = Some tv → unrecognised gr (q :: qs) = unrecognised gr qs.
Proof.
  intros H. unfold unrecognised. rewrite filter_cons.
  rewrite decide_False; [done|]. by rewrite H.
Qed.

Lemma unrecognised_cons_None gr q qs :
  classify gr q = None → unrecognised gr (q :: qs) = q :: unrecognised gr qs.
Proof.
  intros H. unfold unrecognised. rewrite filter_cons. by rewrite decide_True.
Qed.

Lemma load_targets_loop rows w (g : Ex01_7.globals) p :
  Forall (λ row : list string, length row = 2) rows →
  predicates (Ex01_7.model g) !! Ex01_7.predicate g = Some p → pred_size p = 2 →
  let pairs := omap Py.unpack2 rows in
  let known := recognised (Ex01_7.kg g) pairs in
  ∃ w' g' p',
    for_each rows Ex01_7.load_target (w, g) = (Ok tt, (w', g')) ∧
    fs w' = fs w ∧
    printed (trace w') =
      printed (trace w) ++
        ((λ q, "UNKNOWN " +:+ q.1 +:+ " " +:+ q.2)
           <$> unrecognised (Ex01_7.kg g) pairs) ∧
    Ex01_7.targets g' = Ex01_7.targets g ++ pairs ∧
    Ex01_7.rows_list g' = Ex01_7.rows_list g ++ known ∧
    Ex01_7.kg g' = Ex01_7.kg g ∧
    Ex01_7.predicate g' = Ex01_7.predicate g ∧
    predicates (Ex01_7.model g') !! Ex01_7.predicate g = Some p' ∧
    pred_size p' = 2 ∧
    truth p' =
      truth p ++ ((λ r, DataRow [Ex01_7.col0 r; Ex01_7.col1 r] (Ex01_7.col_truth r))
                    <$> known) ∧
    targets p' =
      targets p ++ ((λ r, DataRow [Ex01_7.col0 r; Ex01_7.col1 r] 1%float) <$> known) ∧
    observations p' = observations p ∧
    (∀ key', key' ≠ Ex01_7.predicate g →
       predicates (Ex01_7.model g') !! key' = predicates (Ex01_7.model g) !! key').
Proof.
  intros Hrows. revert w g p.
  induction Hrows as [|row rows Hrow _ IH]; intros w g p Hp Hsz pairs known;
    subst pairs known; cbn [for_each].
  { exists w, g, p. cbn. rewrite !app_nil_r. by split_and!. }
  apply unpack2_length in Hrow as (p1 & p2 & -> & Hrow).
  rewrite bind_run, load_target_run, Hrow. cbn zeta. cbn [omap list_omap Py.unpack2].
  set (g0 := Ex01_7.with_targets _ g).
  set (pairs := omap Py.unpack2 rows).
  assert (∀ tv, tv = 1%float ∨ tv = 0%float →
            classify (Ex01_7.kg g) (p1, p2) = Some tv →
    ∃ w' g' p',
      (let (r, s') := Ex01_7.record_target p1 p2 tv (w, g0) in
       match r with
       | Ok a => for_each rows Ex01_7.load_target s'
       | Raise e => (Raise e, s')
       end) = (Ok tt, (w', g')) ∧
      fs w' = fs w ∧
      printed (trace w') =
        printed (trace w) ++
          ((λ q, "UNKNOWN " +:+ q.1 +:+ " " +:+ q.2)
             <$> unrecognised (Ex01_7.kg g) ((p1, p2) :: pairs)) ∧
      Ex01_7.targets g' = Ex01_7.targets g ++ (p1, p2) :: pairs ∧
      Ex01_7.rows_list g' =
        Ex01_7.rows_list g ++ recognised (Ex01_7.kg g) ((p1, p2) :: pairs) ∧
      Ex01_7.kg g' = Ex01_7.kg g ∧
      Ex01_7.predicate g' = Ex01_7.predicate g ∧
      predicates (Ex01_7.model g') !! Ex01_7.predicate g = Some p' ∧
      pred_size p' = 2 ∧
      truth p' =
        truth p ++ ((λ r, DataRow [Ex01_7.col0 r; Ex01_7.col1 r] (Ex01_7.col_truth r))
                      <$> recognised (Ex01_7.kg g) ((p1, p2) :: pairs)) ∧
      targets p' =
        targets p ++ ((λ r, DataRow [Ex01_7.col0 r; Ex01_7.col1 r] 1%float)
                        <$> recognised (Ex01_7.kg g) ((p1, p2) :: pairs)) ∧
      observations p' = observations p ∧
      (∀ key', key' ≠ Ex01_7.predicate g →
         predicates (Ex01_7.model g') !! key' = predicates (Ex01_7.model g) !! key'))
    as Hrec.
  { intros tv Htv Hcl. rewrite (record_target_run _ _ _ _ _ Htv). cbn zeta.
    replace (Ex01_7.model g0) with (Ex01_7.model g) by done.
    replace (Ex01_7.predicate g0) with (Ex01_7.predicate g) by done.
    rewrite Hp, Hsz. cbn [Nat.eqb].
    match goal with |- context [for_each rows _ (?w1, ?g1)] =>
      destruct (IH w1 g1
                  (append_row (append_row p TRUTH (DataRow [p1; p2] tv))
                     TARGETS (DataRow [p1; p2] 1%float)))
        as (w' & g' & p' & Hrun & Hfs & Hpr & Htg & Hrl & Hkg & Hpd & Hp' & Hsz'
            & Htr & Hta & Hob & Hoth)
    end.
    { cbn. by rewrite lookup_insert_eq. }
    { done. }
    exists w', g', p'. cbn in Hfs, Hpr, Htg, Hrl, Hkg, Hpd, Hp', Htr, Hta, Hob, Hoth.
    rewrite (recognised_cons_Some _ _ _ _ Hcl), (unrecognised_cons_Some _ _ _ _ Hcl).
    fold pairs in Hpr, Htg, Hrl, Htr, Hta.
    rewrite Hkg in *. cbn [fst snd fmap list_fmap Ex01_7.col0 Ex01_7.col1
                           Ex01_7.col_truth].
    split_and!; try done.
    - rewrite Hpr, !printed_app. cbn. by rewrite !app_nil_r.
    - by rewrite Htg, <- (assoc_L (++)).
    - by rewrite Hrl, <- (assoc_L (++)).
    - by rewrite Htr, <- (assoc_L (++)).
    - by rewrite Hta, <- (assoc_L (++)).
    - intros key' Hne. rewrite (Hoth key' Hne). by apply lookup_insert_ne. }
  destruct (mem (_, URIRef "http://xmlns.com/foaf/0.1/knows", _) (Ex01_7.kg g))
    eqn:Hk.
  { apply Hrec; [by left | by apply classify_knows]. }
  destruct (mem (_, URIRef "http://example.org/stuff/wantsIntro", _) (Ex01_7.kg g))
    eqn:Hw.
  { apply Hrec; [by right | by apply classify_wants]. }
  pose proof (classify_none _ _ _ Hk Hw) as Hcl.
  match goal with |- context [for_each rows _ (?w1, ?g1)] =>
    destruct (IH w1 g1 p)
      as (w' & g' & p' & Hrun & Hfs & Hpr & Htg & Hrl & Hkg & Hpd & Hp' & Hsz'
          & Htr & Hta & Hob & Hoth); [exact Hp | exact Hsz |]
  end.
  exists w', g', p'. cbn in Hfs, Hpr, Htg, Hrl, Hkg, Hpd, Hp', Htr, Hta, Hob, Hoth.
  rewrite (recognised_cons_None _ _ _ Hcl), (unrecognised_cons_None _ _ _ Hcl).
  fold pairs in Hpr, Htg, Hrl, Htr, Hta.
  rewrite Hkg in *. cbn [fst snd fmap list_fmap].
  split_and!; try done.
  - rewrite Hpr, !printed_app. cbn. by rewrite <- (assoc_L (++)).
  - by rewrite Htg, <- (assoc_L (++)).
Qed.

Lemma target_events_cons key gr q qs :
  target_events key gr (q :: qs) =
    match classify gr q with
    | Some tv =>
        [EvAddDataRow key TRUTH [q.1; q.2] tv;
         EvAddDataRow key TARGETS [q.1; q.2] 1%float]
    | None => [EvPrint ("UNKNOWN " +:+ q.1 +:+ " " +:+ q.2)]
    end ++ target_events key gr qs.
Proof. reflexivity. Qed.

Lemma load_targets_events rows w (g : Ex01_7.globals) p :
  Forall (λ row : list string, length row = 2) rows →
  predicates (Ex01_7.model g) !! Ex01_7.predicate g = Some p → pred_size p = 2 →
  trace (for_each rows Ex01_7.load_target (w, g)).2.1 =
    trace w ++ target_events (Ex01_7.predicate g) (Ex01_7.kg g) (omap Py.unpack2 rows).
Proof.
  intros Hrows. revert w g p.
  induction Hrows as [|row rows Hrow _ IH]; intros w g p Hp Hsz; cbn [for_each].
  { cbn. by rewrite app_nil_r. }
  apply unpack2_length in Hrow as (p1 & p2 & -> & Hrow).
  rewrite bind_run, load_target_run, Hrow. cbn zeta. cbn [omap list_omap Py.unpack2].
  rewrite target_events_cons.
  set (g0 := Ex01_7.with_targets _ g).
  assert (∀ tv, tv = 1%float ∨ tv = 0%float →
            trace (let (r, s') := Ex01_7.record_target p1 p2 tv (w, g0) in
                   match r with
                   | Ok a => for_each rows Ex01_7.load_target s'
                   | Raise e => (Raise e, s')
                   end).2.1 =
            trace w ++
              [EvAddDataRow (Ex01_7.predicate g) TRUTH [p1; p2] tv;
               EvAddDataRow (Ex01_7.predicate g) TARGETS [p1; p2] 1%float]
              ++ target_events (Ex01_7.predicate g) (Ex01_7.kg g)
                   (omap Py.unpack2 rows)) as Hrec.
  { intros tv Htv. rewrite (record_target_run _ _ _ _ _ Htv). cbn zeta.
    replace (Ex01_7.model g0) with (Ex01_7.model g) by done.
    replace (Ex01_7.predicate g0) with (Ex01_7.predicate g) by done.
    rewrite Hp, Hsz. cbn [Nat.eqb].
    match goal with |- context [for_each rows _ (?w1, ?g1)] =>
      rewrite (IH w1 g1
                 (append_row (append_row p TRUTH (DataRow [p1; p2] tv))
                    TARGETS (DataRow [p1; p2] 1%float)))
    end.
    - cbn. by rewrite <- !(assoc_L (++)).
    - cbn. by rewrite lookup_insert_eq.
    - done. }
  destruct (mem (_, URIRef "http://xmlns.com/foaf/0.1/knows", _) (Ex01_7.kg g))
    eqn:Hk.
  { rewrite (classify_knows _ _ _ Hk). apply Hrec. by left. }
  destruct (mem (_, URIRef "http://example.org/stuff/wantsIntro", _) (Ex01_7.kg g))
    eqn:Hw.
  { rewrite (classify_wants _ _ _ Hk Hw). apply Hrec. by right. }
  rewrite (classify_none _ _ _ Hk Hw).
  match goal with |- context [for_each rows _ (?w1, ?g1)] =>
    rewrite (IH w1 g1 p Hp Hsz)
  end.
  cbn. by rewrite <- !(assoc_L (++)).
Qed.

(** X4: cell 12 on a targets file whose records all have two fields, with
    [Knows] declared of size 2: it completes; [df_dat] and [rows_list] hold
    one row per pair the graph relates, in file order, with truth 1.0 for
    [foaf:knows] (looked up first) and 0.0 for [acq:wantsIntro]; the same
    pairs are appended to [TRUTH] with that truth value and to [TARGETS]
    with 1.0, after the rows already there (the partitions are not
    cleared); [OBSERVATIONS] is left alone; and one [UNKNOWN] line is
    printed for each remaining pair, so every pair of the file is either
    recorded or printed. *)
Theorem targets_file_is_classified (w : world) (g : Ex01_7.globals)
    (lines : list string) (p : Predicate) :
  fs w !! "dat/psl/knows_targets.txt" = Some (Text lines) →
  Forall (λ row, length row = 2) (csv_reader Ex01_7.tab lines) →
  get_predicate (Ex01_7.model g) "Knows" = Some p →
  pred_size p = 2 →
  let out := Ex01_7.cell12 (w, g) in
  let pairs := omap Py.unpack2 (csv_reader Ex01_7.tab lines) in
  let known := recognised (Ex01_7.kg g) pairs in
  let unknown := unrecognised (Ex01_7.kg g) pairs in
  out.1 = Ok tt ∧
  Ex01_7.df_dat out.2.2 = known ∧
  Ex01_7.rows_list out.2.2 = known ∧
  rows_of (Ex01_7.model out.2.2) "KNOWS" TRUTH =
    truth p ++ ((λ r, DataRow [Ex01_7.col0 r; Ex01_7.col1 r] (Ex01_7.col_truth r))
                  <$> known) ∧
  rows_of (Ex01_7.model out.2.2) "KNOWS" TARGETS =
    targets p ++ ((λ r, DataRow [Ex01_7.col0 r; Ex01_7.col1 r] 1%float) <$> known) ∧
  rows_of (Ex01_7.model out.2.2) "KNOWS" OBSERVATIONS = observations p ∧
  printed (trace out.2.1) =
    printed (trace w) ++ ((λ q, "UNKNOWN " +:+ q.1 +:+ " " +:+ q.2) <$> unknown) ∧
  length known + length unknown = length pairs.
Proof.
  intros Hfile Hrows Hp Hsz out pairs known unknown. subst out.
  unfold Ex01_7.cell12. steps. rewrite bind_predicate_run.
  cbn [Ex01_7.model Ex01_7.with_rows_list Ex01_7.with_targets]. rewrite Hp.
  steps. unfold Ex01_7.open_text. steps.
  change Ex01_7.targets_path with "dat/psl/knows_targets.txt".
  rewrite Hfile. steps.
  match goal with |- context [for_each _ _ (?w1, ?g1)] =>
    destruct (load_targets_loop _ w1 g1 p Hrows)
      as (w' & g' & p' & Hrun & Hfs & Hpr & Htg & Hrl & Hkg & Hpd & Hp' & Hsz'
          & Htr & Hta & Hob & Hoth); [exact Hp | exact Hsz |]
  end.
  rewrite Hrun. steps.
  cbn [fst snd Ex01_7.df_dat Ex01_7.rows_list Ex01_7.model Ex01_7.with_df_dat].
  assert (predicates (Ex01_7.model g') !! "KNOWS" = Some p') as Hp'' by exact Hp'.
  clear Hp'. cbn in Hpr, Hrl, Htr, Hta.
  fold pairs in Hpr, Hrl, Htr, Hta. fold known in Hrl, Htr, Hta.
  fold unknown in Hpr.
  unfold rows_of. rewrite Hp''. cbn [data].
  split_and!; try done.
  - rewrite Hpr, printed_app. cbn. by rewrite app_nil_r.
  - unfold known, unknown, recognised, unrecognised. clear.
    induction pairs as [|q qs IH]; [done|].
    cbn [omap list_omap]. rewrite filter_cons.
    destruct (classify (Ex01_7.kg g) q) eqn:Hq; cbn [fmap option_fmap option_map].
    + rewrite decide_False by done. cbn [length]. cbn in IH. lia.
    + rewrite decide_True by done. cbn [length]. cbn in IH. lia.
Qed.

End Ex01_7_Targets.

Section Ex01_7_Comparison.
Context {L : Library}.

Lemma record_step_None rows : foldl record_step None rows = None.
Proof. by induction rows. Qed.

Lemma recorded_fold rows : recorded rows = foldl record_step (Some ∅) rows.
Proof. reflexivity. Qed.

Lemma record_truth_loop_full rows w (g : Ex01_7.globals) :
  let out := for_each rows Ex01_7.record_truth (w, g) in
  match foldl record_step (Some (Ex01_7.dat_val g)) rows with
  | Some m => out = (Ok tt, (w, Ex01_7.with_dat_val m g))
  | None => out.1 = Raise ValueError ∧ out.2.1 = w ∧ Ex01_7.df out.2.2 = Ex01_7.df g
  end.
Proof.
  revert g. induction rows as [|row rows IH]; intros g; cbn [for_each foldl].
  { by destruct g. }
  cbn zeta. rewrite bind_run, record_truth_run.
  unfold record_step at 2. cbn [mbind option_bind fst snd].
  destruct (py_int (Ex01_7.col0 row)) as [k1|];
    [|by rewrite record_step_None].
  destruct (py_int (Ex01_7.col1 row)) as [k2|];
    [|by rewrite record_step_None].
  cbv beta iota.
  specialize (IH (Ex01_7.with_dat_val (<[(k1, k2) := Ex01_7.col_truth row]>
                                         (Ex01_7.dat_val g)) g)).
  cbn zeta in IH. cbn [Ex01_7.dat_val Ex01_7.with_dat_val] in IH.
  destruct (foldl record_step _ rows) as [m|]; [|exact IH].
  by rewrite IH.
Qed.

Lemma compute_diff_loop_ok (irs : list (nat * Ex01_7.res_row)) w (g : Ex01_7.globals) :
  Forall (λ ir, is_Some (diff_of (Ex01_7.dat_val g) ir.2)) irs →
  (for_each irs Ex01_7.compute_diff (w, g)).1 = Ok tt.
Proof.
  intros Hirs. revert w g Hirs.
  induction irs as [|[i row] irs IH]; intros w g Hirs; cbn [for_each]; [done|].
  apply Forall_cons in Hirs as [[d Hd] Hirs].
  rewrite bind_run, compute_diff_run. cbn [fst snd] in Hd |- *.
  unfold diff_of in Hd.
  destruct (frame_key row) as [k|]; [|done]. cbv beta iota zeta.
  cbn in Hd. destruct (Ex01_7.dat_val g !! k) as [v|]; [|done].
  cbv beta iota. apply IH.
  eapply Forall_impl; [exact Hirs|]. intros ir. by rewrite dat_val_with_df.
Qed.

Lemma compute_diff_loop_outcome (irs : list (nat * Ex01_7.res_row)) w
    (g : Ex01_7.globals) :
  let out := for_each irs Ex01_7.compute_diff (w, g) in
  (out.1 = Ok tt ∨ out.1 = Raise ValueError ∨ out.1 = Raise KeyError
   ∨ out.1 = Raise OverflowError) ∧
  fs out.2.1 = fs w ∧ Ex01_7.dat_val out.2.2 = Ex01_7.dat_val g.
Proof.
  revert w g. induction irs as [|[i row] irs IH]; intros w g; cbn [for_each].
  { cbn. auto. }
  cbn zeta. rewrite bind_run, compute_diff_run. cbn [fst snd].
  destruct (frame_key row) as [k|]; [|cbn; auto 6]. cbv beta iota zeta.
  destruct (Ex01_7.dat_val g !! k) as [v|]; [|cbn; auto].
  cbv beta iota.
  match goal with |- context [for_each irs _ (?w1, ?g1)] =>
    destruct (IH w1 g1) as (Ho & Hf & Hd)
  end.
  rewrite dat_val_with_df in Hd.
  split_and!; [exact Ho | exact Hf | exact Hd].
Qed.

Lemma diffs_defined m (irs : list (nat * Ex01_7.res_row)) ds :
  Forall2 (λ ir d, diff_of m ir.2 = Some d) irs ds →
  Forall (λ ir, is_Some (diff_of m ir.2)) irs.
Proof. induction 1; constructor; [by eexists | done]. Qed.

Lemma diff_defined m row :
  is_Some (diff_of m row) ↔ ∃ k, frame_key row = Some k ∧ is_Some (m !! k).
Proof.
  split.
  - intros [d Hd]. unfold diff_of in Hd.
    destruct (frame_key row) as [k|]; [|done]. cbn in Hd.
    destruct (m !! k) as [v|] eqn:Hv; [|done].
    exists k. split; [done|]. rewrite Hv. by eexists.
  - intros (k & Hk & [v Hv]). unfold diff_of. rewrite Hk. cbn. rewrite Hv.
    by eexists.
Qed.

(** X5: when cell 16 completes.  It does exactly when every row of
    [df_dat] has integer identifiers and every row of [df] has a key that
    some row of [df_dat] recorded, the key of a row of [df] being made of
    its identifiers rounded to float64 and read back as integers.  A row
    of [df_dat] whose identifiers are not integers stops the cell with
    ValueError before [df] is touched; the cell never ends with an error
    other than ValueError, KeyError and OverflowError, and it changes no
    file. *)
Theorem comparison_completes_iff_keys_resolve (w : world) (g : Ex01_7.globals) :
  let out := Ex01_7.cell16 (w, g) in
  (out.1 = Ok tt ↔
     ∃ m, recorded (Ex01_7.df_dat g) = Some m ∧
          Forall (λ row,
                    ∃ k1 k2,
                      Py.int_of_float (Py.float_of_int (Ex01_7.res0 row)) = Some k1 ∧
                      Py.int_of_float (Py.float_of_int (Ex01_7.res1 row)) = Some k2 ∧
                      is_Some (m !! (k1, k2)))
            (Ex01_7.df_rows (Ex01_7.df g))) ∧
  match recorded (Ex01_7.df_dat g) with
  | Some _ => True
  | None => out.1 = Raise ValueError ∧ Ex01_7.df out.2.2 = Ex01_7.df g
  end ∧
  (out.1 = Ok tt ∨ out.1 = Raise ValueError ∨ out.1 = Raise KeyError
   ∨ out.1 = Raise OverflowError) ∧
  fs out.2.1 = fs w.
Proof.
  cbn zeta.
  assert (∀ m row,
            (∃ k1 k2,
               Py.int_of_float (Py.float_of_int (Ex01_7.res0 row)) = Some k1 ∧
               Py.int_of_float (Py.float_of_int (Ex01_7.res1 row)) = Some k2 ∧
               is_Some (m !! (k1, k2))) ↔ is_Some (diff_of m row)) as Hkey.
  { intros m row. rewrite diff_defined. unfold frame_key. split.
    - intros (k1 & k2 & -> & -> & Hm). by exists (k1, k2).
    - intros (k & Hk & Hm).
      destruct (Py.int_of_float (Py.float_of_int (Ex01_7.res0 row))) as [k1|];
        [|done].
      destruct (Py.int_of_float (Py.float_of_int (Ex01_7.res1 row))) as [k2|];
        [|done].
      cbn in Hk. injection Hk as <-. by exists k1, k2. }
  unfold Ex01_7.cell16. steps.
  set (g0 := Ex01_7.with_dat_val ∅ g).
  pose proof (record_truth_loop_full (Ex01_7.df_dat g0) w g0) as Hrec.
  cbn zeta in Hrec.
  replace (Ex01_7.df_dat g0) with (Ex01_7.df_dat g) in * by done.
  replace (Ex01_7.dat_val g0) with (∅ : gmap (Z * Z) float) in Hrec by done.
  rewrite recorded_fold.
  destruct (foldl record_step (Some ∅) (Ex01_7.df_dat g)) as [m|].
  2:{ destruct Hrec as (Hr & Hw & Hdf).
      destruct (for_each _ Ex01_7.record_truth _) as [[[]|e] [w1 g1]]; [done|].
      cbn in Hr, Hw, Hdf |- *. subst w1. split_and!; auto.
      split; [done | by intros (m & [=] & _)]. }
  rewrite Hrec. steps. set (g2 := Ex01_7.with_dat_val m g0).
  pose proof (compute_diff_loop_outcome (Ex01_7.iterrows (Ex01_7.df g2)) w g2)
    as (Hout & Hfs & _).
  split_and!; [|done|exact Hout|exact Hfs].
  replace (Ex01_7.df g2) with (Ex01_7.df g) by done.
  split.
  - intros Hok. exists m. split; [done|].
    destruct (compute_diff_loop _ _ _ Hok) as (ds & Hds & _).
    apply diffs_defined in Hds.
    apply (Forall_fmap snd (λ row, is_Some (diff_of m row))) in Hds.
    rewrite iterrows_snd in Hds.
    eapply Forall_impl; [exact Hds|]. intros row. by rewrite Hkey.
  - intros (m' & [= <-] & Hrows). apply compute_diff_loop_ok.
    apply (Forall_fmap snd (λ row, is_Some (diff_of m row))).
    rewrite iterrows_snd.
    eapply Forall_impl; [exact Hrows|]. intros row. by rewrite Hkey.
Qed.

Lemma record_step_fold_last m rows row post k1 k2 m' :
  py_int (Ex01_7.col0 row) = Some k1 → py_int (Ex01_7.col1 row) = Some k2 →
  Forall (λ r, ¬ (py_int (Ex01_7.col0 r) = Some k1 ∧ py_int (Ex01_7.col1 r) = Some k2))
    post →
  foldl record_step (Some m) (rows ++ row :: post) = Some m' →
  m' !! (k1, k2) = Some (Ex01_7.col_truth row).
Proof.
  intros H1 H2 Hpost. rewrite foldl_app. cbn [foldl].
  destruct (foldl record_step (Some m) rows) as [m1|];
    [|by rewrite record_step_None].
  unfold record_step at 2. cbn [mbind option_bind]. rewrite H1, H2. cbn.
  assert (<[(k1, k2) := Ex01_7.col_truth row]> m1 !! (k1, k2)
            = Some (Ex01_7.col_truth row)) as Hm by apply lookup_insert_eq.
  revert Hm. generalize (<[(k1, k2) := Ex01_7.col_truth row]> m1). clear m1.
  induction Hpost as [|r post Hr _ IH]; intros m1 Hm; cbn [foldl].
  { by intros [= <-]. }
  unfold record_step at 2. cbn [mbind option_bind].
  destruct (py_int (Ex01_7.col0 r)) as [j1|] eqn:Hj1;
    [|by rewrite record_step_None].
  destruct (py_int (Ex01_7.col1 r)) as [j2|] eqn:Hj2;
    [|by rewrite record_step_None].
  cbn. apply IH. rewrite lookup_insert_ne; [done|].
  intros [= -> ->]. by apply Hr.
Qed.

(** X6: [dat_val] keeps one truth value per key, the last one: after
    cell 16 has completed, the key of a row of [df_dat] that no later row
    of [df_dat] shares maps to that row's truth value, whatever earlier
    rows with the same key said. *)
Theorem later_truth_overwrites_earlier (w : world) (g : Ex01_7.globals)
    (pre post : list Ex01_7.dat_row) (row : Ex01_7.dat_row) (k1 k2 : Z) :
  Ex01_7.df_dat g = pre ++ row :: post →
  py_int (Ex01_7.col0 row) = Some k1 →
  py_int (Ex01_7.col1 row) = Some k2 →
  Forall (λ r, ¬ (py_int (Ex01_7.col0 r) = Some k1 ∧ py_int (Ex01_7.col1 r) = Some k2))
    post →
  (Ex01_7.cell16 (w, g)).1 = Ok tt →
  Ex01_7.dat_val (Ex01_7.cell16 (w, g)).2.2 !! (k1, k2) = Some (Ex01_7.col_truth row).
Proof.
  intros Hdat H1 H2 Hpost. unfold Ex01_7.cell16. steps.
  set (g0 := Ex01_7.with_dat_val ∅ g).
  pose proof (record_truth_loop_full (Ex01_7.df_dat g0) w g0) as Hrec.
  cbn zeta in Hrec.
  replace (Ex01_7.df_dat g0) with (Ex01_7.df_dat g) in * by done.
  replace (Ex01_7.dat_val g0) with (∅ : gmap (Z * Z) float) in Hrec by done.
  destruct (foldl record_step (Some ∅) (Ex01_7.df_dat g)) as [m|] eqn:Hm.
  2:{ destruct Hrec as (Hr & _).
      by destruct (for_each _ Ex01_7.record_truth _) as [[[]|e] [w1 g1]]. }
  rewrite Hrec. steps. intros _.
  set (g2 := Ex01_7.with_dat_val m g0).
  pose proof (compute_diff_loop_outcome (Ex01_7.iterrows (Ex01_7.df g2)) w g2)
    as (_ & _ & Hdv).
  cbn zeta in Hdv. rewrite Hdv. cbn [Ex01_7.dat_val Ex01_7.with_dat_val g2].
  rewrite Hdat in Hm. by eapply record_step_fold_last.
Qed.

(** X7: cell 18 needs the column [diff]: on a frame that has rows but no
    such column (cell 16 has not run) it stops at the first row with
    [KeyError], having printed nothing; on an empty frame it does
    nothing. *)
Theorem report_needs_diff_column (w : world) (g : Ex01_7.globals) :
  Ex01_7.df_diff (Ex01_7.df g) = None →
  Ex01_7.cell18 (w, g) =
    (match Ex01_7.df_rows (Ex01_7.df g) with
     | [] => Ok tt
     | _ :: _ => Raise KeyError
     end, (w, g)).
Proof.
  intros Hnone. unfold Ex01_7.cell18. steps. rewrite Hnone.
  unfold Ex01_7.iterrows.
  destruct (Ex01_7.df_rows (Ex01_7.df g)) as [|r rs]; [done|].
  cbn [length seq zip zip_with for_each]. rewrite bind_run.
  unfold Ex01_7.report_suspect. by steps.
Qed.

Lemma diffs_functional m (rows : list Ex01_7.res_row) ds ds' :
  Forall2 (λ row d, diff_of m row = Some d) rows ds →
  Forall2 (λ row d, diff_of m row = Some d) rows ds' → ds = ds'.
Proof.
  intros H. revert ds'. induction H as [|row d rows ds Hd _ IH]; intros ds' H';
    inversion H' as [|? d' ? ds'' Hd' Hrest]; subst; [done|].
  f_equal; [congruence | by apply IH].
Qed.

Lemma cell16_state (w : world) (g : Ex01_7.globals) m ds :
  length (current_diff (Ex01_7.df g)) = length (Ex01_7.df_rows (Ex01_7.df g)) →
  recorded (Ex01_7.df_dat g) = Some m →
  Forall2 (λ row d, diff_of m row = Some d) (Ex01_7.df_rows (Ex01_7.df g)) ds →
  (Ex01_7.cell16 (w, g)).1 = Ok tt ∧
  (Ex01_7.cell16 (w, g)).2.2 =
    Ex01_7.with_df
      (match Ex01_7.df_rows (Ex01_7.df g) with
       | [] => Ex01_7.df g
       | _ :: _ => Ex01_7.mkDf (Ex01_7.df_rows (Ex01_7.df g)) (Some ds)
       end)
      (Ex01_7.with_dat_val m g).
Proof.
  intros Hcol Hm Hds.
  assert ((Ex01_7.cell16 (w, g)).1 = Ok tt) as Hok.
  { unfold Ex01_7.cell16. steps.
    set (g0 := Ex01_7.with_dat_val ∅ g).
    pose proof (record_truth_loop_full (Ex01_7.df_dat g0) w g0) as Hrec.
    cbn zeta in Hrec.
    replace (Ex01_7.df_dat g0) with (Ex01_7.df_dat g) in * by done.
    replace (Ex01_7.dat_val g0) with (∅ : gmap (Z * Z) float) in Hrec by done.
    rewrite recorded_fold in Hm. rewrite Hm in Hrec. rewrite Hrec. steps.
    apply compute_diff_loop_ok.
    apply (Forall_fmap snd (λ row, is_Some (diff_of m row))).
    rewrite iterrows_snd.
    replace (Ex01_7.df (Ex01_7.with_dat_val m g0)) with (Ex01_7.df g) by done.
    revert Hds. generalize (Ex01_7.df_rows (Ex01_7.df g)). clear.
    intros rows Hds. induction Hds; constructor; [by eexists | done]. }
  split; [exact Hok|].
  destruct (cell16_completed w g Hok Hcol) as (m' & ds' & Hm' & Hds' & -> & _).
  rewrite Hm in Hm'. injection Hm' as <-.
  by rewrite (diffs_functional _ _ _ _ Hds' Hds).
Qed.

(** X8: cell 16 can be run again.  After a run that completed on a frame
    without the column [diff], a second run completes too and leaves every
    variable as the first run left it: [dat_val] is rebuilt from scratch
    and each [diff] is assigned the same value again. *)
Theorem comparison_can_be_rerun (w : world) (g : Ex01_7.globals) :
  Ex01_7.df_diff (Ex01_7.df g) = None →
  (Ex01_7.cell16 (w, g)).1 = Ok tt →
  let s1 := (Ex01_7.cell16 (w, g)).2 in
  (Ex01_7.cell16 s1).1 = Ok tt ∧ (Ex01_7.cell16 s1).2.2 = s1.2.
Proof.
  intros Hnone Hok s1.
  assert (length (current_diff (Ex01_7.df g))
            = length (Ex01_7.df_rows (Ex01_7.df g))) as Hcol.
  { unfold current_diff. rewrite Hnone. apply length_replicate. }
  destruct (cell16_completed w g Hok Hcol) as (m & ds & Hm & Hds & _).
  destruct (cell16_state w g m ds Hcol Hm Hds) as [_ Hs1].
  destruct s1 as [w1 g1] eqn:Es1. subst s1. rewrite Es1 in Hs1. cbn [snd] in *.
  pose proof (Forall2_length _ _ _ Hds) as Hlen.
  set (X := match Ex01_7.df_rows (Ex01_7.df g) with
            | [] => Ex01_7.df g
            | _ :: _ => Ex01_7.mkDf (Ex01_7.df_rows (Ex01_7.df g)) (Some ds)
            end) in *.
  assert (Ex01_7.df g1 = X) as Hdf1 by by rewrite Hs1, df_with_df.
  assert (Ex01_7.df_rows X = Ex01_7.df_rows (Ex01_7.df g)) as Hrows.
  { unfold X. by destruct (Ex01_7.df_rows (Ex01_7.df g)) eqn:E. }
  assert (Ex01_7.df_dat g1 = Ex01_7.df_dat g) as Hdat
    by by rewrite Hs1, df_dat_with_df.
  destruct (cell16_state w1 g1 m ds) as [Hok2 Hs2].
  - rewrite Hdf1, Hrows. unfold X.
    destruct (Ex01_7.df_rows (Ex01_7.df g)); [exact Hcol | by rewrite Hlen].
  - by rewrite Hdat.
  - by rewrite Hdf1, Hrows.
  - split; [exact Hok2|]. rewrite Hs2, Hdf1, Hrows.
    assert (match Ex01_7.df_rows (Ex01_7.df g) with
            | [] => X
            | _ :: _ => Ex01_7.mkDf (Ex01_7.df_rows (Ex01_7.df g)) (Some ds)
            end = X) as ->.
    { unfold X. by destruct (Ex01_7.df_rows (Ex01_7.df g)). }
    rewrite Hs1.
    by rewrite !with_df_with_dat_val, !with_df_with_df.
Qed.

End Ex01_7_Comparison.

(** ** ex01_2: the run as a whole *)

Section Ex01_2_Run.
Context {L : Library}.

Lemma for_each_print {G} (lines : list string) (w : world) (g : G) :
  for_each lines print (w, g) = (Ok tt, (mkWorld (fs w) (trace w ++ (EvPrint <$> lines)), g)).
Proof.
  revert w. induction lines as [|l lines IH]; intros w; cbn [for_each].
  { cbn. rewrite app_nil_r. by destruct w. }
  rewrite bind_run, print_run. cbv beta iota. rewrite IH. cbn.
  by rewrite <- (assoc_L (++)).
Qed.

Lemma for_each_print_map {G A} (f : A → string) (l : list A) (w : world) (g : G) :
  for_each l (λ a, print (f a)) (w, g)
    = (Ok tt, (mkWorld (fs w) (trace w ++ (EvPrint <$> (f <$> l))), g)).
Proof.
  revert w. induction l as [|a l IH]; intros w; cbn [for_each].
  { cbn. rewrite app_nil_r. by destruct w. }
  rewrite bind_run, print_run. cbv beta iota. rewrite IH. cbn.
  by rewrite <- (assoc_L (++)).
Qed.

Lemma printed_prints (lines : list string) : printed (EvPrint <$> lines) = lines.
Proof.
  induction lines as [|l lines IH]; [done|].
  unfold printed in *. cbn [fmap list_fmap omap list_omap]. by rewrite IH.
Qed.

Lemma cell02_graph (w : world) (g : Ex01_2.globals) :
  Ex01_2.cell02 (w, g) = (Ok tt, (w, Ex01_2.mkGlobals (recipe_graph ∪ Ex01_2.kg g))).
Proof.
  unfold Ex01_2.cell02, Ex01_2.kg_add. steps. cbn [Ex01_2.kg]. unfold add.
  do 3 f_equal. rewrite !(assoc_L (∪)). by f_equal.
Qed.

Lemma ex01_2_run_state (w : world) :
  Ex01_2.run w =
    (Ok tt,
     (mkWorld
        (<["tmp.parquet" := Parquet recipe_graph]>
           (<["tmp.jsonld" := JsonLd recipe_graph]>
              (<["tmp.ttl" := Turtle recipe_graph]> (fs w))))
        ((((((((trace w ++
                  (EvPrint <$>
                     ((λ t : triple, Py.print_line [str t.1.1; str t.1.2; str t.2])
                        <$> graph_iter recipe_graph)))
                ++ [EvPrint (serialize_n3 recipe_graph)])
               ++ [EvSaveTtl "tmp.ttl"]) ++ [EvSaveJsonld "tmp.jsonld"])
             ++ [EvSaveParquet "tmp.parquet"]) ++ [EvGetSize "tmp.jsonld"])
           ++ [EvGetSize "tmp.ttl"]) ++ [EvGetSize "tmp.parquet"]),
      Ex01_2.mkGlobals recipe_graph)).
Proof.
  unfold Ex01_2.run, Ex01_2.notebook. cbn [run_cells].
  unfold Ex01_2.cell01 at 1. steps. rewrite cell02_graph. steps.
  cbn [Ex01_2.kg]. rewrite (right_id_L ∅ (∪)).
  unfold Ex01_2.cell03. steps. cbn [Ex01_2.kg].
  rewrite (for_each_print_map
             (λ t : triple, Py.print_line [str t.1.1; str t.1.2; str t.2])).
  steps. unfold Ex01_2.cell04. steps. cbn [Ex01_2.kg].
  unfold Ex01_2.cell05, Ex01_2.cell06, Ex01_2.cell07, Ex01_2.cell08,
    save_ttl, save_jsonld, save_parquet, getsize.
  cbn [for_each]. steps. cbn [Ex01_2.kg].
  rewrite (lookup_insert_ne _ "tmp.parquet" "tmp.jsonld") by done.
  rewrite lookup_insert_eq. steps.
  rewrite (lookup_insert_ne _ "tmp.parquet" "tmp.ttl") by done.
  rewrite (lookup_insert_ne _ "tmp.jsonld" "tmp.ttl") by done.
  rewrite lookup_insert_eq. steps.
  rewrite lookup_insert_eq. by steps.
Qed.

(** X9: ex01_2 always runs to the end, whatever files exist beforehand:
    the three [getsize] calls of the last cell find the files the cells
    before have just written.  The graph is the five triples of cell 2;
    cell 3 prints one line per triple, in the order the graph is iterated,
    and cell 4 prints the N3 text of the graph, and nothing else is
    printed; the files [tmp.ttl], [tmp.jsonld] and [tmp.parquet] all hold
    that same graph, and no other path of the file system changes. *)
Theorem recipe_notebook_saves_one_graph (w : world) :
  let out := Ex01_2.run w in
  out.1 = Ok tt ∧
  Ex01_2.kg out.2.2 = recipe_graph ∧
  fs out.2.1 =
    <["tmp.parquet" := Parquet recipe_graph]>
      (<["tmp.jsonld" := JsonLd recipe_graph]>
         (<["tmp.ttl" := Turtle recipe_graph]> (fs w))) ∧
  printed (trace out.2.1) =
    printed (trace w) ++
      ((λ t : triple, Py.print_line [str t.1.1; str t.1.2; str t.2])
         <$> graph_iter recipe_graph)
      ++ [serialize_n3 recipe_graph] ∧
  length (graph_iter recipe_graph) = 5 ∧
  (∀ t, t ∈ graph_iter recipe_graph ↔ t ∈ recipe_graph).
Proof.
  intros out. subst out. rewrite ex01_2_run_state.
  cbn [fst snd fs trace Ex01_2.kg]. split_and!; [done..| | |].
  - rewrite !printed_app, printed_prints. cbn. by rewrite !app_nil_r, (assoc_L (++)).
  - rewrite (Permutation_length (graph_iter_perm recipe_graph)). by vm_compute.
  - intros t. rewrite (graph_iter_perm recipe_graph). apply elem_of_elements.
Qed.

End Ex01_2_Run.

(** ** ex01_5: what is recorded, and when the graph is saved *)

Section Ex01_5_Run.
Context {L : Library}.

Lemma collect_flags_run (row : list term) (w : world) (g : Ex01_5.globals) :
  Ex01_5.collect_flags row (w, g) =
    match row with
    | [url; recipe_name] =>
        let has_butter := Ex01_5.has_butter url (Ex01_5.kg g) in
        let sez_noodle := Ex01_5.sez_noodle recipe_name in
        (Ok tt,
         (mkWorld (fs w)
            (trace w ++
               [EvPrint (str url +:+ Ex01_5.newline +:+ " " +:+ str recipe_name
                         +:+ Ex01_5.newline +:+ " " +:+ Ex01_5.str_of_bool has_butter
                         +:+ " " +:+ Ex01_5.str_of_bool sez_noodle
                         +:+ Ex01_5.newline)]),
          Ex01_5.with_tally
            (Ex01_5.tally g ++ [Ex01_5.str_of_flags has_butter sez_noodle]) g))
    | _ => (Raise ValueError, (w, g))
    end.
Proof. by destruct row as [|t1 [|t2 [|t3 row]]]. Qed.

Lemma collect_flags_loop (pre post : list (list term)) (w : world)
    (g : Ex01_5.globals) :
  Forall (λ row : list term, length row = 2) pre →
  ∃ w', fs w' = fs w ∧
    for_each (pre ++ post) Ex01_5.collect_flags (w, g) =
      for_each post Ex01_5.collect_flags
        (w', Ex01_5.with_tally
               (Ex01_5.tally g ++ omap (flags_of (Ex01_5.kg g)) pre) g).
Proof.
  intros Hpre. revert w g. induction Hpre as [|row pre Hrow _ IH]; intros w g.
  { exists w. split; [done|]. cbn. rewrite app_nil_r. by destruct g. }
  apply unpack2_length in Hrow as (url & name & -> & _).
  cbn [app for_each]. rewrite bind_run, collect_flags_run. cbv beta iota zeta.
  match goal with |- context [for_each (pre ++ post) _ (?w1, ?g1)] =>
    destruct (IH w1 g1) as (w' & Hfs & ->)
  end.
  exists w'. split; [exact Hfs|]. do 2 f_equal.
  destruct g as [k q t]. unfold Ex01_5.with_tally. cbn. f_equal.
  by rewrite <- (assoc_L (++)).
Qed.

(** X10: cell 11 of ex01_5 starts [tally] afresh and adds one entry per
    row of the answer, in order, holding the two flags of that row; a row
    that does not have exactly two columns stops the cell with
    [ValueError], and [tally] then holds the entries of the rows before
    it.  The graph and the files are not changed. *)
Theorem tally_has_one_entry_per_row (w : world) (g : Ex01_5.globals)
    (pre post : list (list term)) :
  sparql (Ex01_5.kg g) (Ex01_5.query g) = pre ++ post →
  Forall (λ row : list term, length row = 2) pre →
  match post with [] => True | bad :: _ => length bad ≠ 2 end →
  let out := Ex01_5.cell11 (w, g) in
  out.1 = match post with [] => Ok tt | _ :: _ => Raise ValueError end ∧
  Ex01_5.tally out.2.2 = omap (flags_of (Ex01_5.kg g)) pre ∧
  length (Ex01_5.tally out.2.2) = length pre ∧
  Ex01_5.kg out.2.2 = Ex01_5.kg g ∧
  fs out.2.1 = fs w.
Proof.
  intros Hrows Hpre Hpost out. subst out. unfold Ex01_5.cell11. steps.
  rewrite query_run. steps.
  cbn [Ex01_5.kg Ex01_5.query Ex01_5.with_tally]. rewrite Hrows.
  match goal with |- context [for_each (pre ++ post) _ (?w1, ?g1)] =>
    destruct (collect_flags_loop pre post w1 g1 Hpre) as (w' & Hfs & ->)
  end.
  cbn [Ex01_5.kg Ex01_5.tally Ex01_5.with_tally app fs] in Hfs |- *.
  assert (length (omap (flags_of (Ex01_5.kg g)) pre) = length pre) as Hlen.
  { clear -Hpre. induction Hpre as [|row pre Hrow _ IH]; [done|].
    apply unpack2_length in Hrow as (url & name & -> & _). cbn. by rewrite IH. }
  destruct post as [|bad post].
  - cbn [for_each mret M_ret fst snd Ex01_5.tally Ex01_5.kg]. by split_and!.
  - cbn [for_each]. rewrite bind_run, collect_flags_run.
    destruct bad as [|t1 [|t2 [|t3 bad]]]; try done.
Qed.

Lemma cell15_run (w : world) (g : Ex01_5.globals) :
  let K := (set_map (λ id, (Ex01_5.recipe_node id, RDF_type, attr Ex01_5.nom "Pancake"))
              Ex01_5.pancake_ids
            ∪ set_map (λ id, (Ex01_5.recipe_node id, RDF_type, attr Ex01_5.nom "Noodle"))
                Ex01_5.noodle_ids)
           ∪ Ex01_5.kg g in
  Ex01_5.cell15 (w, g) =
    (Ok tt,
     (mkWorld (<["tmp.ttl" := Turtle K]> (fs w)) (trace w ++ [EvSaveTtl "tmp.ttl"]),
      Ex01_5.with_kg K g)).
Proof.
  cbn zeta. unfold Ex01_5.cell15. rewrite bind_run, for_each_annotate.
  rewrite bind_run, for_each_annotate.
  rewrite !list_to_set_fmap_elements. unfold save_ttl. steps.
  generalize Ex01_5.noodle_ids Ex01_5.pancake_ids. intros N P.
  destruct g as [k q t]. unfold Ex01_5.with_kg. cbn.
  by rewrite !(assoc_L (∪)).
Qed.

(** X11: cell 15 of ex01_5 can be run again: a second run completes and
    changes neither the graph, to which it adds the same triples, nor the
    file system, where [tmp.ttl] already holds that graph. *)
Theorem annotation_can_be_rerun (w : world) (g : Ex01_5.globals) :
  let s1 := (Ex01_5.cell15 (w, g)).2 in
  let out := Ex01_5.cell15 s1 in
  out.1 = Ok tt ∧
  out.2.2 = s1.2 ∧
  fs out.2.1 = fs s1.1 ∧
  fs s1.1 !! "tmp.ttl" = Some (Turtle (Ex01_5.kg s1.2)).
Proof.
  intros s1 out. subst out s1. rewrite (cell15_run w g). cbn zeta. cbn [snd].
  rewrite cell15_run. cbn zeta.
  cbn [fst snd fs Ex01_5.kg Ex01_5.with_kg].
  generalize (set_map (D := gset triple)
                (λ id, (Ex01_5.recipe_node id, RDF_type, attr Ex01_5.nom "Pancake"))
                Ex01_5.pancake_ids
              ∪ set_map (D := gset triple)
                  (λ id, (Ex01_5.recipe_node id, RDF_type, attr Ex01_5.nom "Noodle"))
                  Ex01_5.noodle_ids).
  intros A.
  assert (A ∪ (A ∪ Ex01_5.kg g) = A ∪ Ex01_5.kg g) as ->.
  { by rewrite (assoc_L (∪)), (idemp_L (∪)). }
  split_and!; [done | by destruct g | by rewrite insert_insert_eq
              | by rewrite lookup_insert_eq].
Qed.

End Ex01_5_Run.

Section Ex01_5_Whole.
Context {L : Library}.

Lemma load_ttl_run {S : Type} (path : string) (gr : gset triple) (w : world) (g : S) :
  load_ttl path gr (w, g) =
    let w1 := mkWorld (fs w) (trace w ++ [EvLoadTtl path]) in
    match fs w !! path with
    | Some (Turtle g') => (Ok (g' ∪ gr), (w1, g))
    | Some _ => (Raise ParserError, (w1, g))
    | None => (Raise FileNotFoundError, (w1, g))
    end.
Proof.
  unfold load_ttl. steps. destruct (fs w !! path) as [[]|]; by steps.
Qed.

Lemma print_recipe_run (row : list term) (w : world) (g : Ex01_5.globals) :
  ∃ line,
    Ex01_5.print_recipe row (w, g) =
      match Ex01_5.unpack3 row with
      | Some _ => (Ok tt, (mkWorld (fs w) (trace w ++ [EvPrint line]), g))
      | None => (Raise ValueError, (w, g))
      end.
Proof.
  unfold Ex01_5.print_recipe.
  destruct (Ex01_5.unpack3 row) as [[[rec name] time]|]; steps.
  - by eexists.
  - by exists "".
Qed.

Lemma print_recipes_frame rows (w : world) (g : Ex01_5.globals) :
  let out := for_each rows Ex01_5.print_recipe (w, g) in
  fs out.2.1 = fs w ∧ out.2.2 = g.
Proof.
  revert w. induction rows as [|row rows IH]; intros w; cbn [for_each]; [done|].
  cbn zeta. rewrite bind_run.
  destruct (print_recipe_run row w g) as [line ->].
  destruct (Ex01_5.unpack3 row) as [[[rec name] time]|]; [|done].
  cbv beta iota.
  match goal with |- context [for_each rows _ (?w1, _)] =>
    destruct (IH w1) as [Hfs Hg] end.
  by split.
Qed.

Lemma collect_flags_frame rows (w : world) (g : Ex01_5.globals) :
  let out := for_each rows Ex01_5.collect_flags (w, g) in
  fs out.2.1 = fs w ∧ Ex01_5.kg out.2.2 = Ex01_5.kg g.
Proof.
  revert w g. induction rows as [|row rows IH]; intros w g; cbn [for_each]; [done|].
  cbn zeta. rewrite bind_run, collect_flags_run.
  destruct row as [|t1 [|t2 [|t3 row]]]; try done. cbv beta iota zeta.
  match goal with |- context [for_each rows _ (?w1, ?g1)] =>
    destruct (IH w1 g1) as [Hfs Hg] end.
  by split.
Qed.

Lemma ex01_5_run_cases (w : world) :
  match Ex01_5.run w with
  | (Ok _, s) =>
      ∃ g0 gn,
        fs w !! "tmp.ttl" = Some (Turtle g0) ∧
        fs w !! "nom.ttl" = Some (Turtle gn) ∧
        Ex01_5.kg s.2 =
          (set_map (λ id, (Ex01_5.recipe_node id, RDF_type, attr Ex01_5.nom "Pancake"))
             Ex01_5.pancake_ids
           ∪ set_map (λ id, (Ex01_5.recipe_node id, RDF_type, attr Ex01_5.nom "Noodle"))
               Ex01_5.noodle_ids)
          ∪ (gn ∪ g0) ∧
        fs s.1 = <["tmp.ttl" := Turtle (Ex01_5.kg s.2)]> (fs w)
  | (Raise _, s) => fs s.1 = fs w
  end.
Proof.
  unfold Ex01_5.run, Ex01_5.notebook. cbn [run_cells].
  rewrite bind_run. unfold Ex01_5.cell06. steps. rewrite load_ttl_run. cbn zeta.
  destruct (fs w !! "tmp.ttl") as [f0|] eqn:H0; [|done].
  destruct f0 as [g0| | | |]; [|done..]. steps.
  unfold Ex01_5.cell07 at 1. steps.
  unfold Ex01_5.cell08 at 1. steps. rewrite query_run. steps.
  match goal with |- context [for_each ?rows Ex01_5.print_recipe (?w1, ?g1)] =>
    pose proof (print_recipes_frame rows w1 g1) as [Hfs1 Hg1];
    destruct (for_each rows Ex01_5.print_recipe (w1, g1)) as [[[]|e] [w2 g2]]
  end; cbn [fst snd fs] in Hfs1, Hg1; cbv beta iota; cbn [fst snd fs].
  2:{ done. }
  subst g2.
  unfold Ex01_5.cell09 at 1. steps. rewrite load_ttl_run. cbn zeta.
  cbn [Ex01_5.kg Ex01_5.with_kg Ex01_5.with_query]. rewrite Hfs1.
  destruct (fs w !! "nom.ttl") as [fn|] eqn:Hn; [|by steps].
  destruct fn as [gn| | | |]; [|by steps..]. steps.
  unfold Ex01_5.cell10 at 1. steps.
  unfold Ex01_5.cell11 at 1. steps. rewrite query_run. steps.
  match goal with |- context [for_each ?rows Ex01_5.collect_flags (?w1, ?g1)] =>
    pose proof (collect_flags_frame rows w1 g1) as [Hfs3 Hg3];
    destruct (for_each rows Ex01_5.collect_flags (w1, g1)) as [[[]|e] [w4 g4]]
  end; cbn [fst snd fs Ex01_5.kg Ex01_5.with_kg Ex01_5.with_query Ex01_5.with_tally]
         in Hfs3, Hg3; cbv beta iota; cbn [fst snd fs]; [|by rewrite Hfs3].
  steps. rewrite cell15_run. cbn zeta. steps.
  cbn [fst snd fs Ex01_5.kg Ex01_5.with_kg]. rewrite Hg3, Hfs3.
  rewrite (right_id_L ∅ (∪)).
  exists g0, gn. by split_and!.
Qed.

(** X12: ex01_5 writes a file only in its last step.  A run that stops
    with an exception, in whatever cell, leaves the file system as it
    found it; a run that completes found Turtle files [tmp.ttl] and
    [nom.ttl], ends with a graph made of their triples and the
    [nom:Noodle] and [nom:Pancake] annotations, and has replaced
    [tmp.ttl], and nothing else, by that graph. *)
Theorem annotated_graph_saved_last (w : world) :
  let out := Ex01_5.run w in
  match out.1 with
  | Ok _ =>
      ∃ g0 gn,
        fs w !! "tmp.ttl" = Some (Turtle g0) ∧
        fs w !! "nom.ttl" = Some (Turtle gn) ∧
        Ex01_5.kg out.2.2 =
          (set_map (λ id, (Ex01_5.recipe_node id, RDF_type, attr Ex01_5.nom "Pancake"))
             Ex01_5.pancake_ids
           ∪ set_map (λ id, (Ex01_5.recipe_node id, RDF_type, attr Ex01_5.nom "Noodle"))
               Ex01_5.noodle_ids)
          ∪ (gn ∪ g0) ∧
        fs out.2.1 = <["tmp.ttl" := Turtle (Ex01_5.kg out.2.2)]> (fs w)
  | Raise _ => fs out.2.1 = fs w
  end.
Proof.
  intros out. subst out. pose proof (ex01_5_run_cases w) as H.
  by destruct (Ex01_5.run w) as [[[]|e] s].
Qed.

End Ex01_5_Whole.

(** ** ex01_7: the tables handed to the inference engine *)

Section Ex01_7_Tables.
Context {L : Library}.

Lemma run_cells_single {S : Type} (c : M S unit) (s : world * S) :
  run_cells [c] s = c s.
Proof. cbn [run_cells]. rewrite bind_run. by destruct (c s) as [[[]|e] s']. Qed.

Lemma extended_lookup_ne (m : Model) key part rs key' :
  key ≠ key' → predicates (extended m key part rs) !! key' = predicates m !! key'.
Proof.
  intros Hne. unfold extended. destruct (predicates m !! key); [|done].
  cbn. by rewrite lookup_insert_ne.
Qed.

Lemma stage_load (w : world) (g : Ex01_7.globals) (G : gset triple) :
  fs w !! "acq.ttl" = Some (Turtle G) →
  run_cells [Ex01_7.cell01; Ex01_7.cell02; Ex01_7.cell03] (w, g)
    = (Ok tt,
       (mkWorld (<["foo.ttl" := Turtle G]> (<["tmp.html" := Html]> (fs w)))
          (trace w ++ [EvLoadTtl "acq.ttl"; EvShow "tmp.html"; EvSaveTtl "foo.ttl"]),
        Ex01_7.with_kg G g)).
Proof.
  intros Hacq. cbn [run_cells]. unfold Ex01_7.cell01. steps.
  rewrite load_ttl_run. cbn zeta. cbn [fs]. rewrite Hacq. steps.
  unfold Ex01_7.cell02. steps. unfold Ex01_7.cell03, save_ttl. steps.
  cbn [Ex01_7.kg Ex01_7.with_kg]. rewrite (right_id_L ∅ (∪)).
  rewrite <- !(assoc_L (++)). by destruct g.
Qed.

Lemma stage_declare (w : world) (g : Ex01_7.globals) :
  ∃ M0,
    run_cells [Ex01_7.cell04; Ex01_7.cell05; Ex01_7.cell06; Ex01_7.cell07] (w, g)
      = (Ok tt, (w, Ex01_7.with_model M0 g)) ∧
    predicates M0 !! "NEIGHBORS" = Some (mkPredicate "NEIGHBORS" true 2 [] [] []) ∧
    predicates M0 !! "LIKES" = Some (mkPredicate "LIKES" true 2 [] [] []) ∧
    predicates M0 !! "KNOWS" = Some (mkPredicate "KNOWS" false 2 [] [] []).
Proof.
  cbn [run_cells].
  unfold Ex01_7.cell04, Ex01_7.cell05, Ex01_7.cell06, Ex01_7.cell07. steps.
  cbn [Ex01_7.model Ex01_7.with_model].
  eexists. split_and!.
  - destruct w, g. reflexivity.
  - by vm_compute.
  - by vm_compute.
  - by vm_compute.
Qed.

Lemma stage_observe (w : world) (g : Ex01_7.globals) :
  predicates (Ex01_7.model g) !! "NEIGHBORS"
    = Some (mkPredicate "NEIGHBORS" true 2 [] [] []) →
  predicates (Ex01_7.model g) !! "LIKES" = Some (mkPredicate "LIKES" true 2 [] [] []) →
  Forall (λ row : list term, (2 ≤ length row)%nat)
    (sparql (Ex01_7.kg g) Ex01_7.query_neighbors) →
  Forall (λ row : list term, (2 ≤ length row)%nat)
    (sparql (Ex01_7.kg g) Ex01_7.query_likes) →
  run_cells [Ex01_7.cell09; Ex01_7.cell10; Ex01_7.cell11] (w, g) =
      (Ok tt,
       (mkWorld (fs w)
          (trace w ++
             EvQuery Ex01_7.query_neighbors
             :: additions "NEIGHBORS" OBSERVATIONS 1%float
                  (distinct_pairs (sparql (Ex01_7.kg g) Ex01_7.query_neighbors))
             ++ EvQuery Ex01_7.query_likes
                :: additions "LIKES" OBSERVATIONS 1%float
                     (distinct_pairs (sparql (Ex01_7.kg g) Ex01_7.query_likes))),
        Ex01_7.with_predicate "LIKES"
              (Ex01_7.with_model
                 (extended
                    (extended (Ex01_7.model g) "NEIGHBORS" OBSERVATIONS
                       (rows_for 1%float
                          (distinct_pairs (sparql (Ex01_7.kg g) Ex01_7.query_neighbors))))
                    "LIKES" OBSERVATIONS
                    (rows_for 1%float
                       (distinct_pairs (sparql (Ex01_7.kg g) Ex01_7.query_likes))))
                 g))).
Proof.
  intros HN HL HrN HrL. cbn [run_cells].
  unfold Ex01_7.cell09. steps. rewrite bind_predicate_run.
  change (get_predicate (Ex01_7.model g) "Neighbors")
    with (predicates (Ex01_7.model g) !! "NEIGHBORS").
  rewrite HN. steps. rewrite query_run. steps.
  change (normalize_name "Neighbors") with "NEIGHBORS".
  cbn [Ex01_7.kg Ex01_7.with_predicate].
  rewrite (observe_distinct_loop _ _ _ (mkPredicate "NEIGHBORS" true 2 [] [] []));
    [|exact HrN|exact HN|done].
  steps. cbn [Ex01_7.model Ex01_7.predicate Ex01_7.with_predicate Ex01_7.kg].
  set (M1 := extended (Ex01_7.model g) "NEIGHBORS" OBSERVATIONS _).
  assert (predicates M1 !! "LIKES" = Some (mkPredicate "LIKES" true 2 [] [] []))
    as HL1.
  { unfold M1. by rewrite extended_lookup_ne. }
  unfold Ex01_7.cell10. steps. rewrite bind_predicate_run.
  cbn [Ex01_7.model Ex01_7.with_model].
  change (get_predicate M1 "Likes") with (predicates M1 !! "LIKES").
  rewrite HL1. steps. rewrite query_run. steps.
  change (normalize_name "Likes") with "LIKES".
  cbn [Ex01_7.kg Ex01_7.with_predicate Ex01_7.with_model].
  rewrite (observe_distinct_loop _ _ _ (mkPredicate "LIKES" true 2 [] [] []));
    [|exact HrL|exact HL1|done].
  steps.
  cbn [Ex01_7.model Ex01_7.predicate Ex01_7.with_predicate Ex01_7.with_model
       Ex01_7.kg].
  set (M2 := extended M1 "LIKES" OBSERVATIONS _).
  destruct (extended_lookup M1 "LIKES" OBSERVATIONS
              (rows_for 1%float
                 (distinct_pairs (sparql (Ex01_7.kg g) Ex01_7.query_likes)))
              _ HL1) as (pL & HpL & _).
  fold M2 in HpL.
  unfold Ex01_7.cell11. rewrite bind_predicate_run.
  cbn [Ex01_7.model Ex01_7.with_model].
  change (get_predicate M2 "Likes") with (predicates M2 !! "LIKES").
  rewrite HpL. steps. change (normalize_name "Likes") with "LIKES".
  unfold additions. cbn [fs trace].
  rewrite <- !(assoc_L (++)). cbn [app]. by destruct g.
Qed.

Lemma stage_targets (w : world) (g : Ex01_7.globals) (lines : list string)
    (p : Predicate) :
  fs w !! "dat/psl/knows_targets.txt" = Some (Text lines) →
  Forall (λ row, length row = 2) (csv_reader Ex01_7.tab lines) →
  predicates (Ex01_7.model g) !! "KNOWS" = Some p →
  pred_size p = 2 →
  let pairs := omap Py.unpack2 (csv_reader Ex01_7.tab lines) in
  let known := recognised (Ex01_7.kg g) pairs in
  ∃ w' g' p',
    Ex01_7.cell12 (w, g) = (Ok tt, (w', g')) ∧
    fs w' = fs w ∧
    trace w' =
      trace w ++ EvOpen "dat/psl/knows_targets.txt"
                 :: target_events "KNOWS" (Ex01_7.kg g) pairs ∧
    Ex01_7.kg g' = Ex01_7.kg g ∧
    Ex01_7.targets g' = pairs ∧
    Ex01_7.df_dat g' = known ∧
    predicates (Ex01_7.model g') !! "KNOWS" = Some p' ∧
    pred_size p' = 2 ∧
    truth p' =
      truth p ++ ((λ r, DataRow [Ex01_7.col0 r; Ex01_7.col1 r] (Ex01_7.col_truth r))
                    <$> known) ∧
    targets p' =
      targets p ++ ((λ r, DataRow [Ex01_7.col0 r; Ex01_7.col1 r] 1%float) <$> known) ∧
    observations p' = observations p ∧
    (∀ key', key' ≠ "KNOWS" →
       predicates (Ex01_7.model g') !! key' = predicates (Ex01_7.model g) !! key').
Proof.
  intros Hfile Hrows Hp Hsz pairs known.
  unfold Ex01_7.cell12. steps. rewrite bind_predicate_run.
  cbn [Ex01_7.model Ex01_7.with_rows_list Ex01_7.with_targets].
  change (get_predicate (Ex01_7.model g) "Knows")
    with (predicates (Ex01_7.model g) !! "KNOWS").
  rewrite Hp. steps. unfold Ex01_7.open_text. steps.
  change Ex01_7.targets_path with "dat/psl/knows_targets.txt".
  rewrite Hfile. steps. change (normalize_name "Knows") with "KNOWS".
  match goal with |- context [for_each _ _ (?w1, ?g1)] =>
    pose proof (load_targets_events _ w1 g1 p Hrows Hp Hsz) as Hev;
    destruct (load_targets_loop _ w1 g1 p Hrows)
      as (w' & g' & p' & Hrun & Hfs & Hpr & Htg & Hrl & Hkg & Hpd & Hp' & Hsz'
          & Htr & Hta & Hob & Hoth); [exact Hp | exact Hsz |]
  end.
  rewrite Hrun in Hev. rewrite Hrun. steps.
  cbn [fst snd trace Ex01_7.kg Ex01_7.predicate Ex01_7.with_predicate
       Ex01_7.with_rows_list Ex01_7.with_targets] in Hev. fold pairs in Hev.
  cbn [fs Ex01_7.kg Ex01_7.targets Ex01_7.rows_list Ex01_7.model Ex01_7.predicate
       Ex01_7.with_predicate Ex01_7.with_rows_list Ex01_7.with_targets app]
    in Hfs, Htg, Hrl, Hkg, Hp', Htr, Hta, Hoth.
  fold pairs in Htg, Hrl, Htr, Hta. fold known in Hrl, Htr, Hta.
  eexists _, _, p'. split; [reflexivity|].
  cbn [Ex01_7.kg Ex01_7.targets Ex01_7.df_dat Ex01_7.model Ex01_7.with_df_dat].
  split_and!; try done.
  rewrite Hev. by rewrite <- (assoc_L (++)).
Qed.

Lemma stage_non_targets (w : world) (g : Ex01_7.globals) (p : Predicate) :
  predicates (Ex01_7.model g) !! "KNOWS" = Some p →
  pred_size p = 2 →
  Forall (λ row : list term, (2 ≤ length row)%nat)
    (sparql (Ex01_7.kg g) Ex01_7.query_knows) →
  Forall (λ row : list term, (2 ≤ length row)%nat)
    (sparql (Ex01_7.kg g) Ex01_7.query_wants_intro) →
  Ex01_7.cell13 (w, g) =
      (Ok tt,
       (mkWorld (fs w)
          (trace w ++
             EvQuery Ex01_7.query_knows
             :: additions "KNOWS" OBSERVATIONS 1%float
                  (non_target_pairs (Ex01_7.targets g)
                     (sparql (Ex01_7.kg g) Ex01_7.query_knows))
             ++ EvQuery Ex01_7.query_wants_intro
                :: additions "KNOWS" OBSERVATIONS 0%float
                     (non_target_pairs (Ex01_7.targets g)
                        (sparql (Ex01_7.kg g) Ex01_7.query_wants_intro))),
        Ex01_7.with_model
              (extended (Ex01_7.model g) "KNOWS" OBSERVATIONS
                 (rows_for 1%float
                    (non_target_pairs (Ex01_7.targets g)
                       (sparql (Ex01_7.kg g) Ex01_7.query_knows))
                  ++ rows_for 0%float
                       (non_target_pairs (Ex01_7.targets g)
                          (sparql (Ex01_7.kg g) Ex01_7.query_wants_intro))))
              (Ex01_7.with_predicate "KNOWS" g))).
Proof.
  intros Hp Hsz Hk Hw.
  unfold Ex01_7.cell13. rewrite bind_run, bind_predicate_run.
  change (get_predicate (Ex01_7.model g) "Knows")
    with (predicates (Ex01_7.model g) !! "KNOWS").
  rewrite Hp. steps. change (normalize_name "Knows") with "KNOWS".
  rewrite query_run. steps.
  set (g1 := Ex01_7.with_predicate "KNOWS" g).
  assert (predicates (Ex01_7.model g1) !! Ex01_7.predicate g1 = Some p) as Hp1
    by exact Hp.
  cbn [Ex01_7.kg Ex01_7.with_predicate].
  rewrite (observe_non_target_loop 1%float _ _ g1 p); [|by left|exact Hk|done..].
  steps. rewrite query_run. steps.
  cbn [Ex01_7.kg Ex01_7.with_model Ex01_7.with_predicate].
  set (m1 := extended _ _ _ _).
  set (g2 := Ex01_7.with_model m1 g1).
  destruct (extended_lookup (Ex01_7.model g1) (Ex01_7.predicate g1) OBSERVATIONS
              (rows_for 1%float (non_target_pairs (Ex01_7.targets g1)
                 (sparql (Ex01_7.kg g) Ex01_7.query_knows))) p Hp1)
    as (p' & Hp' & Hsz').
  rewrite (observe_non_target_loop 0%float _ _ g2 p');
    [|by right|exact Hw|exact Hp'|congruence].
  subst g2 m1 g1.
  cbn [fst snd fs trace Ex01_7.model Ex01_7.with_model Ex01_7.with_predicate
       Ex01_7.predicate Ex01_7.targets Ex01_7.kg].
  rewrite extended_extended.
  unfold additions. rewrite <- !(assoc_L (++)). cbn [app]. by destruct g.
Qed.

(** Cells 1 to 13 from any state: the run, its events and its tables. *)
Lemma cells_1_to_13 (w : world) (g : Ex01_7.globals)
    (G : gset triple) (lines : list string) :
  fs w !! "acq.ttl" = Some (Turtle G) →
  fs w !! "dat/psl/knows_targets.txt" = Some (Text lines) →
  Forall (λ q, Forall (λ row : list term, (2 ≤ length row)%nat) (sparql G q))
    [Ex01_7.query_neighbors; Ex01_7.query_likes; Ex01_7.query_knows;
     Ex01_7.query_wants_intro] →
  Forall (λ row, length row = 2) (csv_reader Ex01_7.tab lines) →
  let pairs := omap Py.unpack2 (csv_reader Ex01_7.tab lines) in
  let known := recognised G pairs in
  ∃ w' g',
    run_cells
      [Ex01_7.cell01; Ex01_7.cell02; Ex01_7.cell03; Ex01_7.cell04; Ex01_7.cell05;
       Ex01_7.cell06; Ex01_7.cell07; Ex01_7.cell09; Ex01_7.cell10; Ex01_7.cell11;
       Ex01_7.cell12; Ex01_7.cell13] (w, g) = (Ok tt, (w', g')) ∧
    fs w' = <["foo.ttl" := Turtle G]> (<["tmp.html" := Html]> (fs w)) ∧
    trace w' =
      trace w ++
        [EvLoadTtl "acq.ttl"; EvShow "tmp.html"; EvSaveTtl "foo.ttl"]
        ++ EvQuery Ex01_7.query_neighbors
           :: additions "NEIGHBORS" OBSERVATIONS 1%float
                (distinct_pairs (sparql G Ex01_7.query_neighbors))
        ++ EvQuery Ex01_7.query_likes
           :: additions "LIKES" OBSERVATIONS 1%float
                (distinct_pairs (sparql G Ex01_7.query_likes))
        ++ EvOpen "dat/psl/knows_targets.txt" :: target_events "KNOWS" G pairs
        ++ EvQuery Ex01_7.query_knows
           :: additions "KNOWS" OBSERVATIONS 1%float
                (non_target_pairs pairs (sparql G Ex01_7.query_knows))
        ++ EvQuery Ex01_7.query_wants_intro
           :: additions "KNOWS" OBSERVATIONS 0%float
                (non_target_pairs pairs (sparql G Ex01_7.query_wants_intro)) ∧
    Ex01_7.kg g' = G ∧
    Ex01_7.targets g' = pairs ∧
    Ex01_7.df_dat g' = known ∧
    is_Some (predicates (Ex01_7.model g') !! "KNOWS") ∧
    rows_of (Ex01_7.model g') "NEIGHBORS" OBSERVATIONS
      = rows_for 1%float (distinct_pairs (sparql G Ex01_7.query_neighbors)) ∧
    rows_of (Ex01_7.model g') "LIKES" OBSERVATIONS
      = rows_for 1%float (distinct_pairs (sparql G Ex01_7.query_likes)) ∧
    rows_of (Ex01_7.model g') "KNOWS" OBSERVATIONS
      = rows_for 1%float (non_target_pairs pairs (sparql G Ex01_7.query_knows))
        ++ rows_for 0%float (non_target_pairs pairs (sparql G Ex01_7.query_wants_intro)) ∧
    rows_of (Ex01_7.model g') "KNOWS" TARGETS
      = ((λ r, DataRow [Ex01_7.col0 r; Ex01_7.col1 r] 1%float) <$> known) ∧
    rows_of (Ex01_7.model g') "KNOWS" TRUTH
      = ((λ r, DataRow [Ex01_7.col0 r; Ex01_7.col1 r] (Ex01_7.col_truth r)) <$> known) ∧
    Forall (λ key, rows_of (Ex01_7.model g') key TARGETS = [] ∧
                   rows_of (Ex01_7.model g') key TRUTH = [])
      ["NEIGHBORS"; "LIKES"].
Proof.
  intros Hacq Hfile Hq Hcsv pairs known.
  apply Forall_cons in Hq as [HqN Hq]. apply Forall_cons in Hq as [HqL Hq].
  apply Forall_cons in Hq as [HqK Hq]. apply Forall_cons in Hq as [HqW _].
  pose proof (stage_load w g G Hacq) as Hrun1.
  set (w1 := mkWorld (<["foo.ttl" := Turtle G]> (<["tmp.html" := Html]> (fs w)))
               (trace w ++ [EvLoadTtl "acq.ttl"; EvShow "tmp.html"; EvSaveTtl "foo.ttl"]))
    in *.
  destruct (stage_declare w1 (Ex01_7.with_kg G g)) as (M0 & Hrun2 & HN & HL & HK).
  set (g2 := Ex01_7.with_model M0 (Ex01_7.with_kg G g)) in *.
  pose proof (stage_observe w1 g2 HN HL HqN HqL) as Hrun3.
  cbn [Ex01_7.kg Ex01_7.model Ex01_7.with_model Ex01_7.with_kg g2] in Hrun3.
  set (M2 := extended (extended M0 _ _ _) _ _ _) in *.
  set (g3 := Ex01_7.with_predicate "LIKES" (Ex01_7.with_model M2 g2)) in *.
  set (w3 := mkWorld (fs w1) _) in *.
  assert (predicates M2 !! "KNOWS" = Some (mkPredicate "KNOWS" false 2 [] [] []))
    as HK2.
  { unfold M2. by rewrite !extended_lookup_ne. }
  assert (fs w3 !! "dat/psl/knows_targets.txt" = Some (Text lines)) as Hfile3.
  { cbn. by rewrite !lookup_insert_ne. }
  destruct (stage_targets w3 g3 lines _ Hfile3 Hcsv HK2 eq_refl)
    as (w4 & g4 & p4 & Hrun4 & Hfs4 & Hev4 & Hkg4 & Htg4 & Hdat4 & Hp4 & Hsz4 & Htr4
        & Hta4 & Hob4 & Hoth4).
  cbn [Ex01_7.kg Ex01_7.model Ex01_7.with_model Ex01_7.with_kg
       Ex01_7.with_predicate g2 g3 truth targets observations app]
    in Hkg4, Htg4, Hdat4, Htr4, Hta4, Hob4, Hoth4, Hev4.
  fold pairs in Htg4, Hdat4, Htr4, Hta4, Hev4. fold known in Hdat4, Htr4, Hta4.
  assert (Forall (λ row : list term, (2 ≤ length row)%nat)
            (sparql (Ex01_7.kg g4) Ex01_7.query_knows)) as HqK4 by by rewrite Hkg4.
  assert (Forall (λ row : list term, (2 ≤ length row)%nat)
            (sparql (Ex01_7.kg g4) Ex01_7.query_wants_intro)) as HqW4
    by by rewrite Hkg4.
  pose proof (stage_non_targets w4 g4 p4 Hp4 Hsz4 HqK4 HqW4) as Hrun5.
  rewrite Hkg4, Htg4 in Hrun5.
  set (w5 := mkWorld (fs w4) _) in *.
  set (M5 := extended (Ex01_7.model g4) "KNOWS" OBSERVATIONS _) in *.
  exists w5, (Ex01_7.with_model M5 (Ex01_7.with_predicate "KNOWS" g4)).
  assert (∀ key part, key ≠ "KNOWS" → rows_of M5 key part = rows_of M2 key part)
    as Hother.
  { intros key part Hne. unfold M5. rewrite rows_of_extended_other by done.
    unfold rows_of. by rewrite Hoth4. }
  assert (rows_of M2 "NEIGHBORS" OBSERVATIONS
            = rows_for 1%float (distinct_pairs (sparql G Ex01_7.query_neighbors))
          ∧ rows_of M2 "NEIGHBORS" TARGETS = []
          ∧ rows_of M2 "NEIGHBORS" TRUTH = []) as (HNo & HNt & HNr).
  { unfold M2. split_and!; rewrite rows_of_extended_other by done;
      by rewrite (rows_of_extended _ _ _ _ _ _ HN). }
  assert (predicates (extended M0 "NEIGHBORS" OBSERVATIONS
                        (rows_for 1%float
                           (distinct_pairs (sparql G Ex01_7.query_neighbors))))
            !! "LIKES" = Some (mkPredicate "LIKES" true 2 [] [] [])) as HL1.
  { by rewrite extended_lookup_ne. }
  assert (rows_of M2 "LIKES" OBSERVATIONS
            = rows_for 1%float (distinct_pairs (sparql G Ex01_7.query_likes))
          ∧ rows_of M2 "LIKES" TARGETS = []
          ∧ rows_of M2 "LIKES" TRUTH = []) as (HLo & HLt & HLr).
  { unfold M2. split_and!; by rewrite (rows_of_extended _ _ _ _ _ _ HL1). }
  cbn [Ex01_7.kg Ex01_7.targets Ex01_7.df_dat Ex01_7.model
       Ex01_7.with_model Ex01_7.with_predicate].
  split_and!; try done.
  - change [Ex01_7.cell01; Ex01_7.cell02; Ex01_7.cell03; Ex01_7.cell04; Ex01_7.cell05;
            Ex01_7.cell06; Ex01_7.cell07; Ex01_7.cell09; Ex01_7.cell10; Ex01_7.cell11;
            Ex01_7.cell12; Ex01_7.cell13]
      with ([Ex01_7.cell01; Ex01_7.cell02; Ex01_7.cell03]
            ++ [Ex01_7.cell04; Ex01_7.cell05; Ex01_7.cell06; Ex01_7.cell07]
            ++ [Ex01_7.cell09; Ex01_7.cell10; Ex01_7.cell11]
            ++ [Ex01_7.cell12] ++ [Ex01_7.cell13]).
    rewrite run_cells_app, Hrun1, run_cells_app, Hrun2, run_cells_app, Hrun3.
    rewrite run_cells_app, run_cells_single, Hrun4.
    by rewrite run_cells_single, Hrun5.
  - unfold w5. cbn [trace]. rewrite Hev4. unfold w3, w1. cbn [trace].
    repeat (rewrite <- (assoc_L (++)) || rewrite <- app_comm_cons). done.
  - destruct (extended_lookup (Ex01_7.model g4) "KNOWS" OBSERVATIONS
                (rows_for 1%float (non_target_pairs pairs (sparql G Ex01_7.query_knows))
                 ++ rows_for 0%float
                      (non_target_pairs pairs (sparql G Ex01_7.query_wants_intro)))
                p4 Hp4) as (p5 & Hp5 & _).
    by eexists.
  - by rewrite Hother.
  - by rewrite Hother.
  - unfold M5. rewrite (rows_of_extended _ _ _ p4) by done. cbn [data].
    by rewrite Hob4, decide_True.
  - unfold M5. rewrite (rows_of_extended _ _ _ p4) by done. cbn [data].
    rewrite Hta4, decide_False by done. by rewrite app_nil_r.
  - unfold M5. rewrite (rows_of_extended _ _ _ p4) by done. cbn [data].
    rewrite Htr4, decide_False by done. by rewrite app_nil_r.
  - repeat constructor; by rewrite Hother.
Qed.

(** X13: the tables the inference engine receives.  If [acq.ttl] is a
    Turtle file, the records of the targets file all have two fields and
    the four SPARQL answers have at least two columns per row, then cells
    1 to 13 run through, from whatever state, and the model then holds
    exactly: in [NEIGHBORS] and [LIKES] the pairs of different persons
    their queries return, as observations with truth 1.0, and nothing
    else; in [KNOWS] the recognised target pairs as targets and, with
    their truth value, as truth, and as observations the known pairs
    (1.0) followed by the wanted introductions (0.0) that are not
    targets.  Nothing an earlier run left in the tables survives. *)
Theorem tables_before_inference (w : world) (g : Ex01_7.globals)
    (G : gset triple) (lines : list string) :
  fs w !! "acq.ttl" = Some (Turtle G) →
  fs w !! "dat/psl/knows_targets.txt" = Some (Text lines) →
  Forall (λ q, Forall (λ row : list term, (2 ≤ length row)%nat) (sparql G q))
    [Ex01_7.query_neighbors; Ex01_7.query_likes; Ex01_7.query_knows;
     Ex01_7.query_wants_intro] →
  Forall (λ row, length row = 2) (csv_reader Ex01_7.tab lines) →
  let out :=
    run_cells
      [Ex01_7.cell01; Ex01_7.cell02; Ex01_7.cell03; Ex01_7.cell04; Ex01_7.cell05;
       Ex01_7.cell06; Ex01_7.cell07; Ex01_7.cell09; Ex01_7.cell10; Ex01_7.cell11;
       Ex01_7.cell12; Ex01_7.cell13] (w, g) in
  let pairs := omap Py.unpack2 (csv_reader Ex01_7.tab lines) in
  let known := recognised G pairs in
  let M := Ex01_7.model out.2.2 in
  out.1 = Ok tt ∧
  Ex01_7.kg out.2.2 = G ∧
  Ex01_7.targets out.2.2 = pairs ∧
  Ex01_7.df_dat out.2.2 = known ∧
  rows_of M "NEIGHBORS" OBSERVATIONS
    = rows_for 1%float (distinct_pairs (sparql G Ex01_7.query_neighbors)) ∧
  rows_of M "LIKES" OBSERVATIONS
    = rows_for 1%float (distinct_pairs (sparql G Ex01_7.query_likes)) ∧
  rows_of M "KNOWS" OBSERVATIONS
    = rows_for 1%float (non_target_pairs pairs (sparql G Ex01_7.query_knows))
      ++ rows_for 0%float (non_target_pairs pairs (sparql G Ex01_7.query_wants_intro)) ∧
  rows_of M "KNOWS" TARGETS
    = ((λ r, DataRow [Ex01_7.col0 r; Ex01_7.col1 r] 1%float) <$> known) ∧
  rows_of M "KNOWS" TRUTH
    = ((λ r, DataRow [Ex01_7.col0 r; Ex01_7.col1 r] (Ex01_7.col_truth r)) <$> known) ∧
  Forall (λ key, rows_of M key TARGETS = [] ∧ rows_of M key TRUTH = [])
    ["NEIGHBORS"; "LIKES"].
Proof.
  intros Hacq Hfile Hq Hcsv out pairs known M.
  destruct (cells_1_to_13 w g G lines Hacq Hfile Hq Hcsv)
    as (w' & g' & Hrun & _ & _ & Hkg & Htg & Hdat & _ & HN & HL & HK & HT & HR & HO).
  subst M out. rewrite Hrun. cbn [fst snd].
  by split_and!.
Qed.

End Ex01_7_Tables.

(** ** ex01_7: what a completed run did *)

Section Completed.
Context {G : Type}.

Lemma bind_ok {A B} (m : M G A) (k : A → M G B) s b :
  ((m ≫= k) s).1 = Ok b → ∃ a s', m s = (Ok a, s') ∧ (k a s').1 = Ok b.
Proof.
  rewrite bind_run. destruct (m s) as [[a|e] s']; [|done]. intros H. by exists a, s'.
Qed.

Lemma for_each_ok {A} (P : A → Prop) (body : A → M G unit) :
  (∀ x s, (body x s).1 = Ok tt → P x) →
  ∀ l s, (for_each l body s).1 = Ok tt → Forall P l.
Proof.
  intros Hbody l. induction l as [|x l IH]; intros s; [constructor|].
  cbn [for_each]. intros H. apply bind_ok in H as ([] & s' & Hx & H).
  constructor; [apply (Hbody x s); by rewrite Hx | by apply (IH s')].
Qed.

Lemma run_cells_app_ok (cs1 cs2 : list (M G unit)) s :
  (run_cells (cs1 ++ cs2) s).1 = Ok tt →
  ∃ s', run_cells cs1 s = (Ok tt, s') ∧ (run_cells cs2 s').1 = Ok tt.
Proof.
  rewrite run_cells_app. destruct (run_cells cs1 s) as [[[]|e] s']; [|done].
  by exists s'.
Qed.

End Completed.

Section Ex01_7_Completed.
Context {L : Library}.

Lemma observe_distinct_ok (row : list term) (s : world * Ex01_7.globals) :
  (Ex01_7.observe_distinct row s).1 = Ok tt → (2 ≤ length row)%nat.
Proof.
  destruct s as [w g]. rewrite observe_distinct_run.
  destruct row as [|t1 [|t2 row]]; [done..|]. cbn. lia.
Qed.

Lemma observe_non_target_ok tv (row : list term) (s : world * Ex01_7.globals) :
  (Ex01_7.observe_non_target tv row s).1 = Ok tt → (2 ≤ length row)%nat.
Proof.
  destruct s as [w g]. rewrite observe_non_target_run'.
  destruct row as [|t1 [|t2 row]]; [done..|]. cbn. lia.
Qed.

Lemma load_target_ok (row : list string) (s : world * Ex01_7.globals) :
  (Ex01_7.load_target row s).1 = Ok tt → length row = 2.
Proof.
  destruct s as [w g]. rewrite load_target_run.
  by destruct row as [|a [|b [|c row]]].
Qed.

Lemma stage_load_ok (w : world) (g : Ex01_7.globals) :
  (run_cells [Ex01_7.cell01; Ex01_7.cell02; Ex01_7.cell03] (w, g)).1 = Ok tt →
  ∃ G, fs w !! "acq.ttl" = Some (Turtle G).
Proof.
  cbn [run_cells]. unfold Ex01_7.cell01. steps.
  rewrite load_ttl_run. cbn zeta. cbn [fs].
  destruct (fs w !! "acq.ttl") as [[G| | | |]|]; try done.
  intros _. by exists G.
Qed.

Lemma stage_observe_ok (w : world) (g : Ex01_7.globals) :
  predicates (Ex01_7.model g) !! "NEIGHBORS"
    = Some (mkPredicate "NEIGHBORS" true 2 [] [] []) →
  predicates (Ex01_7.model g) !! "LIKES" = Some (mkPredicate "LIKES" true 2 [] [] []) →
  (run_cells [Ex01_7.cell09; Ex01_7.cell10; Ex01_7.cell11] (w, g)).1 = Ok tt →
  Forall (λ row : list term, (2 ≤ length row)%nat)
    (sparql (Ex01_7.kg g) Ex01_7.query_neighbors) ∧
  Forall (λ row : list term, (2 ≤ length row)%nat)
    (sparql (Ex01_7.kg g) Ex01_7.query_likes).
Proof.
  intros HN HL. cbn [run_cells].
  unfold Ex01_7.cell09. steps. rewrite bind_predicate_run.
  change (get_predicate (Ex01_7.model g) "Neighbors")
    with (predicates (Ex01_7.model g) !! "NEIGHBORS").
  rewrite HN. steps. rewrite query_run. steps.
  change (normalize_name "Neighbors") with "NEIGHBORS".
  cbn [Ex01_7.kg Ex01_7.with_predicate].
  match goal with
  | |- (let (_, _) := for_each ?l ?b ?s in _).1 = _ → _ =>
      destruct (for_each l b s) as [[[]|e] s'] eqn:Hloop; [|done];
      assert (Forall (λ row : list term, (2 ≤ length row)%nat) l) as HrN
        by (apply (for_each_ok _ _ observe_distinct_ok l s); by rewrite Hloop)
  end.
  rewrite (observe_distinct_loop _ _ _ (mkPredicate "NEIGHBORS" true 2 [] [] []))
    in Hloop; [|exact HrN|exact HN|done].
  injection Hloop as <-.
  steps. cbn [Ex01_7.model Ex01_7.predicate Ex01_7.with_predicate Ex01_7.kg].
  set (M1 := extended (Ex01_7.model g) "NEIGHBORS" OBSERVATIONS _).
  assert (predicates M1 !! "LIKES" = Some (mkPredicate "LIKES" true 2 [] [] []))
    as HL1.
  { unfold M1. by rewrite extended_lookup_ne. }
  unfold Ex01_7.cell10. steps. rewrite bind_predicate_run.
  cbn [Ex01_7.model Ex01_7.with_model].
  change (get_predicate M1 "Likes") with (predicates M1 !! "LIKES").
  rewrite HL1. steps. rewrite query_run. steps.
  cbn [Ex01_7.kg Ex01_7.with_predicate Ex01_7.with_model].
  match goal with
  | |- (let (_, _) := for_each ?l ?b ?s in _).1 = _ → _ =>
      destruct (for_each l b s) as [[[]|e] s'] eqn:Hloop; [|done];
      assert (Forall (λ row : list term, (2 ≤ length row)%nat) l) as HrL
        by (apply (for_each_ok _ _ observe_distinct_ok l s); by rewrite Hloop)
  end.
  done.
Qed.

Lemma cell12_ok (w : world) (g : Ex01_7.globals) :
  (Ex01_7.cell12 (w, g)).1 = Ok tt →
  ∃ lines, fs w !! "dat/psl/knows_targets.txt" = Some (Text lines) ∧
           Forall (λ row, length row = 2) (csv_reader Ex01_7.tab lines).
Proof.
  unfold Ex01_7.cell12. steps. rewrite bind_predicate_run.
  destruct (get_predicate _ "Knows"); [|done].
  steps. unfold Ex01_7.open_text. steps.
  change Ex01_7.targets_path with "dat/psl/knows_targets.txt".
  destruct (fs w !! "dat/psl/knows_targets.txt") as [[| | |lines|]|]; try done.
  steps. intros H. exists lines. split; [done|].
  match type of H with
  | (let (_, _) := for_each ?l ?b ?s in _).1 = _ =>
      destruct (for_each l b s) as [[[]|e] s'] eqn:Hloop; [|done];
      apply (for_each_ok _ _ load_target_ok l s); by rewrite Hloop
  end.
Qed.

Lemma cell13_ok (w : world) (g : Ex01_7.globals) (p : Predicate) :
  predicates (Ex01_7.model g) !! "KNOWS" = Some p →
  pred_size p = 2 →
  (Ex01_7.cell13 (w, g)).1 = Ok tt →
  Forall (λ row : list term, (2 ≤ length row)%nat)
    (sparql (Ex01_7.kg g) Ex01_7.query_knows) ∧
  Forall (λ row : list term, (2 ≤ length row)%nat)
    (sparql (Ex01_7.kg g) Ex01_7.query_wants_intro).
Proof.
  intros Hp Hsz.
  unfold Ex01_7.cell13. rewrite bind_run, bind_predicate_run.
  change (get_predicate (Ex01_7.model g) "Knows")
    with (predicates (Ex01_7.model g) !! "KNOWS").
  rewrite Hp. steps. change (normalize_name "Knows") with "KNOWS".
  rewrite query_run. steps.
  set (g1 := Ex01_7.with_predicate "KNOWS" g).
  assert (predicates (Ex01_7.model g1) !! Ex01_7.predicate g1 = Some p) as Hp1
    by exact Hp.
  cbn [Ex01_7.kg Ex01_7.with_predicate].
  match goal with
  | |- (let (_, _) := for_each ?l ?b ?s in _).1 = _ → _ =>
      destruct (for_each l b s) as [[[]|e] s'] eqn:Hloop; [|done];
      assert (Forall (λ row : list term, (2 ≤ length row)%nat) l) as Hk
        by (apply (for_each_ok _ _ (observe_non_target_ok 1%float) l s);
            by rewrite Hloop)
  end.
  rewrite (observe_non_target_loop 1%float _ _ g1 p) in Hloop;
    [|by left|exact Hk|done..].
  injection Hloop as <-. steps. rewrite query_run. steps.
  cbn [Ex01_7.kg Ex01_7.with_model Ex01_7.with_predicate].
  intros H. split; [exact Hk|].
  by apply (for_each_ok _ _ (observe_non_target_ok 0%float)) in H.
Qed.

(** A completed run of cells 1 to 13 found its two files well formed and
    got rows of at least two columns from its four queries. *)
Lemma cells_1_to_13_ok (w : world) (g : Ex01_7.globals) :
  (run_cells
     [Ex01_7.cell01; Ex01_7.cell02; Ex01_7.cell03; Ex01_7.cell04; Ex01_7.cell05;
      Ex01_7.cell06; Ex01_7.cell07; Ex01_7.cell09; Ex01_7.cell10; Ex01_7.cell11;
      Ex01_7.cell12; Ex01_7.cell13] (w, g)).1 = Ok tt →
  ∃ G lines,
    fs w !! "acq.ttl" = Some (Turtle G) ∧
    fs w !! "dat/psl/knows_targets.txt" = Some (Text lines) ∧
    Forall (λ q, Forall (λ row : list term, (2 ≤ length row)%nat) (sparql G q))
      [Ex01_7.query_neighbors; Ex01_7.query_likes; Ex01_7.query_knows;
       Ex01_7.query_wants_intro] ∧
    Forall (λ row, length row = 2) (csv_reader Ex01_7.tab lines).
Proof.
  change [Ex01_7.cell01; Ex01_7.cell02; Ex01_7.cell03; Ex01_7.cell04; Ex01_7.cell05;
          Ex01_7.cell06; Ex01_7.cell07; Ex01_7.cell09; Ex01_7.cell10; Ex01_7.cell11;
          Ex01_7.cell12; Ex01_7.cell13]
    with ([Ex01_7.cell01; Ex01_7.cell02; Ex01_7.cell03]
          ++ [Ex01_7.cell04; Ex01_7.cell05; Ex01_7.cell06; Ex01_7.cell07]
          ++ [Ex01_7.cell09; Ex01_7.cell10; Ex01_7.cell11]
          ++ [Ex01_7.cell12] ++ [Ex01_7.cell13]).
  intros H.
  apply run_cells_app_ok in H as (s1 & H1 & H).
  destruct (stage_load_ok w g) as [G HG]; [by rewrite H1|].
  rewrite (stage_load w g G HG) in H1. injection H1 as <-.
  set (w1 := mkWorld _ _) in H.
  apply run_cells_app_ok in H as (s2 & H2 & H).
  destruct (stage_declare w1 (Ex01_7.with_kg G g)) as (M0 & Hrun2 & HN & HL & HK).
  rewrite Hrun2 in H2. injection H2 as <-.
  set (g2 := Ex01_7.with_model M0 (Ex01_7.with_kg G g)) in *.
  apply run_cells_app_ok in H as (s3 & H3 & H).
  destruct (stage_observe_ok w1 g2 HN HL) as [HqN HqL]; [by rewrite H3|].
  rewrite (stage_observe w1 g2 HN HL HqN HqL) in H3. injection H3 as <-.
  cbn [Ex01_7.kg Ex01_7.model Ex01_7.with_model Ex01_7.with_kg g2] in H, HqN, HqL.
  set (M2 := extended (extended M0 _ _ _) _ _ _) in *.
  set (g3 := Ex01_7.with_predicate "LIKES" (Ex01_7.with_model M2 g2)) in *.
  set (w3 := mkWorld _ _) in H.
  assert (predicates M2 !! "KNOWS" = Some (mkPredicate "KNOWS" false 2 [] [] []))
    as HK2.
  { unfold M2. by rewrite !extended_lookup_ne. }
  apply run_cells_app_ok in H as (s4 & H4 & H). rewrite run_cells_single in H4.
  destruct (cell12_ok w3 g3) as (lines & Hfile3 & Hcsv); [by rewrite H4|].
  destruct (stage_targets w3 g3 lines _ Hfile3 Hcsv HK2 eq_refl)
    as (w4 & g4 & p4 & Hrun4 & _ & _ & Hkg4 & _ & _ & Hp4 & Hsz4 & _).
  rewrite Hrun4 in H4. injection H4 as <-.
  rewrite run_cells_single in H.
  destruct (cell13_ok w4 g4 p4 Hp4 Hsz4 H) as [HqK HqW].
  rewrite Hkg4 in HqK, HqW. cbn [Ex01_7.kg Ex01_7.with_kg Ex01_7.with_predicate
                                  Ex01_7.with_model g2 g3] in HqK, HqW.
  exists G, lines. split_and!; [exact HG | | by repeat constructor | exact Hcsv].
  cbn [fs w3] in Hfile3. by rewrite !lookup_insert_ne in Hfile3.
Qed.

Lemma cell14_run (w : world) (g : Ex01_7.globals) :
  Ex01_7.cell14 (w, g) =
    let w1 := mkWorld (fs w) (trace w ++ [EvInfer]) in
    match psl_infer (Ex01_7.model g) with
    | Some rows =>
        (Ok tt,
         (w1, Ex01_7.with_results
                (Ex01_7.mkDf ((λ r, Ex01_7.mkRes r.1.1 r.1.2 r.2) <$> rows) None) g))
    | None => (Raise ModelError, (w1, g))
    end.
Proof.
  unfold Ex01_7.cell14. steps. destruct (psl_infer (Ex01_7.model g)); by steps.
Qed.

Lemma select_frame_run (w : world) (g : Ex01_7.globals) :
  Ex01_7.cell15 (w, g) =
    match predicates (Ex01_7.model g) !! "KNOWS" with
    | Some _ =>
        (Ok tt, (w, Ex01_7.with_df_ref Ex01_7.ResultsFrame
                      (Ex01_7.with_predicate "KNOWS" g)))
    | None => (Raise KeyError, (w, g))
    end.
Proof.
  unfold Ex01_7.cell15. steps.
  destruct (predicates (Ex01_7.model g) !! "KNOWS"); by steps.
Qed.

Lemma comparison_events_iterrows (rows : list Ex01_7.res_row) (ds : list float) d :
  Ex01_7.df_rows d = rows →
  (zip (Ex01_7.iterrows d) ds ≫= λ x,
     match frame_key x.1.2 with
     | Some k => [EvLookup k; EvSetDiff x.1.1 x.2]
     | None => []
     end) = comparison_events rows ds.
Proof. intros <-. reflexivity. Qed.

(** A completed run of cells 14 to 18. *)
Lemma cells_14_to_18 (w : world) (g : Ex01_7.globals) :
  (run_cells [Ex01_7.cell14; Ex01_7.cell15; Ex01_7.cell16; Ex01_7.cell17;
              Ex01_7.cell18] (w, g)).1 = Ok tt →
  ∃ rows m diffs w' g',
    let frame := (λ r, Ex01_7.mkRes r.1.1 r.1.2 r.2) <$> rows in
    run_cells [Ex01_7.cell14; Ex01_7.cell15; Ex01_7.cell16; Ex01_7.cell17;
               Ex01_7.cell18] (w, g) = (Ok tt, (w', g')) ∧
    psl_infer (Ex01_7.model g) = Some rows ∧
    recorded (Ex01_7.df_dat g) = Some m ∧
    Forall2 (λ row d, diff_of m row = Some d) frame diffs ∧
    fs w' = fs w ∧
    trace w' =
      trace w ++ EvInfer :: comparison_events frame diffs
                 ++ (EvPrint <$> suspects_rounded frame diffs) ∧
    Ex01_7.model g' = Ex01_7.model g ∧
    Ex01_7.dat_val g' = m ∧
    Ex01_7.df g' = Ex01_7.mkDf frame (Some diffs).
Proof.
  intros H.
  assert (∃ s14 s15 s16 s17 s18,
            Ex01_7.cell14 (w, g) = (Ok tt, s14) ∧ Ex01_7.cell15 s14 = (Ok tt, s15) ∧
            Ex01_7.cell16 s15 = (Ok tt, s16) ∧ Ex01_7.cell17 s16 = (Ok tt, s17) ∧
            Ex01_7.cell18 s17 = (Ok tt, s18) ∧
            run_cells [Ex01_7.cell14; Ex01_7.cell15; Ex01_7.cell16; Ex01_7.cell17;
                       Ex01_7.cell18] (w, g) = (Ok tt, s18))
    as (s14 & s15 & s16 & s17 & s18 & H14 & H15 & H16 & H17 & H18 & Hrun).
  { cbn [run_cells] in *.
    apply bind_ok in H as ([] & s14 & H14 & H).
    apply bind_ok in H as ([] & s15 & H15 & H).
    apply bind_ok in H as ([] & s16 & H16 & H).
    apply bind_ok in H as ([] & s17 & H17 & H).
    apply bind_ok in H as ([] & s18 & H18 & _).
    exists s14, s15, s16, s17, s18. split_and!; try done.
    rewrite bind_run, H14. cbv beta iota. rewrite bind_run, H15. cbv beta iota.
    rewrite bind_run, H16. cbv beta iota. rewrite bind_run, H17. cbv beta iota.
    rewrite bind_run, H18. done. }
  rewrite Hrun. clear H Hrun.
  rewrite cell14_run in H14. cbn zeta in H14.
  destruct (psl_infer (Ex01_7.model g)) as [rows|] eqn:Hinf; [|done].
  injection H14 as <-.
  remember ((λ r, Ex01_7.mkRes r.1.1 r.1.2 r.2) <$> rows) as frame eqn:Hframe.
  rewrite select_frame_run in H15. cbn [Ex01_7.model Ex01_7.with_results] in H15.
  destruct (predicates (Ex01_7.model g) !! "KNOWS") as [pK|]; [|done].
  injection H15 as <-.
  set (w1 := mkWorld (fs w) (trace w ++ [EvInfer])) in *.
  set (g1 := Ex01_7.with_df_ref _ _) in *.
  assert (Ex01_7.df g1 = Ex01_7.mkDf frame None) as Hdf1 by done.
  assert ((Ex01_7.cell16 (w1, g1)).1 = Ok tt) as Hok16 by by rewrite H16.
  destruct (cell16_completed w1 g1 Hok16) as (m & ds & Hm & Hds & Hg & Hfs & Htr).
  { rewrite Hdf1. unfold current_diff. cbn. by rewrite length_replicate. }
  rewrite H16 in Hg, Hfs, Htr. destruct s16 as [w2 g2]. cbn [fst snd] in Hg, Hfs, Htr.
  rewrite Hdf1 in Hds, Hg, Htr. cbn [Ex01_7.df_rows] in Hds, Hg.
  rewrite (comparison_events_iterrows frame) in Htr by done.
  assert (Ex01_7.df g2 = match frame with
                         | [] => Ex01_7.mkDf frame None
                         | _ :: _ => Ex01_7.mkDf frame (Some ds)
                         end) as Hdf2 by by rewrite Hg, df_with_df.
  unfold Ex01_7.cell17 in H17. revert H17. steps. rewrite Hdf2.
  destruct frame as [|r frame']; [done|].
  cbn [Ex01_7.df_diff]. steps. intros [= <-].
  unfold Ex01_7.cell18 in H18. revert H18. steps. rewrite Hdf2.
  unfold Ex01_7.iterrows. cbn [Ex01_7.df_rows Ex01_7.df_diff].
  rewrite (report_loop [] ds (r :: frame')).
  2:{ eapply Forall2_impl; [exact Hds|]. cbn. intros row d. unfold diff_of.
      destruct (frame_key row); [by eexists | done]. }
  intros [= <-].
  exists rows, m, ds. eexists _, _. split; [reflexivity|].
  cbn [fs trace]. rewrite Hfs, Htr, <- Hframe.
  split_and!; try done.
  - unfold w1. cbn [trace]. by rewrite <- !(assoc_L (++)).
  - by rewrite Hg, model_with_df.
  - by rewrite Hg, dat_val_with_df.
Qed.

(** C1: the inference workflow of ex01_7 performs its steps in the order
    the spec lists them.  Whatever the files hold and wherever the run
    stops, its calls never go back from a later step to an earlier one
    (loading, looking at the graph, querying and filling the tables,
    inference, comparison).  A run that completes did exactly this, and
    nothing else: it loaded [acq.ttl], showed and saved the graph, ran the
    two fixed queries for neighbours and interests and passed each pair of
    different persons of their rows to [add_data_row] as an observation,
    opened the targets file and passed each recognised pair to the truth
    and target tables of [Knows], ran the two fixed queries for
    acquaintances and wanted introductions and passed the pairs of their
    rows that are not targets as observations, called the inference of
    the model that holds exactly these tables, and then, for each row
    [(id1, id2, probability)] returned, looked up the truth recorded under
    the key of the row in the dictionary built from the recognised targets
    and set [diff] to the probability minus that truth, before printing
    the suspects. *)
Theorem workflow_steps_in_order (files : gmap string file) :
  let out := Ex01_7.run (mkWorld files []) in
  in_order 4 (trace out.2.1) ∧
  (out.1 = Ok tt →
   ∃ (G : Graph) (lines : list string) (rows : list (Z * Z * float))
     (m : gmap (Z * Z) float) (diffs : list float),
     let pairs := omap Py.unpack2 (csv_reader Ex01_7.tab lines) in
     let known := recognised G pairs in
     let M := Ex01_7.model out.2.2 in
     let frame := (λ r, Ex01_7.mkRes r.1.1 r.1.2 r.2) <$> rows in
     files !! "acq.ttl" = Some (Turtle G) ∧
     files !! "dat/psl/knows_targets.txt" = Some (Text lines) ∧
     rows_of M "NEIGHBORS" OBSERVATIONS
       = rows_for 1%float (distinct_pairs (sparql G Ex01_7.query_neighbors)) ∧
     rows_of M "LIKES" OBSERVATIONS
       = rows_for 1%float (distinct_pairs (sparql G Ex01_7.query_likes)) ∧
     rows_of M "KNOWS" OBSERVATIONS
       = rows_for 1%float (non_target_pairs pairs (sparql G Ex01_7.query_knows))
         ++ rows_for 0%float
              (non_target_pairs pairs (sparql G Ex01_7.query_wants_intro)) ∧
     rows_of M "KNOWS" TARGETS
       = ((λ r, DataRow [Ex01_7.col0 r; Ex01_7.col1 r] 1%float) <$> known) ∧
     rows_of M "KNOWS" TRUTH
       = ((λ r, DataRow [Ex01_7.col0 r; Ex01_7.col1 r] (Ex01_7.col_truth r))
            <$> known) ∧
     psl_infer M = Some rows ∧
     recorded known = Some m ∧
     Forall2 (λ row d,
                ∃ k v, frame_key row = Some k ∧ m !! k = Some v ∧
                       d = PrimFloat.sub (Ex01_7.res_truth row) v)
       frame diffs ∧
     Ex01_7.df out.2.2 = Ex01_7.mkDf frame (Some diffs) ∧
     trace out.2.1 =
       [EvLoadTtl "acq.ttl"; EvShow "tmp.html"; EvSaveTtl "foo.ttl"]
       ++ EvQuery Ex01_7.query_neighbors
          :: additions "NEIGHBORS" OBSERVATIONS 1%float
               (distinct_pairs (sparql G Ex01_7.query_neighbors))
       ++ EvQuery Ex01_7.query_likes
          :: additions "LIKES" OBSERVATIONS 1%float
               (distinct_pairs (sparql G Ex01_7.query_likes))
       ++ EvOpen "dat/psl/knows_targets.txt" :: target_events "KNOWS" G pairs
       ++ EvQuery Ex01_7.query_knows
          :: additions "KNOWS" OBSERVATIONS 1%float
               (non_target_pairs pairs (sparql G Ex01_7.query_knows))
       ++ EvQuery Ex01_7.query_wants_intro
          :: additions "KNOWS" OBSERVATIONS 0%float
               (non_target_pairs pairs (sparql G Ex01_7.query_wants_intro))
       ++ EvInfer
          :: comparison_events frame diffs
       ++ (EvPrint <$> suspects_rounded frame diffs)).
Proof.
  intros out. split.
  { pose proof (ordered_notebook (mkWorld files [], Ex01_7.init)) as H.
    unfold out, Ex01_7.run.
    destruct (run_cells Ex01_7.notebook _) as [[[]|e] s']; apply H;
      split; constructor. }
  intros Hok. unfold out, Ex01_7.run in *. clear out.
  change Ex01_7.notebook with
    ([Ex01_7.cell01; Ex01_7.cell02; Ex01_7.cell03; Ex01_7.cell04; Ex01_7.cell05;
      Ex01_7.cell06; Ex01_7.cell07; Ex01_7.cell09; Ex01_7.cell10; Ex01_7.cell11;
      Ex01_7.cell12; Ex01_7.cell13] ++
     [Ex01_7.cell14; Ex01_7.cell15; Ex01_7.cell16; Ex01_7.cell17; Ex01_7.cell18])
    in *.
  set (w := mkWorld files []) in *.
  rewrite run_cells_app.
  apply run_cells_app_ok in Hok as (s13 & H13 & Hok).
  destruct (cells_1_to_13_ok w Ex01_7.init) as (G & lines & Hacq & Hfile & Hq & Hcsv);
    [by rewrite H13|].
  destruct (cells_1_to_13 w Ex01_7.init G lines Hacq Hfile Hq Hcsv)
    as (w13 & g13 & Hrun13 & _ & Htr13 & _ & _ & Hdat & _ & HN & HL & HK & HT & HR & _).
  rewrite Hrun13 in H13 |- *. injection H13 as <-.
  destruct (cells_14_to_18 w13 g13 Hok)
    as (rows & m & diffs & w18 & g18 & Hrun18 & Hinf & Hm & Hds & _ & Htr18 & Hmod
        & _ & Hdf).
  rewrite Hrun18. cbn [fst snd]. rewrite Hmod.
  exists G, lines, rows, m, diffs. cbn zeta.
  rewrite Hdat in Hm.
  split_and!; try done.
  - eapply Forall2_impl; [exact Hds|]. cbn. intros row d. unfold diff_of.
    destruct (frame_key row) as [k|]; [|done]. cbn.
    destruct (m !! k) as [v|] eqn:Hv; [|done]. cbn. intros [= <-]. by exists k, v.
  - rewrite Htr18, Htr13. unfold w. cbn [trace app].
    repeat (rewrite <- (assoc_L (++)) || rewrite <- app_comm_cons). done.
Qed.

End Ex01_7_Completed.

(** ** State that passes between cells and between notebooks *)

Section Handover.
Context {L : Library}.






End Handover.

(** ** The example run *)



Lemma workflow_steps_in_order_witness :
  let out := Ex01_7.run (mkWorld Demo.acq_files []) in
  out.1 = Ok tt ∧
  in_order 4 (trace out.2.1) ∧
  printed (trace out.2.1) = ["UNKNOWN 2 3"; "?? acq:person_1 foaf:knows acq:person_2"] ∧
  ∃ rows diffs,
    psl_infer (Ex01_7.model out.2.2) = Some rows ∧
    rows = [(1%Z, 2%Z, 0.5%float); (1%Z, 3%Z, 0.5%float)] ∧
    Ex01_7.df out.2.2
      = Ex01_7.mkDf ((λ r, Ex01_7.mkRes r.1.1 r.1.2 r.2) <$> rows) (Some diffs) ∧
    diffs = [(-0.5)%float; 0.5%float].
Proof.
  intros out.
  assert (out.1 = Ok tt) as Hok.
  { vm_compute. reflexivity. }
  destruct (@workflow_steps_in_order Demo.library Demo.acq_files) as [Hord Hrun].
  destruct (Hrun Hok)
    as (G & lines & rows & m & diffs & _ & _ & _ & _ & _ & _ & _ & Hinf & _ & _
        & Hdf & _).
  fold out in Hord, Hinf, Hdf.
  assert (psl_infer (Ex01_7.model out.2.2)
            = Some [(1%Z, 2%Z, 0.5%float); (1%Z, 3%Z, 0.5%float)]) as Hinf'.
  { vm_compute. reflexivity. }
  assert (Ex01_7.df_diff (Ex01_7.df out.2.2) = Some [(-0.5)%float; 0.5%float])
    as Hcol.
  { vm_compute. reflexivity. }
  split_and!; [exact Hok | exact Hord | vm_compute; reflexivity |].
  exists rows, diffs. split_and!; [exact Hinf | congruence | exact Hdf |].
  rewrite Hdf in Hcol. cbn [Ex01_7.df_diff] in Hcol. congruence.
Defined.

(** ** The example runs, continued *)

Lemma distinct_pairs_become_observations_witness :
  let s := Demo.declared in
  let g := Ex01_7.with_predicate "NEIGHBORS" s.2 in
  let rows := sparql (Ex01_7.kg g) Ex01_7.query_neighbors in
  let out := for_each rows Ex01_7.observe_distinct (s.1, g) in
  length rows = 4 ∧
  out.1 = Ok tt ∧
  rows_of (Ex01_7.model out.2.2) "NEIGHBORS" OBSERVATIONS
    = [DataRow ["1"; "2"] 1%float; DataRow ["2"; "1"] 1%float].
Proof.
  intros s g rows out.
  assert (Forall (λ row : list term, (2 ≤ length row)%nat) rows) as Hrows.
  { vm_compute. repeat constructor. }
  assert (predicates (Ex01_7.model g) !! Ex01_7.predicate g
            = Some (mkPredicate "NEIGHBORS" true 2 [] [] [])) as Hp.
  { vm_compute. reflexivity. }
  destruct (distinct_pairs_become_observations rows s.1 g _
              Hrows Hp eq_refl) as (Hok & Hobs & _).
  split_and!; [by vm_compute | exact Hok |].
  change (Ex01_7.predicate g) with "NEIGHBORS" in Hobs.
  fold out in Hobs. rewrite Hobs. vm_compute. reflexivity.
Defined.

Lemma non_targets_become_observations_witness :
  let s := Demo.after_targets in
  let out := Ex01_7.cell13 (s.1, s.2) in
  Ex01_7.targets s.2 = [("1", "2"); ("1", "3"); ("2", "3")] ∧
  out.1 = Ok tt ∧
  rows_of (Ex01_7.model out.2.2) "KNOWS" OBSERVATIONS = [] ∧
  length (rows_of (Ex01_7.model out.2.2) "KNOWS" TARGETS) = 2.
Proof.
  intros s out.
  assert (get_predicate (Ex01_7.model s.2) "Knows"
            = Some (mkPredicate "KNOWS" false 2 []
                      [DataRow ["1"; "2"] 1%float; DataRow ["1"; "3"] 1%float]
                      [DataRow ["1"; "2"] 1%float; DataRow ["1"; "3"] 0%float])) as Hp.
  { vm_compute. reflexivity. }
  assert (Forall (λ row : list term, (2 ≤ length row)%nat)
            (sparql (Ex01_7.kg s.2) Ex01_7.query_knows)) as Hk.
  { vm_compute. repeat constructor. }
  assert (Forall (λ row : list term, (2 ≤ length row)%nat)
            (sparql (Ex01_7.kg s.2) Ex01_7.query_wants_intro)) as Hw.
  { vm_compute. repeat constructor. }
  destruct (@non_targets_become_observations Demo.library s.1 s.2 _ Hp eq_refl Hk Hw)
    as (Hok & Hobs & Htg & _).
  fold out in Hok, Hobs, Htg.
  split_and!; [by vm_compute | exact Hok | |].
  - rewrite Hobs. vm_compute. reflexivity.
  - rewrite Htg. reflexivity.
Defined.

Lemma targets_file_is_classified_witness :
  let s := Demo.before_targets in
  let lines := [Demo.tab_line "1" "2"; Demo.tab_line "1" "3"; Demo.tab_line "2" "3"] in
  let out := Ex01_7.cell12 (s.1, s.2) in
  fs s.1 !! "dat/psl/knows_targets.txt" = Some (Text lines) ∧
  out.1 = Ok tt ∧
  Ex01_7.df_dat out.2.2
    = [Ex01_7.mkRow "1" "2" 1%float; Ex01_7.mkRow "1" "3" 0%float] ∧
  printed (trace out.2.1) = printed (trace s.1) ++ ["UNKNOWN 2 3"].
Proof.
  intros s lines out.
  assert (fs s.1 !! "dat/psl/knows_targets.txt" = Some (Text lines)) as Hfile.
  { vm_compute. reflexivity. }
  assert (Forall (λ row, length row = 2) (csv_reader Ex01_7.tab lines)) as Hrows.
  { vm_compute. repeat constructor. }
  assert (get_predicate (Ex01_7.model s.2) "Knows"
            = Some (mkPredicate "KNOWS" false 2 [] [] [])) as Hp.
  { vm_compute. reflexivity. }
  destruct (targets_file_is_classified s.1 s.2 lines _ Hfile Hrows Hp
              eq_refl) as (Hok & Hdat & _ & _ & _ & _ & Hpr & _).
  fold out in Hok, Hdat, Hpr.
  split_and!; [exact Hfile | exact Hok | |].
  - rewrite Hdat. vm_compute. reflexivity.
  - rewrite Hpr. apply (f_equal (app (printed (trace s.1)))). vm_compute. reflexivity.
Defined.

Lemma later_truth_overwrites_earlier_witness :
  let s := Demo.before_compare in
  Ex01_7.df_dat s.2
    = [] ++ Ex01_7.mkRow "1" "2" 1%float :: [Ex01_7.mkRow "1" "3" 0%float] ∧
  (Ex01_7.cell16 (s.1, s.2)).1 = Ok tt ∧
  Ex01_7.dat_val (Ex01_7.cell16 (s.1, s.2)).2.2 !! (1%Z, 2%Z) = Some 1%float.
Proof.
  intros s.
  assert (Ex01_7.df_dat s.2
            = [] ++ Ex01_7.mkRow "1" "2" 1%float :: [Ex01_7.mkRow "1" "3" 0%float])
    as Hdat.
  { vm_compute. reflexivity. }
  assert ((Ex01_7.cell16 (s.1, s.2)).1 = Ok tt) as Hok.
  { vm_compute. reflexivity. }
  split_and!; [exact Hdat | exact Hok |].
  apply (@later_truth_overwrites_earlier Demo.library s.1 s.2 []
           [Ex01_7.mkRow "1" "3" 0%float] (Ex01_7.mkRow "1" "2" 1%float) 1%Z 2%Z Hdat).
  - vm_compute. reflexivity.
  - vm_compute. reflexivity.
  - repeat constructor. intros [_ H]. vm_compute in H. discriminate H.
  - exact Hok.
Defined.

Lemma report_needs_diff_column_witness :
  let s := Demo.before_compare in
  Ex01_7.df_diff (Ex01_7.df s.2) = None ∧
  length (Ex01_7.df_rows (Ex01_7.df s.2)) = 2 ∧
  Ex01_7.cell18 (s.1, s.2) = (Raise KeyError, (s.1, s.2)).
Proof.
  intros s.
  assert (Ex01_7.df_diff (Ex01_7.df s.2) = None) as Hnone.
  { vm_compute. reflexivity. }
  split_and!; [exact Hnone | by vm_compute |].
  rewrite (report_needs_diff_column s.1 s.2 Hnone).
  apply (f_equal (λ r : result unit, (r, (s.1, s.2)))). vm_compute. reflexivity.
Defined.

Lemma comparison_can_be_rerun_witness :
  let s := Demo.before_compare in
  let s1 := (Ex01_7.cell16 (s.1, s.2)).2 in
  Ex01_7.df_diff (Ex01_7.df s.2) = None ∧
  (Ex01_7.cell16 (s.1, s.2)).1 = Ok tt ∧
  (Ex01_7.cell16 s1).1 = Ok tt ∧
  (Ex01_7.cell16 s1).2.2 = s1.2.
Proof.
  intros s s1.
  assert (Ex01_7.df_diff (Ex01_7.df s.2) = None) as Hnone.
  { vm_compute. reflexivity. }
  assert ((Ex01_7.cell16 (s.1, s.2)).1 = Ok tt) as Hok.
  { vm_compute. reflexivity. }
  destruct (@comparison_can_be_rerun Demo.library s.1 s.2 Hnone Hok) as [H1 H2].
  split_and!; [exact Hnone | exact Hok | exact H1 | exact H2].
Defined.

Lemma tally_has_one_entry_per_row_witness :
  let g := Ex01_5.mkGlobals Demo.pasta_graph Ex01_5.query_flour_eggs_salt ["old"] in
  let out := @Ex01_5.cell11 Demo.recipes (mkWorld ∅ [], g) in
  length (@sparql Demo.recipes (Ex01_5.kg g) (Ex01_5.query g)) = 2 ∧
  out.1 = Ok tt ∧
  Ex01_5.tally out.2.2 = ["[True, True]"; "[False, False]"].
Proof.
  intros g out.
  set (rows := @sparql Demo.recipes (Ex01_5.kg g) (Ex01_5.query g)).
  assert (rows = rows ++ []) as Hrows by by rewrite app_nil_r.
  assert (Forall (λ row : list term, length row = 2) rows) as Hpre.
  { vm_compute. repeat constructor. }
  destruct (@tally_has_one_entry_per_row Demo.recipes (mkWorld ∅ []) g rows []
              Hrows Hpre I) as (Hok & Htally & _).
  fold out in Hok, Htally.
  split_and!; [by vm_compute | exact Hok |].
  rewrite Htally. vm_compute. reflexivity.
Defined.

Lemma tables_before_inference_witness :
  let lines := [Demo.tab_line "1" "2"; Demo.tab_line "1" "3"; Demo.tab_line "2" "3"] in
  let out :=
    run_cells
      [Ex01_7.cell01; Ex01_7.cell02; Ex01_7.cell03; Ex01_7.cell04; Ex01_7.cell05;
       Ex01_7.cell06; Ex01_7.cell07; Ex01_7.cell09; Ex01_7.cell10; Ex01_7.cell11;
       Ex01_7.cell12; Ex01_7.cell13] (Demo.acq_world, Ex01_7.init) in
  fs Demo.acq_world !! "acq.ttl" = Some (Turtle Demo.acq_graph) ∧
  fs Demo.acq_world !! "dat/psl/knows_targets.txt" = Some (Text lines) ∧
  out.1 = Ok tt ∧
  rows_of (Ex01_7.model out.2.2) "NEIGHBORS" OBSERVATIONS
    = [DataRow ["1"; "2"] 1%float; DataRow ["2"; "1"] 1%float] ∧
  rows_of (Ex01_7.model out.2.2) "KNOWS" TRUTH
    = [DataRow ["1"; "2"] 1%float; DataRow ["1"; "3"] 0%float].
Proof.
  intros lines out.
  assert (fs Demo.acq_world !! "acq.ttl" = Some (Turtle Demo.acq_graph)) as Hacq.
  { vm_compute. reflexivity. }
  assert (fs Demo.acq_world !! "dat/psl/knows_targets.txt" = Some (Text lines))
    as Hfile.
  { vm_compute. reflexivity. }
  assert (Forall (λ q, Forall (λ row : list term, (2 ≤ length row)%nat)
                         (sparql Demo.acq_graph q))
            [Ex01_7.query_neighbors; Ex01_7.query_likes; Ex01_7.query_knows;
             Ex01_7.query_wants_intro]) as Hq.
  { apply Forall_cons; split; [vm_compute; repeat constructor|].
    apply Forall_cons; split; [vm_compute; repeat constructor|].
    apply Forall_cons; split; [vm_compute; repeat constructor|].
    apply Forall_cons; split; [vm_compute; repeat constructor|].
    constructor. }
  assert (Forall (λ row, length row = 2) (csv_reader Ex01_7.tab lines)) as Hcsv.
  { vm_compute. repeat constructor. }
  destruct (@tables_before_inference Demo.library Demo.acq_world Ex01_7.init
              Demo.acq_graph lines Hacq Hfile Hq Hcsv)
    as (Hok & _ & _ & _ & HN & _ & _ & _ & HT & _).
  fold out in Hok, HN, HT.
  split_and!; [exact Hacq | exact Hfile | exact Hok | |].
  - rewrite HN. vm_compute. reflexivity.
  - rewrite HT. vm_compute. reflexivity.
Defined.
